(** * BLEtransfer: receiver session, wire codec and sender state machine

    A shallow embedding of
    - [shared_driver/src/transfer_session.cpp] (receiver session, block
      decode, CRC-32),
    - [compression.cpp] ([decompress_waveform]),
    - [app_data_transfer.c] (peripheral-side sender state machine),
    - [app_waveform.c] (24-bit sample packing, CRC-32),
    together with the properties of the protocol specification that can be
    settled on that code.

    Conventions.  A [uintN_t] is a [Z] in [0, 2^N) with the wrap-around
    written out; an [intN_t] is a [Z] in [-2^(N-1), 2^(N-1)).  A byte of a
    buffer is a [Byte.byte].  A [std::map] is a [gmap]; a [std::vector] is
    a [list].  Callbacks are recorded as a trace of events. *)

From Stdlib Require Import ZArith Lia.
From Stdlib.Strings Require Import Byte.
From stdpp Require Import gmap list.

Local Open Scope Z_scope.

(** ** Machine integers and bytes *)

Module Wire.

Definition u8 (z : Z) : Z := z mod 2 ^ 8.
Definition u16 (z : Z) : Z := z mod 2 ^ 16.
Definition u32 (z : Z) : Z := z mod 2 ^ 32.

(** Conversion to a signed type of the same width (two's complement). *)
Definition i16 (z : Z) : Z := (z + 2 ^ 15) mod 2 ^ 16 - 2 ^ 15.
Definition i32 (z : Z) : Z := (z + 2 ^ 31) mod 2 ^ 32 - 2 ^ 31.

Definition b2z (b : byte) : Z := Z.of_N (Byte.to_N b).

(** The cast [(uint8_t) z]. *)
Definition z2b (z : Z) : byte :=
  match Byte.of_N (Z.to_N (u8 z)) with
  | Some b => b
  | None => x00
  end.

(** [data[i]] for a pointer [data]: memory is a total function from
    offsets to bytes, whatever the length announced for the buffer. *)
Definition ptr := nat -> byte.

(** The memory seen through a pointer to a buffer holding [l]; the bytes
    behind the buffer are [rest]. *)
Definition buffer_then (l : list byte) (rest : ptr) : ptr :=
  fun i => match l !! i with
           | Some b => b
           | None => rest (i - length l)%nat
           end.

Definition zeros : ptr := fun _ => x00.

(** A pointer to a buffer holding [l] (zero bytes behind it). *)
Definition buffer (l : list byte) : ptr := buffer_then l zeros.

(** [p[off .. off + n)] as a vector. *)
Definition read_range (p : ptr) (off n : nat) : list byte :=
  map p (seq off n).

(** [p[off] | (p[off+1] << 8)] *)
Definition le16 (p : ptr) (off : nat) : Z :=
  Z.lor (b2z (p off)) (Z.shiftl (b2z (p (off + 1)%nat)) 8).

(** [p[off] | (p[off+1] << 8) | (p[off+2] << 16) | (p[off+3] << 24)] *)
Definition le32 (p : ptr) (off : nat) : Z :=
  Z.lor (Z.lor (Z.lor (b2z (p off))
                      (Z.shiftl (b2z (p (off + 1)%nat)) 8))
               (Z.shiftl (b2z (p (off + 2)%nat)) 16))
        (Z.shiftl (b2z (p (off + 3)%nat)) 24).

(** Little-endian store of a 16-bit and of a 32-bit field of a packed
    struct (the peripheral and both hosts are little-endian). *)
Definition put16 (z : Z) : list byte := [z2b z; z2b (Z.shiftr z 8)].
Definition put32 (z : Z) : list byte :=
  [z2b z; z2b (Z.shiftr z 8); z2b (Z.shiftr z 16); z2b (Z.shiftr z 24)].

End Wire.

Import Wire.

(** ** CRC-32 (crc32.cpp, app_waveform.c) *)

Module Crc32.

(** One turn of the inner loop:
    [if (crc & 1) crc = (crc >> 1) ^ 0xEDB88320; else crc >>= 1;] *)
Definition crc_bit (crc : Z) : Z :=
  if Z.testbit crc 0 then Z.lxor (Z.shiftr crc 1) 0xEDB88320
  else Z.shiftr crc 1.

(** [crc ^= b; for (k = 0; k < 8; k++) ...] *)
Definition crc_byte (crc : Z) (b : byte) : Z :=
  Nat.iter 8 crc_bit (Z.lxor crc (b2z b)).

(** [~crc] on a [uint32_t]. *)
Definition not32 (crc : Z) : Z := Z.lxor crc 0xFFFFFFFF.

(** [calculate_crc32_data] (and, line for line, the peripheral's
    [app_waveform_crc32]). *)
Definition calculate_crc32_data (data : list byte) : Z :=
  not32 (fold_left crc_byte data 0xFFFFFFFF).

(** The three bytes [calculate_crc32_samples] takes from one sample. *)
Definition sample_bytes (sample : Z) : list byte :=
  [ z2b (Z.land sample 0xFF);
    z2b (Z.land (Z.shiftr sample 8) 0xFF);
    z2b (Z.land (Z.shiftr sample 16) 0xFF) ].

(** [calculate_crc32_samples]: the outer loop over the samples, the loop
    over the three bytes of each. *)
Definition calculate_crc32_samples (samples : list Z) : Z :=
  not32 (fold_left (fun crc sample => fold_left crc_byte (sample_bytes sample) crc)
                   samples 0xFFFFFFFF).

End Crc32.

Import Crc32.

(** ** Sample packing on the peripheral (app_waveform.c) *)

Module Waveform.

(** [pack_24bit_sample]: the three bytes stored at [buffer + 3*index]. *)
Definition pack_24bit_sample (sample : Z) : list byte :=
  [ z2b (Z.land sample 0xFF);
    z2b (Z.land (Z.shiftr sample 8) 0xFF);
    z2b (Z.land (Z.shiftr sample 16) 0xFF) ].

(** The buffer [app_waveform_generate] fills by calling
    [pack_24bit_sample (sample, samples, i)] for [i = 0, 1, ...]. *)
Definition pack_24bit_samples (samples : list Z) : list byte :=
  concat (map pack_24bit_sample samples).

End Waveform.

Import Waveform.

(** ** Protocol constants (protocol.h) *)

Definition TOTAL_BLOCKS : Z := 1800.
Definition BLOCK_SIZE : Z := 7168.
Definition ACK_INTERVAL : Z := 20.
Definition CMD_START : Z := 0x01.
Definition CMD_STOP : Z := 0x02.
Definition CMD_ACK : Z := 0x03.
Definition SAMPLES_PER_WAVEFORM : nat := 2376.
Definition BYTES_PER_SAMPLE : nat := 3.
Definition WAVEFORM_HEADER_SIZE : nat := 38.

(** ** Block decode on the central (transfer_session.cpp, compression.cpp) *)

Module Codec.

(** The fields of [waveform_header_t] that [parse_waveform_header] writes;
    the reserved fields are left as they were. *)
Record waveform_header_t := {
  block_number : Z;
  timestamp_ms : Z;
  sample_rate_hz : Z;
  sample_count : Z;
  trigger_sample : Z;
  pulse_freq_hz : Z;
  temperature_cx10 : Z;
  gain_db : Z;
  crc32 : Z
}.

Record waveform_data_t := {
  header : waveform_header_t;
  samples : list Z
}.

Definition parse_waveform_header (data : ptr) : waveform_header_t :=
  {| block_number := u32 (le32 data 0);
     timestamp_ms := u32 (le32 data 4);
     sample_rate_hz := u32 (le32 data 8);
     sample_count := u16 (le16 data 12);
     trigger_sample := u16 (le16 data 16);
     pulse_freq_hz := u32 (le32 data 18);
     temperature_cx10 := i16 (le16 data 26);
     gain_db := b2z (data 28%nat);
     crc32 := u32 (le32 data 30) |}.

(** The body of the loop of [unpack_24bit_samples] for index [i]. *)
Definition unpack_24bit_sample (sample_data : ptr) (i : nat) : Z :=
  let offset := (i * 3)%nat in
  let sample :=
    Z.lor (Z.lor (b2z (sample_data offset))
                 (Z.shiftl (b2z (sample_data (offset + 1)%nat)) 8))
          (Z.shiftl (b2z (sample_data (offset + 2)%nat)) 16) in
  if negb (Z.land sample 0x800000 =? 0)
  then i32 (Z.lor sample 0xFF000000)
  else sample.

Definition unpack_24bit_samples (sample_data : ptr) (sample_count : nat) : list Z :=
  map (unpack_24bit_sample sample_data) (seq 0 sample_count).

(** [block_data + n] *)
Definition advance (p : ptr) (n : nat) : ptr := fun i => p (n + i)%nat.

Definition process_uncompressed_block (block_data : list byte) : option waveform_data_t :=
  if Z.of_nat (length block_data) <? Z.of_nat WAVEFORM_HEADER_SIZE + 7128 then None
  else
    let data := buffer block_data in
    Some {| header := parse_waveform_header data;
            samples := unpack_24bit_samples (advance data WAVEFORM_HEADER_SIZE)
                                            SAMPLES_PER_WAVEFORM |}.

(** zlib's return code for success. *)
Definition Z_OK : Z := 0.
Definition Z_DATA_ERROR : Z := -3.

(** The loop of [decompress_waveform] from index [i] on, [n] turns left,
    over the decompressed buffer. *)
Fixpoint delta_decode_from (decompressed_buffer : ptr) (i n : nat) (prev_sample : Z)
  : list Z :=
  match n with
  | O => []
  | S n' =>
      let delta := i16 (le16 decompressed_buffer (i * 2)) in
      let prev_sample := i32 (prev_sample + delta) in
      prev_sample :: delta_decode_from decompressed_buffer (S i) n' prev_sample
  end.

Section Zlib.

(** zlib's [uncompress (dest, &destLen, source, sourceLen)]: from the
    source bytes and the capacity of [dest], the return code and the bytes
    written to [dest] (their number is the new [destLen]). *)
Variable uncompress : list byte -> nat -> Z * list byte.

Definition decompress_waveform (compressed_data : list byte) : option (list Z) :=
  let expected_decompressed_size := (2376 * 2)%nat in
  let '(result, decompressed) := uncompress compressed_data expected_decompressed_size in
  if negb (result =? Z_OK)
     || negb (length decompressed =? expected_decompressed_size)%nat
  then None
  else Some (delta_decode_from (buffer decompressed) 0 2376 0).

Definition process_compressed_block (block_data : list byte) : option waveform_data_t :=
  if (length block_data <? WAVEFORM_HEADER_SIZE)%nat then None
  else
    let hdr := parse_waveform_header (buffer block_data) in
    match decompress_waveform (drop WAVEFORM_HEADER_SIZE block_data) with
    | None => None
    | Some smp =>
        let calculated_crc := calculate_crc32_samples smp in
        if negb (calculated_crc =? crc32 hdr) then None
        else Some {| header := hdr; samples := smp |}
    end.

End Zlib.

End Codec.

(** ** The decode pipeline in the specification's words

    These three definitions follow the text of the specification (4.1,
    "delta_decode" and "crc32"), not the code; they are what the code is
    compared with. *)

Module DecodeSpec.

(** "interpret as S little-endian signed 16-bit deltas" *)
Fixpoint deltas_le16 (buf : list byte) : list Z :=
  match buf with
  | lo :: hi :: rest => i16 (b2z lo + 256 * b2z hi) :: deltas_le16 rest
  | _ => []
  end.

(** "running sum from 0 produces the reconstructed samples" *)
Fixpoint running_sum (seed : Z) (deltas : list Z) : list Z :=
  match deltas with
  | [] => []
  | d :: rest => (seed + d) :: running_sum (seed + d) rest
  end.

(** "reflected CRC with polynomial [poly], initial value [init] and final
    XOR [xorout]", bit by bit, least significant bit first. *)
Definition crc_reflected (poly init xorout : Z) (data : list byte) : Z :=
  let shift (crc : Z) :=
    if Z.odd crc then Z.lxor (Z.div2 crc) poly else Z.div2 crc in
  let feed (crc : Z) (b : byte) := Nat.iter 8 shift (Z.lxor crc (b2z b)) in
  Z.lxor (fold_left feed data init) xorout.

Definition crc32_ieee : list byte -> Z :=
  crc_reflected 0xEDB88320 0xFFFFFFFF 0xFFFFFFFF.

End DecodeSpec.

(** ** Receiver session (transfer_session.cpp) *)

Module Stats.

(** [transfer_stats_t].  [elapsed_seconds], [throughput_kbps] and
    [progress_percent] are doubles computed from the fields below and the
    clock: [elapsed_since] is the session's start time when the session
    is active (elapsed time is counted from it) and [None] when it is not
    (elapsed time and throughput are reported as 0). *)
Record transfer_stats_t := {
  blocks_received : Z;
  total_blocks : Z;
  total_bytes_received : Z;
  total_chunks_received : Z;
  elapsed_since : option Z
}.

End Stats.

Module Receiver.

Import Codec.

Record transfer_session := {
  is_active : bool;
  start_time : Z;
  received_blocks : gmap Z (list byte);
  block_chunks : gmap Z (gmap Z (list byte));
  block_expected_chunks : gmap Z Z;
  last_acked_block : Z;
  total_bytes_received : Z;
  total_chunks_received : Z;
  (* whether a callback is registered (the pointer is not null) *)
  waveform_callback : bool;
  progress_callback : bool;
  completion_callback : bool;
  ack_callback : bool
}.

(** The calls a session makes to its callbacks. *)
Inductive event :=
| OnWaveform (waveform : waveform_data_t) (is_compressed : bool)
| OnAck (block_number : Z)
| OnProgress (stats : Stats.transfer_stats_t)
| OnCompletion (stats : Stats.transfer_stats_t).

Definition transfer_session_create : transfer_session :=
  {| is_active := false; start_time := 0;
     received_blocks := ∅; block_chunks := ∅; block_expected_chunks := ∅;
     last_acked_block := 0;
     total_bytes_received := 0; total_chunks_received := 0;
     waveform_callback := false; progress_callback := false;
     completion_callback := false; ack_callback := false |}.

(** The four [transfer_session_set_*_callback] with non-null callbacks. *)
Definition set_callbacks (session : transfer_session) : transfer_session :=
  {| is_active := is_active session; start_time := start_time session;
     received_blocks := received_blocks session;
     block_chunks := block_chunks session;
     block_expected_chunks := block_expected_chunks session;
     last_acked_block := last_acked_block session;
     total_bytes_received := total_bytes_received session;
     total_chunks_received := total_chunks_received session;
     waveform_callback := true; progress_callback := true;
     completion_callback := true; ack_callback := true |}.

(** [now] is [std::chrono::steady_clock::now()]. *)
Definition transfer_session_start (session : transfer_session) (now : Z) : transfer_session :=
  {| is_active := true; start_time := now;
     received_blocks := ∅; block_chunks := ∅; block_expected_chunks := ∅;
     last_acked_block := 0;
     total_bytes_received := 0; total_chunks_received := 0;
     waveform_callback := waveform_callback session;
     progress_callback := progress_callback session;
     completion_callback := completion_callback session;
     ack_callback := ack_callback session |}.

Definition set_is_active (b : bool) (session : transfer_session) : transfer_session :=
  {| is_active := b; start_time := start_time session;
     received_blocks := received_blocks session;
     block_chunks := block_chunks session;
     block_expected_chunks := block_expected_chunks session;
     last_acked_block := last_acked_block session;
     total_bytes_received := total_bytes_received session;
     total_chunks_received := total_chunks_received session;
     waveform_callback := waveform_callback session;
     progress_callback := progress_callback session;
     completion_callback := completion_callback session;
     ack_callback := ack_callback session |}.

Definition transfer_session_stop (session : transfer_session) : transfer_session :=
  set_is_active false session.

Definition transfer_session_is_active (session : transfer_session) : bool :=
  is_active session.

Definition transfer_session_get_stats (session : transfer_session) : Stats.transfer_stats_t :=
  {| Stats.blocks_received := u32 (Z.of_nat (size (received_blocks session)));
     Stats.total_blocks := TOTAL_BLOCKS;
     Stats.total_bytes_received := total_bytes_received session;
     Stats.total_chunks_received := total_chunks_received session;
     Stats.elapsed_since :=
       if is_active session then Some (start_time session) else None |}.

(** [m[k]] on a [std::map] whose values are vectors or maps: the value
    stored under [k], or the empty value when there is none. *)
Definition chunks_of (m : gmap Z (gmap Z (list byte))) (block_number : Z)
  : gmap Z (list byte) :=
  default ∅ (m !! block_number).

Definition chunk_of (m : gmap Z (list byte)) (i : Z) : list byte :=
  default [] (m !! i).

(** The reassembly loop [for (uint16_t i = 0; i < total_chunks; i++)]:
    the chunks stored under [0 .. total_chunks - 1], in that order.  (An
    index with no chunk reads as an empty vector; the block's entry is
    erased right after the loop.) *)
Definition reassemble (chunks : gmap Z (list byte)) (total_chunks : Z) : list byte :=
  concat (map (fun i => chunk_of chunks (Z.of_nat i)) (seq 0 (Z.to_nat total_chunks))).

Section Zlib.

Variable uncompress : list byte -> nat -> Z * list byte.

(** [bool is_compressed = (block_data.size () < BLOCK_SIZE)] *)
Definition looks_compressed (block_data : list byte) : bool :=
  Z.of_nat (length block_data) <? BLOCK_SIZE.

(** [success], with the waveform decoded when it is [true]. *)
Definition decode_block (block_data : list byte) : option waveform_data_t :=
  if looks_compressed block_data
  then process_compressed_block uncompress block_data
  else process_uncompressed_block block_data.

(** The call of the waveform callback an assembled block gives rise to. *)
Definition waveform_events (s : transfer_session) (block_data : list byte) : list event :=
  match decode_block block_data with
  | Some w => if waveform_callback s then [OnWaveform w (looks_compressed block_data)] else []
  | None => []
  end.

(** The block of [transfer_session_process_chunk] guarded by
    [block_chunks[block_number].size() == total_chunks]; [session] already
    holds the stored chunk and the updated counters. *)
Definition complete_block (session : transfer_session) (block_number total_chunks : Z)
  : transfer_session * list event :=
  let block_data := reassemble (chunks_of (block_chunks session) block_number) total_chunks in
  let is_compressed := looks_compressed block_data in
  let success := decode_block block_data in
  let ev_waveform :=
    match success with
    | Some waveform =>
        if waveform_callback session then [OnWaveform waveform is_compressed] else []
    | None => []
    end in
  let session1 :=
    {| is_active := is_active session; start_time := start_time session;
       received_blocks := <[block_number := block_data]> (received_blocks session);
       block_chunks := delete block_number (block_chunks session);
       block_expected_chunks := delete block_number (block_expected_chunks session);
       last_acked_block := last_acked_block session;
       total_bytes_received := total_bytes_received session;
       total_chunks_received := total_chunks_received session;
       waveform_callback := waveform_callback session;
       progress_callback := progress_callback session;
       completion_callback := completion_callback session;
       ack_callback := ack_callback session |} in
  let should_ack := (0 <? block_number) && ((block_number + 1) mod ACK_INTERVAL =? 0) in
  let ev_ack := if should_ack && ack_callback session then [OnAck block_number] else [] in
  let ev_progress :=
    if progress_callback session
    then [OnProgress (transfer_session_get_stats session1)] else [] in
  if Z.of_nat (size (received_blocks session1)) =? TOTAL_BLOCKS
  then
    let session2 := set_is_active false session1 in
    (session2,
     ev_waveform ++ ev_ack ++ ev_progress ++
     (if completion_callback session
      then [OnCompletion (transfer_session_get_stats session2)] else []))
  else (session1, ev_waveform ++ ev_ack ++ ev_progress).

(** Lines "Store chunk" to the update of the two counters: the session
    once the chunk is stored under its block and chunk number. *)
Definition store_chunk (session : transfer_session)
  (block_number chunk_number chunk_size total_chunks : Z) (chunk_data : list byte)
  : transfer_session :=
  let '(chunks0, expected0) :=
    match block_chunks session !! block_number with
    | None => (<[block_number := ∅]> (block_chunks session),
               <[block_number := total_chunks]> (block_expected_chunks session))
    | Some _ => (block_chunks session, block_expected_chunks session)
    end in
  {| is_active := is_active session; start_time := start_time session;
     received_blocks := received_blocks session;
     block_chunks :=
       <[block_number := <[chunk_number := chunk_data]> (chunks_of chunks0 block_number)]>
         chunks0;
     block_expected_chunks := expected0;
     last_acked_block := last_acked_block session;
     total_bytes_received := u32 (total_bytes_received session + chunk_size);
     total_chunks_received := u32 (total_chunks_received session + 1);
     waveform_callback := waveform_callback session;
     progress_callback := progress_callback session;
     completion_callback := completion_callback session;
     ack_callback := ack_callback session |}.

(** [transfer_session_process_chunk (session, data, length)]: the value
    returned, the session afterwards and the callbacks invoked. *)
Definition transfer_session_process_chunk
  (session : transfer_session) (data : ptr) (length : nat)
  : bool * transfer_session * list event :=
  if (length <? 12)%nat then (false, session, [])
  else
    let block_number := u16 (le16 data 0) in
    let chunk_number := u16 (le16 data 2) in
    let chunk_size := u16 (le16 data 4) in
    let total_chunks := u16 (le16 data 6) in
    if TOTAL_BLOCKS <=? block_number then (false, session, [])
    else
      (* std::vector<uint8_t> chunk_data (data + 12, data + 12 + chunk_size) *)
      let chunk_data := read_range data 12 (Z.to_nat chunk_size) in
      let session1 :=
        store_chunk session block_number chunk_number chunk_size total_chunks chunk_data in
      if Z.of_nat (size (chunks_of (block_chunks session1) block_number)) =? total_chunks
      then
        let '(session2, events) := complete_block session1 block_number total_chunks in
        (true, session2, events)
      else (true, session1, []).

(** Feeding a sequence of notifications, each a pointer with its length:
    the session afterwards and all callbacks invoked, in order. *)
Fixpoint feed_all (session : transfer_session) (chunks : list (ptr * nat))
  : transfer_session * list event :=
  match chunks with
  | [] => (session, [])
  | (data, len) :: rest =>
      let '(_, session1, events1) := transfer_session_process_chunk session data len in
      let '(session2, events2) := feed_all session1 rest in
      (session2, events1 ++ events2)
  end.

End Zlib.

(** The partial entry of a block of which the chunks [0 .. k-1] have
    arrived, [chunk i] being the payload of chunk [i]. *)
Fixpoint chunks_upto (chunk : nat -> list byte) (k : nat) : gmap Z (list byte) :=
  match k with
  | O => ∅
  | S k' => <[Z.of_nat k' := chunk k']> (chunks_upto chunk k')
  end.

(** Every block number of the received set is below [TOTAL_BLOCKS]. *)
Definition keys_in_range (s : transfer_session) : Prop :=
  forall k, is_Some (received_blocks s !! k) -> 0 <= k < TOTAL_BLOCKS.

(** A notification that is exactly the frame [l]. *)
Definition frame (l : list byte) : ptr * nat := (buffer l, length l).

Definition is_waveform (e : event) : bool :=
  match e with OnWaveform _ _ => true | _ => false end.
Definition is_completion (e : event) : bool :=
  match e with OnCompletion _ => true | _ => false end.

(** A statistics snapshot, and an event, without the clock reading. *)
Definition stats_without_clock (st : Stats.transfer_stats_t) : Stats.transfer_stats_t :=
  {| Stats.blocks_received := Stats.blocks_received st;
     Stats.total_blocks := Stats.total_blocks st;
     Stats.total_bytes_received := Stats.total_bytes_received st;
     Stats.total_chunks_received := Stats.total_chunks_received st;
     Stats.elapsed_since := None |}.

Definition without_clock (e : event) : event :=
  match e with
  | OnProgress st => OnProgress (stats_without_clock st)
  | OnCompletion st => OnCompletion (stats_without_clock st)
  | _ => e
  end.

(** What a call of [transfer_session_process_chunk] does, the active flag
    and the clock readings left out. *)
Definition flag_blind (r : bool * transfer_session * list event)
  : bool * transfer_session * list event :=
  let '(ok, session, events) := r in
  (ok, set_is_active false session, map without_clock events).

Definition waveform_count (events : list event) : nat :=
  length (filter (fun e => is_waveform e = true) events).
Definition completion_count (events : list event) : nat :=
  length (filter (fun e => is_completion e = true) events).

End Receiver.

(** ** Sender state machine on the peripheral (app_data_transfer.c)

    The build configuration of the header is the one modelled:
    [BENCHMARK_MODE_ENABLED = 0] and [USE_COMPRESSION = 0]. *)

Module Sender.

Definition BLOCK_SIZE_MAX : Z := 7168.
Definition CHUNK_SIZE : Z := 244.
Definition CHUNKS_PER_BLOCK : Z := (BLOCK_SIZE_MAX + CHUNK_SIZE - 1) / CHUNK_SIZE.
Definition CTRL_CMD_START : Z := 0x01.
Definition CTRL_CMD_STOP : Z := 0x02.
Definition CTRL_CMD_ACK : Z := 0x03.
Definition CTRL_CMD_REQUEST_RESUME : Z := 0x04.
Definition MAX_NOTIFICATIONS_IN_FLIGHT : Z := 2.
Definition MIN_DELAY_MS : Z := 15.
Definition MAX_DELAY_MS : Z := 50.
Definition INITIAL_DELAY_MS : Z := 15.
Definition CONGESTION_THRESHOLD : Z := 3.
Definition SUCCESS_THRESHOLD : Z := 50.
Definition BACKOFF_INCREMENT : Z := 5.
Definition SPEEDUP_DECREMENT : Z := 1.
Definition CONGESTION_REPORT_INTERVAL_MS : Z := 5000.
(** [sizeof (chunk_header_t)] and [sizeof (control_msg_t)], both packed. *)
Definition sizeof_chunk_header_t : Z := 12.
Definition sizeof_control_msg_t : nat := 7.

Inductive transfer_state_t :=
| TRANSFER_STATE_IDLE
| TRANSFER_STATE_ACTIVE
| TRANSFER_STATE_PAUSED
| TRANSFER_STATE_WAITING_ACK
| TRANSFER_STATE_COMPLETE.

Definition state_eqb (a b : transfer_state_t) : bool :=
  match a, b with
  | TRANSFER_STATE_IDLE, TRANSFER_STATE_IDLE
  | TRANSFER_STATE_ACTIVE, TRANSFER_STATE_ACTIVE
  | TRANSFER_STATE_PAUSED, TRANSFER_STATE_PAUSED
  | TRANSFER_STATE_WAITING_ACK, TRANSFER_STATE_WAITING_ACK
  | TRANSFER_STATE_COMPLETE, TRANSFER_STATE_COMPLETE => true
  | _, _ => false
  end.

(** What [wiced_bt_gatt_server_send_notification] answers. *)
Inductive gatt_status := GATT_SUCCESS | GATT_CONGESTED | GATT_OTHER_ERROR.

Record transfer_stats_t := {
  start_time_ms : Z;
  end_time_ms : Z;
  total_bytes : Z;
  total_chunks : Z;
  blocks_sent : Z;
  retransmits : Z;
  disconnections : Z;
  congestion_events : Z;
  send_failures : Z
}.

(** The file's static variables, grouped as the file groups them. *)

(** "Transfer state" and "Block and chunk tracking", with the block
    buffer.  [block_data] holds the first [current_block_size] bytes of
    the static buffer, those written by [generate_block_data]. *)
Record tracking := {
  current_state : transfer_state_t;
  current_block : Z;
  current_chunk : Z;
  last_acked_block : Z;
  waiting_for_ack : bool;
  block_data : list byte;
  current_block_size : Z
}.

(** Connection, "MTU and chunk sizing". *)
Record sizing := {
  connection_id : Z;
  notifications_enabled : bool;
  negotiated_mtu : Z;
  actual_chunk_size : Z;
  actual_chunks_per_block : Z
}.

(** "Congestion tracking" and "Credit-based flow control". *)
Record pacing := {
  consecutive_send_failures : Z;
  consecutive_send_successes : Z;
  current_delay_ms : Z;
  last_congestion_report_time : Z;
  notification_credits : Z;
  notifications_queued : Z;
  notifications_transmitted : Z
}.

Record sender := {
  trk : tracking;
  szg : sizing;
  pac : pacing;
  stats : transfer_stats_t
}.

Definition zero_stats : transfer_stats_t :=
  {| start_time_ms := 0; end_time_ms := 0; total_bytes := 0; total_chunks := 0;
     blocks_sent := 0; retransmits := 0; disconnections := 0;
     congestion_events := 0; send_failures := 0 |}.

(** The static initialisers. *)
Definition initial_state : sender :=
  {| trk := {| current_state := TRANSFER_STATE_IDLE; current_block := 0;
               current_chunk := 0; last_acked_block := 0; waiting_for_ack := false;
               block_data := replicate (Z.to_nat BLOCK_SIZE_MAX) x00;
               current_block_size := BLOCK_SIZE_MAX |};
     szg := {| connection_id := 0; notifications_enabled := false;
               negotiated_mtu := 23; actual_chunk_size := 12;
               actual_chunks_per_block := CHUNKS_PER_BLOCK |};
     pac := {| consecutive_send_failures := 0; consecutive_send_successes := 0;
               current_delay_ms := 30; last_congestion_report_time := 0;
               notification_credits := MAX_NOTIFICATIONS_IN_FLIGHT;
               notifications_queued := 0; notifications_transmitted := 0 |};
     stats := zero_stats |}.

Definition set_state (st : transfer_state_t) (t : tracking) : tracking :=
  {| current_state := st; current_block := current_block t;
     current_chunk := current_chunk t; last_acked_block := last_acked_block t;
     waiting_for_ack := waiting_for_ack t; block_data := block_data t;
     current_block_size := current_block_size t |}.

(** [(current_block_size + actual_chunk_size - 1) / actual_chunk_size]
    stored in a [uint16_t]. *)
Definition chunks_in_block (block_size chunk_size : Z) : Z :=
  u16 (u32 (block_size + chunk_size - 1) / chunk_size).

(** [this_chunk_size] of [send_chunk]. *)
Definition this_chunk_size (block_size chunk_size chunk_num : Z) : Z :=
  let offset := u32 (chunk_num * chunk_size) in
  if block_size <? u32 (offset + chunk_size)
  then u16 (block_size - offset)
  else chunk_size.

(** The notification [send_chunk] builds in [packet]: the packed
    [chunk_header_t] (with [flags = 0], no compression) and
    [this_chunk_size] bytes copied from [block_data + offset].  The copy
    stays inside the block whenever [chunk_num] is below the number of
    chunks of the block. *)
Definition chunk_packet (data : list byte) (block_size chunk_size : Z)
  (block_num chunk_num : Z) : list byte :=
  let total_chunks_for_block := chunks_in_block block_size chunk_size in
  let offset := u32 (chunk_num * chunk_size) in
  let this := this_chunk_size block_size chunk_size chunk_num in
  put16 block_num ++ put16 chunk_num ++ put16 this ++ put16 total_chunks_for_block
  ++ put16 (u16 block_size) ++ [z2b 0; z2b 0]
  ++ take (Z.to_nat this) (drop (Z.to_nat offset) data).

(** The notifications of one block, in the order in which successful
    calls of [send_chunk] emit them: chunk 0, chunk 1, ... *)
Definition chunk_packets (data : list byte) (chunk_size block_num : Z)
  : list (list byte) :=
  let block_size := u32 (Z.of_nat (length data)) in
  map (fun k => chunk_packet data block_size chunk_size block_num (Z.of_nat k))
      (seq 0 (Z.to_nat (chunks_in_block block_size chunk_size))).

Section BlockSource.

(** [generate_block_data (block_num, buffer)]: the bytes written to the
    buffer; their number is the value returned.  (The samples come from a
    floating-point simulation in app_waveform.c.) *)
Variable generate_block_data : Z -> list byte.

Definition load_block (block_num : Z) (st : transfer_state_t) (chunk : Z)
  (acked : Z) (waiting : bool) : tracking :=
  {| current_state := st; current_block := block_num; current_chunk := chunk;
     last_acked_block := acked; waiting_for_ack := waiting;
     block_data := generate_block_data block_num;
     current_block_size := u32 (Z.of_nat (length (generate_block_data block_num))) |}.

(** [reset_transfer_state], called by [app_data_transfer_init]. *)
Definition app_data_transfer_init (s : sender) : sender :=
  {| trk := {| current_state := TRANSFER_STATE_IDLE; current_block := 0;
               current_chunk := 0; last_acked_block := 0; waiting_for_ack := false;
               block_data := block_data (trk s);
               current_block_size := current_block_size (trk s) |};
     szg := {| connection_id := 0; notifications_enabled := false;
               negotiated_mtu := negotiated_mtu (szg s);
               actual_chunk_size := actual_chunk_size (szg s);
               actual_chunks_per_block := actual_chunks_per_block (szg s) |};
     pac := {| consecutive_send_failures := 0; consecutive_send_successes := 0;
               current_delay_ms := INITIAL_DELAY_MS; last_congestion_report_time := 0;
               notification_credits := MAX_NOTIFICATIONS_IN_FLIGHT;
               notifications_queued := 0; notifications_transmitted := 0 |};
     stats := zero_stats |}.

(** [None]: the division by [actual_chunk_size = 0] (undefined). *)
Definition app_data_transfer_set_mtu (s : sender) (mtu : Z) : option sender :=
  let chunk_size := u16 (mtu - 3 - sizeof_chunk_header_t) in
  if chunk_size =? 0 then None
  else Some
    {| trk := trk s;
       szg := {| connection_id := connection_id (szg s);
                 notifications_enabled := notifications_enabled (szg s);
                 negotiated_mtu := mtu;
                 actual_chunk_size := chunk_size;
                 actual_chunks_per_block :=
                   u16 (u32 (BLOCK_SIZE_MAX + chunk_size - 1) / chunk_size) |};
       pac := pac s; stats := stats s |}.

Definition set_connection_id (conn_id : Z) (z : sizing) : sizing :=
  {| connection_id := conn_id; notifications_enabled := notifications_enabled z;
     negotiated_mtu := negotiated_mtu z; actual_chunk_size := actual_chunk_size z;
     actual_chunks_per_block := actual_chunks_per_block z |}.

Definition app_data_transfer_start (s : sender) (conn_id now : Z) : sender * bool :=
  if negb (notifications_enabled (szg s)) then (s, false)
  else
    ({| trk := load_block 0 TRANSFER_STATE_ACTIVE 0 0 false;
        szg := set_connection_id conn_id (szg s);
        pac := pac s;
        stats := {| start_time_ms := now; end_time_ms := 0; total_bytes := 0;
                    total_chunks := 0; blocks_sent := 0; retransmits := 0;
                    disconnections := 0; congestion_events := 0;
                    send_failures := 0 |} |}, true).

Definition app_data_transfer_stop (s : sender) : sender :=
  {| trk := set_state TRANSFER_STATE_IDLE (trk s);
     szg := szg s; pac := pac s; stats := stats s |}.

Definition add_disconnection (t : transfer_stats_t) : transfer_stats_t :=
  {| start_time_ms := start_time_ms t; end_time_ms := end_time_ms t;
     total_bytes := total_bytes t; total_chunks := total_chunks t;
     blocks_sent := blocks_sent t; retransmits := retransmits t;
     disconnections := u32 (disconnections t + 1);
     congestion_events := congestion_events t; send_failures := send_failures t |}.

Definition app_data_transfer_pause (s : sender) : sender :=
  if state_eqb (current_state (trk s)) TRANSFER_STATE_ACTIVE
     || state_eqb (current_state (trk s)) TRANSFER_STATE_WAITING_ACK
  then {| trk := set_state TRANSFER_STATE_PAUSED (trk s);
          szg := szg s; pac := pac s; stats := add_disconnection (stats s) |}
  else s.

Definition app_data_transfer_resume (s : sender) (conn_id : Z) : sender * bool :=
  if negb (state_eqb (current_state (trk s)) TRANSFER_STATE_PAUSED) then (s, false)
  else if negb (notifications_enabled (szg s)) then (s, false)
  else
    ({| trk := load_block (last_acked_block (trk s)) TRANSFER_STATE_ACTIVE 0
                          (last_acked_block (trk s)) false;
        szg := set_connection_id conn_id (szg s);
        pac := pac s; stats := stats s |}, true).

(** [send_chunk (block_num, chunk_num)].  [status] is what the link
    answers if the notification is handed to it, [now] is [get_time_ms ()].
    The result is the state afterwards, the value returned and the
    notifications the link accepted.  [None]: the division by
    [actual_chunk_size = 0] (undefined). *)
Definition send_chunk (s : sender) (block_num chunk_num : Z)
  (status : gatt_status) (now : Z) : option (sender * bool * list (list byte)) :=
  let p := pac s in
  if notification_credits p <=? 0 then
    let report :=
      CONGESTION_REPORT_INTERVAL_MS <? u32 (now - last_congestion_report_time p) in
    Some ({| trk := trk s; szg := szg s;
             pac := {| consecutive_send_failures := consecutive_send_failures p;
                       consecutive_send_successes := consecutive_send_successes p;
                       current_delay_ms := current_delay_ms p;
                       last_congestion_report_time :=
                         if report then now else last_congestion_report_time p;
                       notification_credits := notification_credits p;
                       notifications_queued := notifications_queued p;
                       notifications_transmitted := notifications_transmitted p |};
             stats := stats s |}, false, [])
  else if actual_chunk_size (szg s) =? 0 then None
  else
    let packet :=
      chunk_packet (block_data (trk s)) (current_block_size (trk s))
                   (actual_chunk_size (szg s)) block_num chunk_num in
    match status with
    | GATT_SUCCESS =>
        let successes := u16 (consecutive_send_successes p + 1) in
        let speedup :=
          (SUCCESS_THRESHOLD <=? successes) && (MIN_DELAY_MS <? current_delay_ms p) in
        let delay :=
          if speedup
          then (let d := u16 (current_delay_ms p - SPEEDUP_DECREMENT) in
                if d <? MIN_DELAY_MS then MIN_DELAY_MS else d)
          else current_delay_ms p in
        Some ({| trk := trk s; szg := szg s;
                 pac := {| consecutive_send_failures := 0;
                           consecutive_send_successes := if speedup then 0 else successes;
                           current_delay_ms := delay;
                           last_congestion_report_time := last_congestion_report_time p;
                           notification_credits := i16 (notification_credits p - 1);
                           notifications_queued := u32 (notifications_queued p + 1);
                           notifications_transmitted := notifications_transmitted p |};
                 stats := stats s |}, true, [packet])
    | _ =>
        let failures := u16 (consecutive_send_failures p + 1) in
        let congested :=
          match status with GATT_CONGESTED => true | _ => false end in
        let backoff := congested && (CONGESTION_THRESHOLD <=? failures) in
        let report :=
          backoff
          && (CONGESTION_REPORT_INTERVAL_MS <? u32 (now - last_congestion_report_time p)) in
        let t := stats s in
        Some ({| trk := trk s; szg := szg s;
                 pac := {| consecutive_send_failures := failures;
                           consecutive_send_successes := 0;
                           current_delay_ms :=
                             if backoff
                             then (let d := u16 (current_delay_ms p + BACKOFF_INCREMENT) in
                                   if MAX_DELAY_MS <? d then MAX_DELAY_MS else d)
                             else current_delay_ms p;
                           last_congestion_report_time :=
                             if report then now else last_congestion_report_time p;
                           notification_credits := notification_credits p;
                           notifications_queued := notifications_queued p;
                           notifications_transmitted := notifications_transmitted p |};
                 stats := {| start_time_ms := start_time_ms t;
                             end_time_ms := end_time_ms t;
                             total_bytes := total_bytes t;
                             total_chunks := total_chunks t;
                             blocks_sent := blocks_sent t;
                             retransmits := retransmits t;
                             disconnections := disconnections t;
                             congestion_events :=
                               if report then u32 (congestion_events t + 1)
                               else congestion_events t;
                             send_failures := u32 (send_failures t + 1) |} |},
              false, [])
    end.

(** The statistics after a chunk was sent; [block_done] when it was the
    last of its block. *)
Definition count_chunk (t : transfer_stats_t) (chunk_size : Z) (block_done : bool)
  : transfer_stats_t :=
  {| start_time_ms := start_time_ms t; end_time_ms := end_time_ms t;
     total_bytes := u32 (total_bytes t + chunk_size);
     total_chunks := u32 (total_chunks t + 1);
     blocks_sent := if block_done then u16 (blocks_sent t + 1) else blocks_sent t;
     retransmits := retransmits t; disconnections := disconnections t;
     congestion_events := congestion_events t; send_failures := send_failures t |}.

Definition set_end_time (now : Z) (t : transfer_stats_t) : transfer_stats_t :=
  {| start_time_ms := start_time_ms t; end_time_ms := now;
     total_bytes := total_bytes t; total_chunks := total_chunks t;
     blocks_sent := blocks_sent t; retransmits := retransmits t;
     disconnections := disconnections t;
     congestion_events := congestion_events t; send_failures := send_failures t |}.

(** [app_data_transfer_process_next_chunk ()]: the state afterwards, the
    value returned and the notifications the link accepted. *)
Definition app_data_transfer_process_next_chunk (s : sender)
  (status : gatt_status) (now : Z) : option (sender * bool * list (list byte)) :=
  let t := trk s in
  if negb (state_eqb (current_state t) TRANSFER_STATE_ACTIVE) then Some (s, false, [])
  else if waiting_for_ack t then Some (s, true, [])
  else if TOTAL_BLOCKS <=? current_block t then
    Some ({| trk := set_state TRANSFER_STATE_COMPLETE t; szg := szg s; pac := pac s;
             stats := set_end_time now (stats s) |}, false, [])
  else
    match send_chunk s (current_block t) (current_chunk t) status now with
    | None => None
    | Some (s1, false, sent) => Some (s1, true, sent)
    | Some (s1, true, sent) =>
        let chunk := u16 (current_chunk t + 1) in
        let chunks_in_current_block :=
          chunks_in_block (current_block_size t) (actual_chunk_size (szg s)) in
        if chunks_in_current_block <=? chunk then
          let block := u16 (current_block t + 1) in
          let wait := (block mod ACK_INTERVAL =? 0) && (block <? TOTAL_BLOCKS) in
          let st := if wait then TRANSFER_STATE_WAITING_ACK else current_state t in
          let waiting := if wait then true else waiting_for_ack t in
          Some ({| trk :=
                     if block <? TOTAL_BLOCKS
                     then load_block block st 0 (last_acked_block t) waiting
                     else {| current_state := st; current_block := block;
                             current_chunk := 0;
                             last_acked_block := last_acked_block t;
                             waiting_for_ack := waiting;
                             block_data := block_data t;
                             current_block_size := current_block_size t |};
                   szg := szg s1; pac := pac s1;
                   stats := count_chunk (stats s1) (actual_chunk_size (szg s)) true |},
                true, sent)
        else
          Some ({| trk := {| current_state := current_state t;
                             current_block := current_block t;
                             current_chunk := chunk;
                             last_acked_block := last_acked_block t;
                             waiting_for_ack := waiting_for_ack t;
                             block_data := block_data t;
                             current_block_size := current_block_size t |};
                   szg := szg s1; pac := pac s1;
                   stats := count_chunk (stats s1) (actual_chunk_size (szg s)) false |},
                true, sent)
    end.

(** The [CTRL_CMD_ACK] case of the control write handler. *)
Definition handle_ack (s : sender) (block_number : Z) : sender :=
  let t := trk s in
  if last_acked_block t <=? block_number then
    {| trk := {| current_state :=
                   if waiting_for_ack t then TRANSFER_STATE_ACTIVE else current_state t;
                 current_block := current_block t;
                 current_chunk := current_chunk t;
                 last_acked_block := u16 (block_number + 1);
                 waiting_for_ack := false;
                 block_data := block_data t;
                 current_block_size := current_block_size t |};
       szg := szg s; pac := pac s; stats := stats s |}
  else s.

(** [app_data_transfer_control_write_handler (conn_id, p_write_req)]:
    [p_val] are the [val_len] bytes written, read as a packed
    [control_msg_t] (command, then the block number in little-endian). *)
Definition app_data_transfer_control_write_handler (s : sender) (conn_id : Z)
  (p_val : list byte) (now : Z) : sender :=
  if (length p_val <? sizeof_control_msg_t)%nat then s
  else
    let command := b2z (buffer p_val 0%nat) in
    let block_number := u16 (le16 (buffer p_val) 1) in
    if command =? CTRL_CMD_START then fst (app_data_transfer_start s conn_id now)
    else if command =? CTRL_CMD_STOP then app_data_transfer_stop s
    else if command =? CTRL_CMD_ACK then handle_ack s block_number
    else s.

Definition app_data_transfer_cccd_write_handler (s : sender) (conn_id : Z)
  (enabled : bool) : sender :=
  let s1 :=
    {| trk := trk s;
       szg := {| connection_id := conn_id; notifications_enabled := enabled;
                 negotiated_mtu := negotiated_mtu (szg s);
                 actual_chunk_size := actual_chunk_size (szg s);
                 actual_chunks_per_block := actual_chunks_per_block (szg s) |};
       pac := pac s; stats := stats s |} in
  if negb enabled && state_eqb (current_state (trk s)) TRANSFER_STATE_ACTIVE
  then app_data_transfer_pause s1
  else s1.

Definition app_data_transfer_notification_sent (s : sender) : sender :=
  let p := pac s in
  if notification_credits p <? MAX_NOTIFICATIONS_IN_FLIGHT then
    {| trk := trk s; szg := szg s;
       pac := {| consecutive_send_failures := consecutive_send_failures p;
                 consecutive_send_successes := consecutive_send_successes p;
                 current_delay_ms := current_delay_ms p;
                 last_congestion_report_time := last_congestion_report_time p;
                 notification_credits := i16 (notification_credits p + 1);
                 notifications_queued := notifications_queued p;
                 notifications_transmitted := u32 (notifications_transmitted p + 1) |};
       stats := stats s |}
  else s.

(** The entry points of the module, as the application calls them. *)
Inductive op :=
| Init
| SetMtu (mtu : Z)
| Start (conn_id now : Z)
| Stop
| Pause
| Resume (conn_id : Z)
| ProcessNextChunk (status : gatt_status) (now : Z)
| ControlWrite (conn_id : Z) (p_val : list byte) (now : Z)
| CccdWrite (conn_id : Z) (enabled : bool)
| NotificationSent.

Definition step (s : sender) (o : op) : option sender :=
  match o with
  | Init => Some (app_data_transfer_init s)
  | SetMtu mtu => app_data_transfer_set_mtu s mtu
  | Start conn_id now => Some (fst (app_data_transfer_start s conn_id now))
  | Stop => Some (app_data_transfer_stop s)
  | Pause => Some (app_data_transfer_pause s)
  | Resume conn_id => Some (fst (app_data_transfer_resume s conn_id))
  | ProcessNextChunk status now =>
      match app_data_transfer_process_next_chunk s status now with
      | Some (s1, _, _) => Some s1
      | None => None
      end
  | ControlWrite conn_id p_val now =>
      Some (app_data_transfer_control_write_handler s conn_id p_val now)
  | CccdWrite conn_id enabled =>
      Some (app_data_transfer_cccd_write_handler s conn_id enabled)
  | NotificationSent => Some (app_data_transfer_notification_sent s)
  end.

Fixpoint run (s : sender) (ops : list op) : option sender :=
  match ops with
  | [] => Some s
  | o :: rest =>
      match step s o with
      | Some s1 => run s1 rest
      | None => None
      end
  end.

(** A control message [ACK (block_number)] as the central writes it. *)
Definition ack_msg (block_number timestamp : Z) : list byte :=
  z2b CTRL_CMD_ACK :: put16 block_number ++ put32 timestamp.

(** The block number a control write acknowledges, if it is an ACK. *)
Definition acked_block (p_val : list byte) : option Z :=
  if (length p_val <? sizeof_control_msg_t)%nat then None
  else if b2z (buffer p_val 0%nat) =? CTRL_CMD_ACK
       then Some (u16 (le16 (buffer p_val) 1))
       else None.

(** P1 of the specification. *)
Definition P1 (s : sender) : Prop :=
  0 <= last_acked_block (trk s) <= current_block (trk s)
  /\ current_block (trk s) <= TOTAL_BLOCKS.

(** An ACK acknowledges a block whose chunks were all sent. *)
Definition ack_in_range (s : sender) (o : op) : bool :=
  match o with
  | ControlWrite _ p_val _ =>
      match acked_block p_val with
      | Some b => b <? current_block (trk s)
      | None => true
      end
  | _ => true
  end.

(** A run in which every ACK is in range when it arrives ([None] when
    one is not, or when a step is undefined). *)
Fixpoint trusted_run (s : sender) (ops : list op) : option sender :=
  match ops with
  | [] => Some s
  | o :: rest =>
      if ack_in_range s o then
        match step s o with
        | Some s1 => trusted_run s1 rest
        | None => None
        end
      else None
  end.

End BlockSource.

End Sender.

(** ** Inputs used in the examples *)

Module Examples.

(** A zlib that rejects every input. *)
Definition zlib_rejects : list byte -> nat -> Z * list byte :=
  fun _ _ => (Codec.Z_DATA_ERROR, []).

(** A chunk frame as the central receives it: the 12-byte chunk header
    (the last four bytes are not read by the central) and the payload. *)
Definition chunk_frame (block_number chunk_number total_chunks : Z)
  (payload : list byte) : list byte :=
  put16 block_number ++ put16 chunk_number
  ++ put16 (Z.of_nat (length payload)) ++ put16 total_chunks
  ++ [x00; x00; x00; x00] ++ payload.

(** A chunk header alone, announcing [chunk_size] payload bytes. *)
Definition bare_header (block_number chunk_number chunk_size total_chunks : Z)
  : list byte :=
  put16 block_number ++ put16 chunk_number
  ++ put16 chunk_size ++ put16 total_chunks ++ [x00; x00; x00; x00].

(** Blocks [0 .. n-1], each sent as one chunk with an empty payload. *)
Definition empty_blocks (n : nat) : list (ptr * nat) :=
  map (fun b => Receiver.frame (chunk_frame (Z.of_nat b) 0 1 [])) (seq 0 n).

(** A session on which all four callbacks are registered, started. *)
Definition started : Receiver.transfer_session :=
  Receiver.transfer_session_start
    (Receiver.set_callbacks Receiver.transfer_session_create) 0.

(** A block of [BLOCK_SIZE] zero bytes. *)
Definition zero_block : list byte := replicate (Z.to_nat BLOCK_SIZE) x00.

(** A zlib whose output is 4752 zero bytes, whatever the input. *)
Definition zlib_zero_deltas : list byte -> nat -> Z * list byte :=
  fun _ _ => (Codec.Z_OK, replicate 4752 x00).

(** A compressed block: a header whose crc32 field (offsets 30 to 33) is
    0xD4F43355, the CRC-32 of 7128 zero bytes, and a one-byte payload. *)
Definition zero_delta_block : list byte :=
  replicate 30 x00 ++ put32 0xD4F43355 ++ replicate 4 x00 ++ [x00].

(** A block source with three-byte blocks. *)
Definition small_source : Z -> list byte := fun b => [z2b b; x01; x02].

(** The sender about to send the one chunk of block 19 (MTU 23, chunks of
    12 bytes, three-byte blocks), blocks 0 to 18 sent and not
    acknowledged. *)
Definition at_block_19 : Sender.sender :=
  {| Sender.trk :=
       {| Sender.current_state := Sender.TRANSFER_STATE_ACTIVE;
          Sender.current_block := 19; Sender.current_chunk := 0;
          Sender.last_acked_block := 0; Sender.waiting_for_ack := false;
          Sender.block_data := small_source 19;
          Sender.current_block_size := 3 |};
     Sender.szg :=
       {| Sender.connection_id := 1; Sender.notifications_enabled := true;
          Sender.negotiated_mtu := 23; Sender.actual_chunk_size := 12;
          Sender.actual_chunks_per_block := Sender.CHUNKS_PER_BLOCK |};
     Sender.pac :=
       {| Sender.consecutive_send_failures := 0;
          Sender.consecutive_send_successes := 19;
          Sender.current_delay_ms := 15;
          Sender.last_congestion_report_time := 0;
          Sender.notification_credits := 2;
          Sender.notifications_queued := 19;
          Sender.notifications_transmitted := 19 |};
     Sender.stats :=
       {| Sender.start_time_ms := 0; Sender.end_time_ms := 0;
          Sender.total_bytes := 228; Sender.total_chunks := 19;
          Sender.blocks_sent := 19; Sender.retransmits := 0;
          Sender.disconnections := 0; Sender.congestion_events := 0;
          Sender.send_failures := 0 |} |}.

(** A control message [START]. *)
Definition start_msg : list byte :=
  z2b Sender.CTRL_CMD_START :: put16 0 ++ put32 0.

(** Enable notifications, START, then twenty rounds of "send the one
    chunk of the block, transmission confirmed". *)
Definition twenty_blocks : list Sender.op :=
  Sender.CccdWrite 1 true :: Sender.ControlWrite 1 start_msg 0
  :: concat (replicate 20 [Sender.ProcessNextChunk Sender.GATT_SUCCESS 1;
                           Sender.NotificationSent]).

End Examples.

(** ** Waveform blocks on the peripheral (app_waveform.h, app_waveform.c) *)

Module Firmware.

Definition WAVEFORM_SAMPLE_RATE_HZ : Z := 50000000.
Definition WAVEFORM_SAMPLES_PER_BLOCK : nat := 2376.
Definition WAVEFORM_CARRIER_FREQ_HZ : Z := 5000000.
Definition WAVEFORM_BITS_PER_SAMPLE : Z := 24.
Definition WAVEFORM_RAW_DATA_SIZE : Z := 2376 * 3.
Definition TRIGGER_TIME_SAMPLES : Z := 250.
Definition STATUS_FLAG_CALIBRATED : Z := 0x01.
Definition STATUS_FLAG_TEMP_VALID : Z := 0x02.
Definition STATUS_FLAG_CLIPPED : Z := 0x08.

(** [waveform_block_header_t], a packed struct. *)
Record waveform_block_header_t := {
  block_number : Z;
  timestamp_ms : Z;
  sample_rate_hz : Z;
  sample_count : Z;
  bits_per_sample : Z;
  trigger_sample : Z;
  pulse_freq_hz : Z;
  pulse_cycles : Z;
  pulse_voltage : Z;
  sensor_id : Z;
  temperature_c_x10 : Z;
  gain_db : Z;
  status_flags : Z;
  crc32 : Z;
  reserved0 : Z;
  reserved1 : Z
}.

(** The bytes [memcpy (buffer, &waveform_header, sizeof (waveform_block_header_t))]
    copies: the fields in declaration order, without padding,
    little-endian. *)
Definition header_bytes (h : waveform_block_header_t) : list byte :=
  put32 (block_number h) ++ put32 (timestamp_ms h) ++ put32 (sample_rate_hz h)
  ++ put16 (sample_count h) ++ put16 (bits_per_sample h) ++ put16 (trigger_sample h)
  ++ put32 (pulse_freq_hz h)
  ++ [z2b (pulse_cycles h); z2b (pulse_voltage h)]
  ++ put16 (sensor_id h) ++ put16 (temperature_c_x10 h)
  ++ [z2b (gain_db h); z2b (status_flags h)]
  ++ put32 (crc32 h)
  ++ put16 (reserved0 h) ++ put16 (reserved1 h).

(** [app_waveform_crc32] *)
Definition app_waveform_crc32 (data : list byte) : Z :=
  not32 (fold_left
           (fun crc b => Nat.iter 8 crc_bit (Z.lxor crc (b2z b)))
           data 0xFFFFFFFF).

(** The header after "Fill header with metadata": [memset] to zero, then
    the assignments. *)
Definition fill_header (block_num : Z) : waveform_block_header_t :=
  {| block_number := block_num;
     timestamp_ms := u32 (block_num * 100);
     sample_rate_hz := WAVEFORM_SAMPLE_RATE_HZ;
     sample_count := Z.of_nat WAVEFORM_SAMPLES_PER_BLOCK;
     bits_per_sample := WAVEFORM_BITS_PER_SAMPLE;
     trigger_sample := TRIGGER_TIME_SAMPLES;
     pulse_freq_hz := WAVEFORM_CARRIER_FREQ_HZ;
     pulse_cycles := 5;
     pulse_voltage := 200;
     sensor_id := 1001;
     temperature_c_x10 := 235;
     gain_db := 60;
     status_flags := Z.lor STATUS_FLAG_CALIBRATED STATUS_FLAG_TEMP_VALID;
     crc32 := 0;
     reserved0 := 0;
     reserved1 := 0 |}.

Definition set_crc_and_flags (h : waveform_block_header_t) (crc flags : Z)
  : waveform_block_header_t :=
  {| block_number := block_number h; timestamp_ms := timestamp_ms h;
     sample_rate_hz := sample_rate_hz h; sample_count := sample_count h;
     bits_per_sample := bits_per_sample h; trigger_sample := trigger_sample h;
     pulse_freq_hz := pulse_freq_hz h; pulse_cycles := pulse_cycles h;
     pulse_voltage := pulse_voltage h; sensor_id := sensor_id h;
     temperature_c_x10 := temperature_c_x10 h; gain_db := gain_db h;
     status_flags := flags; crc32 := crc;
     reserved0 := reserved0 h; reserved1 := reserved1 h |}.

(** "Clamp to 24-bit signed range" *)
Definition clamp (sample : Z) : Z :=
  if 8388607 <? sample then 8388607
  else if sample <? -8388608 then -8388608
  else sample.

Definition clips (sample : Z) : bool :=
  (8388607 <? sample) || (sample <? -8388608).

(** The samples of a block after the clamp; [simulated i] is the value
    of [sample] for index [i] once the noise and the echoes have been
    added (a pseudo-random and floating-point simulation). *)
Definition clamped_samples (simulated : nat -> Z) : list Z :=
  map (fun i => clamp (simulated i)) (seq 0 WAVEFORM_SAMPLES_PER_BLOCK).

(** [app_waveform_generate (block_num, header, samples)] with both
    pointers non-null: the header and the sample buffer it fills. *)
Definition app_waveform_generate (block_num : Z) (simulated : nat -> Z)
  : waveform_block_header_t * list byte :=
  let samples := pack_24bit_samples (clamped_samples simulated) in
  let clipped :=
    existsb (fun i => clips (simulated i)) (seq 0 WAVEFORM_SAMPLES_PER_BLOCK) in
  let h := fill_header block_num in
  (set_crc_and_flags h (app_waveform_crc32 samples)
     (if clipped then Z.lor (status_flags h) STATUS_FLAG_CLIPPED else status_flags h),
   samples).

(** [generate_block_data (block_num, buffer)] in the configuration
    without benchmark and without compression: the bytes written to
    [buffer]; the value returned is their number. *)
Definition generate_block_data (simulated : nat -> Z) (block_num : Z) : list byte :=
  let '(h, samples) := app_waveform_generate block_num simulated in
  header_bytes h ++ samples.

(** [app_waveform_compress]: "Compression disabled - just copy raw data".
    The bytes written to [compressed_out] ([compressed_size_out] is their
    number), or [None] for [false]. *)
Definition app_waveform_compress (raw_samples : ptr) (max_compressed_size : Z)
  : option (list byte) :=
  if max_compressed_size <? WAVEFORM_RAW_DATA_SIZE then None
  else Some (read_range raw_samples 0 (Z.to_nat WAVEFORM_RAW_DATA_SIZE)).

(** [app_waveform_decompress] *)
Definition app_waveform_decompress (compressed_data : ptr) (compressed_size : Z)
  : option (list byte) :=
  if negb (compressed_size =? WAVEFORM_RAW_DATA_SIZE) then None
  else Some (read_range compressed_data 0 (Z.to_nat WAVEFORM_RAW_DATA_SIZE)).

(** [unpack_24bit_sample (buffer, index)] of app_waveform.c *)
Definition unpack_24bit_sample (buffer : ptr) (index : nat) : Z :=
  let offset := (index * 3)%nat in
  let sample :=
    Z.lor (Z.lor (b2z (buffer (offset + 0)%nat))
                 (Z.shiftl (b2z (buffer (offset + 1)%nat)) 8))
          (Z.shiftl (b2z (buffer (offset + 2)%nat)) 16) in
  if negb (Z.land sample 0x800000 =? 0)
  then i32 (Z.lor sample 0xFF000000)
  else sample.

End Firmware.

(** ** Control messages as the central writes them (BLEController.swift) *)

Module Central.

(** [Data] made of the command byte, [UInt16 (block).littleEndian] and
    [UInt32 (Date ().timeIntervalSince1970).littleEndian]; [seconds] is
    that 32-bit time. *)
Definition control_data (command block seconds : Z) : list byte :=
  z2b command :: put16 block ++ put32 seconds.

(** [startTransfer], [stopTransfer] and [sendAck (forBlock:)]: the data
    written to the control characteristic. *)
Definition startTransfer (seconds : Z) : list byte := control_data 0x01 0 seconds.
Definition stopTransfer (seconds : Z) : list byte := control_data 0x02 0 seconds.
Definition sendAck (blockNumber seconds : Z) : list byte :=
  control_data 0x03 blockNumber seconds.

End Central.

(** ** The sender task (main.c, [data_transfer_task]) *)

Module Task.

Import Sender.

Section BlockSource.

Variable generate_block_data : Z -> list byte.

(** One operation, with the notifications the link accepted during it. *)
Definition step_emitting (s : sender) (o : op) : option (sender * list (list byte)) :=
  match o with
  | ProcessNextChunk status now =>
      match app_data_transfer_process_next_chunk generate_block_data s status now with
      | Some (s1, _, sent) => Some (s1, sent)
      | None => None
      end
  | _ =>
      match step generate_block_data s o with
      | Some s1 => Some (s1, [])
      | None => None
      end
  end.

(** A sequence of operations, with all notifications in order. *)
Fixpoint drive (s : sender) (ops : list op) : option (sender * list (list byte)) :=
  match ops with
  | [] => Some (s, [])
  | o :: rest =>
      match step_emitting s o with
      | Some (s1, sent1) =>
          match drive s1 rest with
          | Some (s2, sent2) => Some (s2, sent1 ++ sent2)
          | None => None
          end
      | None => None
      end
  end.

(** The task sends a chunk; the stack then signals its transmission
    ([GATT_APP_BUFFER_TRANSMITTED_EVT]).  One such round per time in
    [times], the link accepting every notification. *)
Definition rounds (times : list Z) : list op :=
  flat_map (fun now => [ProcessNextChunk GATT_SUCCESS now; NotificationSent]) times.

End BlockSource.

(** The bounds [send_chunk] and [app_data_transfer_notification_sent]
    keep the credits and the pacing delay in, with the accounting of the
    notifications in flight. *)
Definition credits_ok (s : sender) : Prop :=
  0 <= notification_credits (pac s) <= MAX_NOTIFICATIONS_IN_FLIGHT
  /\ u32 (notifications_queued (pac s) - notifications_transmitted (pac s))
     = MAX_NOTIFICATIONS_IN_FLIGHT - notification_credits (pac s).

Definition delay_ok (s : sender) : Prop :=
  MIN_DELAY_MS <= current_delay_ms (pac s) <= MAX_DELAY_MS.

End Task.

(** ** States of the peripheral used as instances *)

Module Scenarios.

Import Sender.

(** [Examples.at_block_19] with both notifications still in flight. *)
Definition out_of_credits : sender :=
  {| trk := trk Examples.at_block_19; szg := szg Examples.at_block_19;
     pac := {| consecutive_send_failures := 0; consecutive_send_successes := 21;
               current_delay_ms := 15; last_congestion_report_time := 0;
               notification_credits := 0; notifications_queued := 21;
               notifications_transmitted := 19 |};
     stats := stats Examples.at_block_19 |}.

(** The sender about to send the one chunk of block [b] (MTU 23, chunks
    of 12 bytes, the three-byte blocks of [Examples.small_source]). *)
Definition at_block (b : Z) : sender :=
  {| trk := {| current_state := TRANSFER_STATE_ACTIVE; current_block := b;
               current_chunk := 0; last_acked_block := b - b mod 20;
               waiting_for_ack := false; block_data := Examples.small_source b;
               current_block_size := 3 |};
     szg := szg Examples.at_block_19; pac := pac Examples.at_block_19;
     stats := stats Examples.at_block_19 |}.

End Scenarios.

(** ** Notifications as the central's entry point sees them *)

Module Arrivals.

(** The test [transfer_session_process_chunk] makes before it stores
    anything: at least 12 bytes, and a block number below
    [TOTAL_BLOCKS]. *)
Definition accepted (c : ptr * nat) : bool :=
  negb ((snd c <? 12)%nat || (TOTAL_BLOCKS <=? u16 (le16 (fst c) 0))).

(** The [chunk_size] field of the chunk header. *)
Definition announced_size (c : ptr * nat) : Z := u16 (le16 (fst c) 4).

(** The statistics [transfer_session_get_stats] reports for a session
    with [blocks] received blocks. *)
Definition stats_of (s : Receiver.transfer_session) (blocks : nat) (active : bool)
  : Stats.transfer_stats_t :=
  {| Stats.blocks_received := u32 (Z.of_nat blocks);
     Stats.total_blocks := TOTAL_BLOCKS;
     Stats.total_bytes_received := Receiver.total_bytes_received s;
     Stats.total_chunks_received := Receiver.total_chunks_received s;
     Stats.elapsed_since := if active then Some (Receiver.start_time s) else None |}.

(** A session with another expected-chunk map. *)
Definition with_expected (expected : gmap Z Z) (s : Receiver.transfer_session)
  : Receiver.transfer_session :=
  {| Receiver.is_active := Receiver.is_active s;
     Receiver.start_time := Receiver.start_time s;
     Receiver.received_blocks := Receiver.received_blocks s;
     Receiver.block_chunks := Receiver.block_chunks s;
     Receiver.block_expected_chunks := expected;
     Receiver.last_acked_block := Receiver.last_acked_block s;
     Receiver.total_bytes_received := Receiver.total_bytes_received s;
     Receiver.total_chunks_received := Receiver.total_chunks_received s;
     Receiver.waveform_callback := Receiver.waveform_callback s;
     Receiver.progress_callback := Receiver.progress_callback s;
     Receiver.completion_callback := Receiver.completion_callback s;
     Receiver.ack_callback := Receiver.ack_callback s |}.

End Arrivals.

(** [Scenarios.at_block 19] once its one chunk is sent: the sender waits
    for the ACK of blocks 0 to 19. *)
Module Waiting.

Definition after_block_19 : Sender.sender :=
  default (Scenarios.at_block 19)
    (Sender.step Examples.small_source (Scenarios.at_block 19)
       (Sender.ProcessNextChunk Sender.GATT_SUCCESS 1)).

End Waiting.

(** * Properties *)

(** ** Bytes and little-endian fields *)

Section WireFacts.

Lemma b2z_range (b : byte) : 0 <= b2z b < 256.
Proof.
  unfold b2z. pose proof (Byte.to_N_bounded b). lia.
Qed.

Lemma b2z_z2b (z : Z) : b2z (z2b z) = z mod 256.
Proof.
  unfold z2b, b2z, u8. change (2 ^ 8) with 256.
  pose proof (Z.mod_pos_bound z 256 ltac:(lia)) as Hz.
  destruct (Byte.of_N (Z.to_N (z mod 256))) as [b|] eqn:E.
  - apply Byte.to_of_N in E. rewrite E. lia.
  - apply Byte.of_N_None_iff in E. lia.
Qed.

Lemma z2b_b2z (b : byte) : z2b (b2z b) = b.
Proof.
  unfold z2b, u8. change (2 ^ 8) with 256.
  rewrite Z.mod_small by apply b2z_range.
  unfold b2z. rewrite N2Z.id, Byte.of_to_N. reflexivity.
Qed.

(** Below [2 ^ n] and shifted left by [n] have no bit in common. *)
Lemma land_shifted (n lo hi : Z) :
  0 <= n -> 0 <= lo < 2 ^ n -> Z.land lo (hi * 2 ^ n) = 0.
Proof.
  intros Hn Hlo. apply Z.bits_inj'. intros m Hm.
  rewrite Z.land_spec, Z.bits_0.
  destruct (Z.ltb_spec m n).
  - rewrite Z.mul_pow2_bits_low by lia. apply andb_false_r.
  - destruct (Z.eq_dec lo 0) as [->|]; [rewrite Z.bits_0; reflexivity|].
    rewrite (Z.bits_above_log2 lo m); [reflexivity|lia|].
    apply Z.log2_lt_pow2; [lia|].
    apply Z.lt_le_trans with (2 ^ n); [lia|].
    apply Z.pow_le_mono_r; lia.
Qed.

(** ... so or-ing them adds them. *)
Lemma lor_shiftl_add (n lo hi : Z) :
  0 <= n -> 0 <= lo < 2 ^ n -> Z.lor lo (Z.shiftl hi n) = lo + 2 ^ n * hi.
Proof.
  intros Hn Hlo.
  rewrite Z.shiftl_mul_pow2 by lia.
  rewrite <- Z.lxor_lor by (apply land_shifted; assumption).
  rewrite <- Z.add_nocarry_lxor by (apply land_shifted; assumption).
  lia.
Qed.

(** A byte or-ed with a byte shifted by 8 is their sum. *)
Lemma lor_shift8 (lo hi : Z) :
  0 <= lo < 256 -> 0 <= hi -> Z.lor lo (Z.shiftl hi 8) = lo + 256 * hi.
Proof.
  intros Hlo _. apply (lor_shiftl_add 8); [lia|exact Hlo].
Qed.

Lemma le16_sum (p : ptr) (off : nat) :
  le16 p off = b2z (p off) + 256 * b2z (p (off + 1)%nat).
Proof.
  unfold le16. apply lor_shift8; [apply b2z_range|].
  pose proof (b2z_range (p (off + 1)%nat)). lia.
Qed.

Lemma le16_range (p : ptr) (off : nat) : 0 <= le16 p off < 65536.
Proof.
  rewrite le16_sum.
  pose proof (b2z_range (p off)). pose proof (b2z_range (p (off + 1)%nat)). lia.
Qed.

Lemma u16_range (z : Z) : 0 <= u16 z < 65536.
Proof. unfold u16. change (2 ^ 16) with 65536. apply Z.mod_pos_bound. lia. Qed.

Lemma u16_small (z : Z) : 0 <= z < 65536 -> u16 z = z.
Proof. intros H. unfold u16. apply Z.mod_small. change (2 ^ 16) with 65536. lia. Qed.

(** Reading back a 16-bit field stored with [put16]. *)
Lemma le16_put16 (p : ptr) (off : nat) (z : Z) :
  p off = z2b z -> p (off + 1)%nat = z2b (Z.shiftr z 8) -> le16 p off = u16 z.
Proof.
  intros H0 H1. rewrite le16_sum, H0, H1, !b2z_z2b.
  rewrite Z.shiftr_div_pow2 by lia. change (2 ^ 8) with 256.
  unfold u16. change (2 ^ 16) with (256 * 256).
  rewrite Z.rem_mul_r by lia. reflexivity.
Qed.

End WireFacts.

(** ** Receiver session: the active flag *)

Module ActiveFlag.

Import Codec Receiver Examples.

Lemma store_chunk_set_is_active b s bn cn cs tc d :
  store_chunk (set_is_active b s) bn cn cs tc d
  = set_is_active b (store_chunk s bn cn cs tc d).
Proof.
  unfold store_chunk, set_is_active; simpl.
  destruct (block_chunks s !! bn); reflexivity.
Qed.

Lemma complete_block_set_is_active uncompress b s bn tc :
  let r := complete_block uncompress (set_is_active b s) bn tc in
  let r0 := complete_block uncompress s bn tc in
  set_is_active false (fst r) = set_is_active false (fst r0)
  /\ map without_clock (snd r) = map without_clock (snd r0).
Proof.
  unfold complete_block; simpl.
  destruct (Z.of_nat (size (<[bn:=_]> (received_blocks s))) =? TOTAL_BLOCKS); simpl.
  - split; [reflexivity|].
    rewrite !map_app.
    destruct (decode_block _ _) as [w|]; [destruct (waveform_callback s)|];
      destruct (_ && ack_callback s); destruct (progress_callback s);
      destruct (completion_callback s); reflexivity.
  - split; [reflexivity|].
    rewrite !map_app.
    destruct (decode_block _ _) as [w|]; [destruct (waveform_callback s)|];
      destruct (_ && ack_callback s); destruct (progress_callback s);
      reflexivity.
Qed.

(** C9, as amended: [transfer_session_stop] clears the active flag and
    nothing else; the partial-chunk map, the expected-chunk map and the
    received blocks are those of before, and it is the next
    [transfer_session_start] that empties them. *)
Theorem stop_only_clears_active_flag (s : transfer_session) (now : Z) :
  is_active (transfer_session_stop s) = false
  /\ block_chunks (transfer_session_stop s) = block_chunks s
  /\ block_expected_chunks (transfer_session_stop s) = block_expected_chunks s
  /\ received_blocks (transfer_session_stop s) = received_blocks s
  /\ block_chunks (transfer_session_start (transfer_session_stop s) now) = ∅.
Proof. repeat split. Qed.

(** C9 as stated fails: a session stopped after the first of the two
    chunks of block 7 is inactive and still holds that chunk. *)
Lemma stop_keeps_partial_chunks :
  let s := fst (feed_all zlib_rejects started [frame (chunk_frame 7 0 2 [x01])]) in
  is_active (transfer_session_stop s) = false
  /\ block_chunks (transfer_session_stop s) <> ∅.
Proof.
  split; [reflexivity|].
  intros H. apply (f_equal (fun m => m !! 7)) in H.
  vm_compute in H. discriminate H.
Qed.

(** C10: [transfer_session_process_chunk] never reads the active flag.
    Whatever the flag is set to, the call returns the same value, leaves
    the same maps and counters and invokes the same callbacks (up to the
    clock reading of the statistics, which [transfer_session_get_stats]
    derives from the flag).  On a stopped session a chunk is stored, a
    block is assembled and decoded, and all four callbacks are invoked. *)
Theorem process_chunk_ignores_active_flag :
  (forall uncompress b s data len,
      flag_blind (transfer_session_process_chunk uncompress (set_is_active b s) data len)
      = flag_blind (transfer_session_process_chunk uncompress s data len))
  /\ (let stopped := transfer_session_stop started in
      let '(ok, s1, _) :=
        transfer_session_process_chunk zlib_rejects stopped
          (buffer (chunk_frame 7 0 2 [x01])) 13 in
      ok = true /\ is_active s1 = false
      /\ block_chunks s1 !! 7 = Some {[0 := [x01]]})
  /\ (let stopped := transfer_session_stop started in
      let '(ok, s1, events) :=
        transfer_session_process_chunk zlib_rejects stopped
          (buffer (chunk_frame 19 0 1 zero_block)) (12 + Z.to_nat BLOCK_SIZE) in
      ok = true /\ is_active s1 = false
      /\ received_blocks s1 !! 19 = Some zero_block
      /\ map is_waveform events = [true; false; false]
      /\ events !! 1%nat = Some (OnAck 19))
  /\ completion_count
       (snd (feed_all zlib_rejects (transfer_session_stop started) (empty_blocks 1800)))
     = 1%nat.
Proof.
  split; [|split; [|split]].
  - intros uncompress b s data len.
    unfold transfer_session_process_chunk.
    destruct (len <? 12)%nat; [reflexivity|].
    destruct (TOTAL_BLOCKS <=? u16 (le16 data 0)); [reflexivity|].
    cbv zeta. rewrite store_chunk_set_is_active.
    change (block_chunks (set_is_active b ?x)) with (block_chunks x).
    destruct (Z.of_nat (size _) =? _); [|reflexivity].
    pose proof (complete_block_set_is_active uncompress b
                  (store_chunk s (u16 (le16 data 0)) (u16 (le16 data 2))
                     (u16 (le16 data 4)) (u16 (le16 data 6))
                     (read_range data 12 (Z.to_nat (u16 (le16 data 4)))))
                  (u16 (le16 data 0)) (u16 (le16 data 6))) as [Hs He].
    cbv zeta in Hs, He.
    destruct (complete_block uncompress (set_is_active b _) _ _) as [sa ea].
    destruct (complete_block uncompress (store_chunk s _ _ _ _ _) _ _) as [sb eb].
    simpl in *. rewrite Hs, He. reflexivity.
  - vm_compute. repeat split.
  - vm_compute. repeat split.
  - vm_compute. reflexivity.
Qed.

End ActiveFlag.

(** ** Receiver session: what one call does *)

Module Calls.

Import Codec Receiver Examples.

Section WithZlib.

Variable uncompress : list byte -> nat -> Z * list byte.

Local Abbreviation process_chunk := (transfer_session_process_chunk uncompress).
Local Abbreviation decode := (decode_block uncompress).
Local Abbreviation waveform_events := (waveform_events uncompress).

Lemma filter_app_events (P : event -> bool) (l1 l2 : list event) :
  filter (fun e => P e = true) (l1 ++ l2)
  = filter (fun e => P e = true) l1 ++ filter (fun e => P e = true) l2.
Proof. apply filter_app. Qed.

Lemma complete_block_spec s bn tc s' events :
  complete_block uncompress s bn tc = (s', events) ->
  let block_data := reassemble (chunks_of (block_chunks s) bn) tc in
  received_blocks s' = <[bn := block_data]> (received_blocks s)
  /\ block_chunks s' = delete bn (block_chunks s)
  /\ block_expected_chunks s' = delete bn (block_expected_chunks s)
  /\ total_bytes_received s' = total_bytes_received s
  /\ total_chunks_received s' = total_chunks_received s
  /\ completion_callback s' = completion_callback s
  /\ waveform_callback s' = waveform_callback s
  /\ filter (fun e => is_waveform e = true) events = waveform_events s block_data
  /\ completion_count events
     = if (Z.of_nat (size (received_blocks s')) =? TOTAL_BLOCKS) && completion_callback s
       then 1%nat else 0%nat.
Proof.
  unfold complete_block, waveform_events, completion_count. cbv zeta.
  set (block_data := reassemble _ _).
  simpl received_blocks.
  destruct (Z.of_nat (size (<[bn:=block_data]> (received_blocks s))) =? TOTAL_BLOCKS) eqn:E;
    intros [= <- <-]; simpl; rewrite ?E; repeat split.
  all: rewrite !filter_app_events.
  all: destruct (decode block_data); [destruct (waveform_callback s)|];
    destruct (_ && ack_callback s); destruct (progress_callback s);
    try destruct (completion_callback s); reflexivity.
Qed.

Lemma store_chunk_spec s bn cn cs tc d :
  let s1 := store_chunk s bn cn cs tc d in
  block_chunks s1 !! bn = Some (<[cn := d]> (chunks_of (block_chunks s) bn))
  /\ (forall b, b <> bn -> block_chunks s1 !! b = block_chunks s !! b)
  /\ received_blocks s1 = received_blocks s
  /\ total_bytes_received s1 = u32 (total_bytes_received s + cs)
  /\ total_chunks_received s1 = u32 (total_chunks_received s + 1)
  /\ waveform_callback s1 = waveform_callback s
  /\ completion_callback s1 = completion_callback s.
Proof.
  unfold store_chunk, chunks_of.
  destruct (block_chunks s !! bn) as [m|] eqn:E; simpl.
  - rewrite lookup_insert_eq, E. repeat split.
    intros b Hb. rewrite lookup_insert_ne by congruence. reflexivity.
  - rewrite !lookup_insert_eq. repeat split.
    intros b Hb. rewrite !lookup_insert_ne by congruence. reflexivity.
Qed.

(** The three things a call can do: reject the input; store the chunk;
    store the chunk and assemble its block. *)
Lemma process_chunk_outcome s data len :
  let bn := u16 (le16 data 0) in
  let cn := u16 (le16 data 2) in
  let cs := u16 (le16 data 4) in
  let tc := u16 (le16 data 6) in
  let s1 := store_chunk s bn cn cs tc (read_range data 12 (Z.to_nat cs)) in
  ((len < 12)%nat \/ TOTAL_BLOCKS <= bn) /\ process_chunk s data len = (false, s, [])
  \/ (12 <= len)%nat /\ bn < TOTAL_BLOCKS
     /\ Z.of_nat (size (chunks_of (block_chunks s1) bn)) <> tc
     /\ process_chunk s data len = (true, s1, [])
  \/ (12 <= len)%nat /\ bn < TOTAL_BLOCKS
     /\ Z.of_nat (size (chunks_of (block_chunks s1) bn)) = tc
     /\ exists s2 events,
          complete_block uncompress s1 bn tc = (s2, events)
          /\ process_chunk s data len = (true, s2, events).
Proof.
  cbv zeta. unfold transfer_session_process_chunk.
  destruct (Nat.ltb_spec len 12); [left; split; [lia|reflexivity]|].
  destruct (Z.leb_spec TOTAL_BLOCKS (u16 (le16 data 0)));
    [left; split; [lia|reflexivity]|].
  right. cbv zeta.
  destruct (Z.eqb_spec (Z.of_nat (size (chunks_of (block_chunks
             (store_chunk s (u16 (le16 data 0)) (u16 (le16 data 2))
                (u16 (le16 data 4)) (u16 (le16 data 6))
                (read_range data 12 (Z.to_nat (u16 (le16 data 4))))))
             (u16 (le16 data 0))))) (u16 (le16 data 6))) as [Heq|Hne].
  - right. repeat (split; [assumption|]).
    destruct (complete_block uncompress _ _ _) as [s2 events].
    exists s2, events. split; reflexivity.
  - left. repeat (split; [assumption|]). reflexivity.
Qed.

Lemma process_chunk_outcome_at s data len bn cn cs tc d :
  bn = u16 (le16 data 0) -> cn = u16 (le16 data 2) -> cs = u16 (le16 data 4) ->
  tc = u16 (le16 data 6) -> d = read_range data 12 (Z.to_nat cs) ->
  let s1 := store_chunk s bn cn cs tc d in
  ((len < 12)%nat \/ TOTAL_BLOCKS <= bn) /\ process_chunk s data len = (false, s, [])
  \/ (12 <= len)%nat /\ bn < TOTAL_BLOCKS
     /\ Z.of_nat (size (chunks_of (block_chunks s1) bn)) <> tc
     /\ process_chunk s data len = (true, s1, [])
  \/ (12 <= len)%nat /\ bn < TOTAL_BLOCKS
     /\ Z.of_nat (size (chunks_of (block_chunks s1) bn)) = tc
     /\ exists s2 events,
          complete_block uncompress s1 bn tc = (s2, events)
          /\ process_chunk s data len = (true, s2, events).
Proof. intros -> -> -> -> ->. apply process_chunk_outcome. Qed.

End WithZlib.

End Calls.

(** ** Receiver session: decode failures and completion *)

Module Completion.

Import Codec Receiver Examples Calls.

Section WithZlib.

Variable uncompress : list byte -> nat -> Z * list byte.

Local Abbreviation process_chunk := (transfer_session_process_chunk uncompress).
Local Abbreviation decode := (decode_block uncompress).

(** C6, as amended: a call that assembles a block records the block
    under its number in the received set whether or not the block
    decodes, removes the block's partial entry and its expected-chunk
    entry, and invokes the waveform callback only with a successfully
    decoded waveform; when the decode fails the waveform callback is not
    invoked.  A call that assembles no block invokes no callback and
    leaves the received set as it was. *)
Theorem failed_block_is_recorded_without_waveform s data len :
  let bn := u16 (le16 data 0) in
  let tc := u16 (le16 data 6) in
  let s1 := store_chunk s bn (u16 (le16 data 2)) (u16 (le16 data 4)) tc
              (read_range data 12 (Z.to_nat (u16 (le16 data 4)))) in
  let block_data := reassemble (chunks_of (block_chunks s1) bn) tc in
  let '(ok, s', events) := process_chunk s data len in
  if ok && (Z.of_nat (size (chunks_of (block_chunks s1) bn)) =? tc)
  then received_blocks s' = <[bn := block_data]> (received_blocks s)
       /\ block_chunks s' !! bn = None
       /\ block_expected_chunks s' !! bn = None
       /\ filter (fun e => is_waveform e = true) events
          = match decode block_data with
            | Some w =>
                if waveform_callback s
                then [OnWaveform w (looks_compressed block_data)] else []
            | None => []
            end
       /\ (decode block_data = None -> waveform_count events = 0%nat)
  else events = [] /\ received_blocks s' = received_blocks s.
Proof.
  cbv zeta.
  destruct (process_chunk_outcome uncompress s data len)
    as [[_ ->]|[(_ & _ & Hne & ->)|(_ & _ & Heq & s2 & events & Hc & ->)]].
  - simpl. split; reflexivity.
  - simpl. apply Z.eqb_neq in Hne. rewrite Hne.
    split; [reflexivity|]. apply store_chunk_spec.
  - simpl. rewrite Heq, Z.eqb_refl.
    apply complete_block_spec in Hc.
    destruct Hc as (Hr & Hb & He & _ & _ & _ & _ & Hw & _).
    pose proof (store_chunk_spec s (u16 (le16 data 0)) (u16 (le16 data 2))
                  (u16 (le16 data 4)) (u16 (le16 data 6))
                  (read_range data 12 (Z.to_nat (u16 (le16 data 4)))))
      as (_ & _ & Hr1 & _ & _ & Hw1 & _).
    rewrite Hr, Hb, He, Hr1, !lookup_delete_eq.
    unfold waveform_count. rewrite Hw. unfold waveform_events. rewrite Hw1.
    repeat split. intros ->. reflexivity.
Qed.

Lemma bounded_keys_size {V} (m : gmap Z V) (n : nat) :
  (forall k, is_Some (m !! k) -> 0 <= k < Z.of_nat n) -> (size m <= n)%nat.
Proof.
  intros Hk. rewrite <- size_dom.
  set (full := list_to_set (Z.of_nat <$> seq 0 n) : gset Z).
  transitivity (size full).
  - apply subseteq_size. intros k Hin. apply elem_of_dom in Hin.
    apply Hk in Hin. apply elem_of_list_to_set, list_elem_of_fmap.
    exists (Z.to_nat k). split; [lia|]. apply elem_of_seq. lia.
  - unfold full. rewrite size_list_to_set.
    + rewrite length_fmap, length_seq. reflexivity.
    + apply NoDup_fmap_2; [intros a b; lia|apply NoDup_seq].
Qed.

Lemma keys_in_range_size s :
  keys_in_range s -> (size (received_blocks s) <= 1800)%nat.
Proof.
  intros H. apply bounded_keys_size. intros k Hk. apply H in Hk.
  unfold TOTAL_BLOCKS in Hk. lia.
Qed.

Lemma completion_count_app (l1 l2 : list event) :
  completion_count (l1 ++ l2) = (completion_count l1 + completion_count l2)%nat.
Proof. unfold completion_count. rewrite filter_app, length_app. reflexivity. Qed.

(** The number of completion callbacks of one call. *)
Lemma call_completion_count s data len :
  let bn := u16 (le16 data 0) in
  let '(ok, s', events) := process_chunk s data len in
  completion_count events
  = if ok && bool_decide (block_chunks s' !! bn = None)
       && (Z.of_nat (size (received_blocks s')) =? TOTAL_BLOCKS)
       && completion_callback s
    then 1%nat else 0%nat.
Proof.
  cbv zeta.
  destruct (process_chunk_outcome uncompress s data len)
    as [[_ ->]|[(_ & _ & Hne & ->)|(_ & _ & Heq & s2 & events & Hc & ->)]].
  - reflexivity.
  - pose proof (store_chunk_spec s (u16 (le16 data 0)) (u16 (le16 data 2))
                  (u16 (le16 data 4)) (u16 (le16 data 6))
                  (read_range data 12 (Z.to_nat (u16 (le16 data 4)))))
      as (Hb & _).
    rewrite Hb. reflexivity.
  - apply complete_block_spec in Hc.
    destruct Hc as (_ & Hb & _ & _ & _ & _ & _ & _ & Hcc).
    pose proof (store_chunk_spec s (u16 (le16 data 0)) (u16 (le16 data 2))
                  (u16 (le16 data 4)) (u16 (le16 data 6))
                  (read_range data 12 (Z.to_nat (u16 (le16 data 4)))))
      as (_ & _ & _ & _ & _ & _ & Hcb).
    rewrite Hcc, Hb, lookup_delete_eq, Hcb. simpl. reflexivity.
Qed.

Lemma call_keeps_range s data len :
  keys_in_range s ->
  let '(ok, s', events) := process_chunk s data len in
  keys_in_range s'
  /\ completion_callback s' = completion_callback s
  /\ (completion_callback s = true ->
      (size (received_blocks s') = 1800%nat
       <-> size (received_blocks s) = 1800%nat \/ (0 < completion_count events)%nat)).
Proof.
  intros Hk.
  pose proof (call_completion_count s data len) as Hcc. cbv zeta in Hcc.
  destruct (process_chunk_outcome uncompress s data len)
    as [[_ E]|[(_ & _ & Hne & E)|(_ & Hbn & Heq & s2 & events & Hc & E)]];
    rewrite E in *; clear E.
  - split; [assumption|]. split; [reflexivity|]. intros _.
    split; [tauto|]. intros [?|H]; [assumption|]. cbv in H. lia.
  - pose proof (store_chunk_spec s (u16 (le16 data 0)) (u16 (le16 data 2))
                  (u16 (le16 data 4)) (u16 (le16 data 6))
                  (read_range data 12 (Z.to_nat (u16 (le16 data 4)))))
      as (_ & _ & Hr & _ & _ & _ & Hcb).
    unfold keys_in_range. rewrite Hr, Hcb.
    split; [assumption|]. split; [reflexivity|]. intros _.
    split; [tauto|]. intros [?|H]; [assumption|]. cbv in H. lia.
  - apply complete_block_spec in Hc.
    destruct Hc as (Hr & Hb & _ & _ & _ & Hcb2 & _ & _ & _).
    pose proof (store_chunk_spec s (u16 (le16 data 0)) (u16 (le16 data 2))
                  (u16 (le16 data 4)) (u16 (le16 data 6))
                  (read_range data 12 (Z.to_nat (u16 (le16 data 4)))))
      as (_ & _ & Hr1 & _ & _ & _ & Hcb).
    rewrite Hr1 in Hr.
    assert (Hk2 : keys_in_range s2).
    { intros k. unfold keys_in_range in Hk. rewrite Hr.
      destruct (decide (k = u16 (le16 data 0))) as [->|Hd].
      - intros _. pose proof (u16_range (le16 data 0)). lia.
      - rewrite lookup_insert_ne by congruence. apply Hk. }
    split; [assumption|]. split; [congruence|].
    intros Hcbt. rewrite Hcc, Hb, lookup_delete_eq, Hcbt. simpl.
    pose proof (keys_in_range_size s2 Hk2) as Hsz.
    rewrite Hr in Hsz |- *. rewrite andb_true_r.
    rewrite map_size_insert in Hsz |- *.
    unfold TOTAL_BLOCKS.
    destruct (received_blocks s !! u16 (le16 data 0)); unfold id in *;
      destruct (Z.eqb_spec (Z.of_nat (size (received_blocks s))) 1800);
      destruct (Z.eqb_spec (Z.of_nat (S (size (received_blocks s)))) 1800);
      lia.
Qed.

Lemma feed_keeps_range chunks : forall s,
  keys_in_range s -> completion_callback s = true ->
  let '(s', events) := feed_all uncompress s chunks in
  keys_in_range s'
  /\ completion_callback s' = true
  /\ (size (received_blocks s') = 1800%nat
      <-> size (received_blocks s) = 1800%nat \/ (0 < completion_count events)%nat).
Proof.
  induction chunks as [|[data len] rest IH]; intros s Hk Hcb; simpl.
  - split; [assumption|]. split; [assumption|].
    split; [tauto|]. intros [?|H]; [assumption|]. cbv in H. lia.
  - pose proof (call_keeps_range s data len Hk) as H1.
    destruct (process_chunk s data len) as [[ok s1] e1].
    destruct H1 as (Hk1 & Hcb1 & Hiff1).
    rewrite Hcb in Hcb1. specialize (Hiff1 Hcb).
    specialize (IH s1 Hk1 Hcb1).
    destruct (feed_all uncompress s1 rest) as [s2 e2].
    destruct IH as (Hk2 & Hcb2 & Hiff2).
    split; [assumption|]. split; [assumption|].
    rewrite completion_count_app. rewrite Hiff2, Hiff1. lia.
Qed.

(** C5, as amended: in a session lifetime with a completion callback
    registered, the callback has been invoked (at least once) iff the
    received set has T = 1800 blocks; it is not limited to one
    invocation: any call invokes it exactly when the call assembles a
    block and the received set then has T blocks, so a block assembled
    again from duplicate or late chunks invokes it again. *)
Theorem completion_iff_all_blocks_each_time s0 now chunks :
  completion_callback s0 = true ->
  let '(s, events) := feed_all uncompress (transfer_session_start s0 now) chunks in
  ((0 < completion_count events)%nat <-> size (received_blocks s) = 1800%nat)
  /\ forall data len,
       let '(ok, s', events') := process_chunk s data len in
       completion_count events'
       = if ok && bool_decide (block_chunks s' !! u16 (le16 data 0) = None)
            && (Z.of_nat (size (received_blocks s')) =? TOTAL_BLOCKS)
         then 1%nat else 0%nat.
Proof.
  intros Hcb.
  pose proof (feed_keeps_range chunks (transfer_session_start s0 now)) as H.
  destruct (feed_all uncompress (transfer_session_start s0 now) chunks) as [s events].
  destruct H as (Hk & Hcb' & Hiff).
  - intros k [v Hv]. simpl in Hv. rewrite lookup_empty in Hv. discriminate.
  - exact Hcb.
  - split.
    + rewrite Hiff. simpl. rewrite map_size_empty. lia.
    + intros data len.
      pose proof (call_completion_count s data len) as Hcc. cbv zeta in Hcc.
      destruct (process_chunk s data len) as [[ok s'] events'].
      rewrite Hcc, Hcb', andb_true_r. reflexivity.
Qed.

End WithZlib.

(** C6 as stated fails: block 5 arrives as one chunk with no payload; its
    decode fails (fewer than 38 bytes), the waveform callback is not
    invoked, and the block is in the received set all the same, counted
    by the progress callback. *)
Lemma undecodable_block_is_marked_received :
  let '(ok, s', events) :=
    transfer_session_process_chunk zlib_rejects started
      (buffer (chunk_frame 5 0 1 [])) 12 in
  decode_block zlib_rejects [] = None
  /\ received_blocks s' !! 5 = Some []
  /\ events = [OnProgress {| Stats.blocks_received := 1;
                             Stats.total_blocks := 1800;
                             Stats.total_bytes_received := 0;
                             Stats.total_chunks_received := 1;
                             Stats.elapsed_since := Some 0 |}].
Proof. vm_compute. repeat split. Qed.

(** C5 as stated fails: after all 1800 blocks have arrived, block 0
    arriving once more invokes the completion callback a second time. *)
Lemma completion_invoked_twice :
  completion_count
    (snd (feed_all zlib_rejects started (empty_blocks 1800 ++ empty_blocks 1)))
  = 2%nat.
Proof. vm_compute. reflexivity. Qed.

(** The amended C5 at a concrete lifetime: 1800 blocks, then block 0 again. *)
Lemma completion_iff_all_blocks_each_time_witness :
  let '(s, events) :=
    feed_all zlib_rejects
      (transfer_session_start (set_callbacks transfer_session_create) 0)
      (empty_blocks 1800 ++ empty_blocks 1) in
  ((0 < completion_count events)%nat <-> size (received_blocks s) = 1800%nat)
  /\ forall data len,
       let '(ok, s', events') :=
         transfer_session_process_chunk zlib_rejects s data len in
       completion_count events'
       = if ok && bool_decide (block_chunks s' !! u16 (le16 data 0) = None)
            && (Z.of_nat (size (received_blocks s')) =? TOTAL_BLOCKS)
         then 1%nat else 0%nat.
Proof.
  apply (completion_iff_all_blocks_each_time zlib_rejects
           (set_callbacks transfer_session_create) 0
           (empty_blocks 1800 ++ empty_blocks 1)).
  reflexivity.
Defined.

End Completion.

(** ** Receiver session: the same chunk twice, and the payload read *)

Module Duplicates.

Import Codec Receiver Examples Calls.

Lemma insert_of_size_one {V} (m : gmap Z V) (k : Z) (v : V) :
  size (<[k := v]> m) = 1%nat -> <[k := v]> m = {[k := v]}.
Proof.
  rewrite <- (insert_delete_eq m), <- insert_empty.
  rewrite map_size_insert_None by apply lookup_delete_eq.
  intros H. f_equal. apply map_size_empty_inv. lia.
Qed.

Section WithZlib.

Variable uncompress : list byte -> nat -> Z * list byte.

Local Abbreviation process_chunk := (transfer_session_process_chunk uncompress).

(** C7, as amended: when an accepted chunk is fed a second time, the
    received set is the one after the first feed; the two counters count
    the chunk again (one more chunk, [chunk_size] more bytes, modulo 2^32):
    they increment on every store, not on the first only; the second feed
    invokes no callback unless the chunk is a whole block
    ([total_chunks = 1]), and then it invokes the waveform callback
    exactly as the first feed did. *)
Theorem duplicate_chunk_is_counted_again s data len :
  (12 <= len)%nat ->
  u16 (le16 data 0) < TOTAL_BLOCKS ->
  let '(_, s1, events1) := process_chunk s data len in
  let '(_, s2, events2) := process_chunk s1 data len in
  received_blocks s2 = received_blocks s1
  /\ total_chunks_received s2 = u32 (total_chunks_received s1 + 1)
  /\ total_bytes_received s2 = u32 (total_bytes_received s1 + u16 (le16 data 4))
  /\ (u16 (le16 data 6) <> 1 -> events2 = [])
  /\ (u16 (le16 data 6) = 1 ->
      filter (fun e => is_waveform e = true) events2
      = filter (fun e => is_waveform e = true) events1).
Proof.
  intros Hlen Hbn.
  remember (u16 (le16 data 0)) as bn eqn:Ebn.
  remember (u16 (le16 data 2)) as cn eqn:Ecn.
  remember (u16 (le16 data 4)) as cs eqn:Ecs.
  remember (u16 (le16 data 6)) as tc eqn:Etc.
  remember (read_range data 12 (Z.to_nat cs)) as d eqn:Ed.
  pose proof (store_chunk_spec s bn cn cs tc d) as (Hb & _ & Hr & _ & _ & Hw & _).
  destruct (process_chunk_outcome_at uncompress s data len bn cn cs tc d
              Ebn Ecn Ecs Etc Ed)
    as [[[?|?] _]|[(_ & _ & Hne & ->)|(_ & _ & Heq & s1 & events1 & Hc & ->)]];
    [lia|lia|..].
  - (* the first feed stores the chunk; so does the second *)
    set (sa := store_chunk s bn cn cs tc d) in *.
    pose proof (store_chunk_spec sa bn cn cs tc d)
      as (Hb2 & _ & Hr2 & Hby2 & Hch2 & _).
    assert (Hsame : chunks_of (block_chunks (store_chunk sa bn cn cs tc d)) bn
                    = chunks_of (block_chunks sa) bn).
    { unfold chunks_of at 1 2. rewrite Hb2. unfold chunks_of at 1. rewrite Hb.
      simpl. apply insert_insert_eq. }
    destruct (process_chunk_outcome_at uncompress sa data len bn cn cs tc d
                Ebn Ecn Ecs Etc Ed)
      as [[[?|?] _]|[(_ & _ & _ & ->)|(_ & _ & Heq2 & _)]];
      [lia|lia|..].
    + split; [assumption|]. split; [assumption|]. split; [assumption|].
      split; intros _; reflexivity.
    + rewrite Hsame in Heq2. contradiction.
  - (* the first feed assembles the block *)
    set (sa := store_chunk s bn cn cs tc d) in *.
    apply complete_block_spec in Hc.
    destruct Hc as (Hr1 & Hb1 & _ & Hby1 & Hch1 & _ & Hw1 & Hev1 & _).
    pose proof (store_chunk_spec s1 bn cn cs tc d)
      as (Hb2 & _ & Hr2 & Hby2 & Hch2 & Hw2 & _).
    assert (Hone : chunks_of (block_chunks (store_chunk s1 bn cn cs tc d)) bn
                   = {[cn := d]}).
    { unfold chunks_of at 1. rewrite Hb2. unfold chunks_of.
      rewrite Hb1, lookup_delete_eq. simpl. apply insert_empty. }
    destruct (process_chunk_outcome_at uncompress s1 data len bn cn cs tc d
                Ebn Ecn Ecs Etc Ed)
      as [[[?|?] _]|[(_ & _ & Hne2 & ->)|(_ & _ & Heq2 & s2 & events2 & Hc2 & ->)]];
      [lia|lia|..].
    + split; [assumption|]. split; [assumption|]. split; [assumption|].
      split; [intros _; reflexivity|].
      intros Htc. rewrite Hone, map_size_singleton in Hne2. lia.
    + rewrite Hone, map_size_singleton in Heq2.
      apply complete_block_spec in Hc2.
      destruct Hc2 as (Hr3 & _ & _ & Hby3 & Hch3 & _ & _ & Hev3 & _).
      assert (Hm : chunks_of (block_chunks sa) bn = {[cn := d]}).
      { unfold chunks_of at 1. rewrite Hb. simpl.
        apply insert_of_size_one.
        unfold chunks_of in Heq at 1. rewrite Hb in Heq. simpl in Heq. lia. }
      rewrite Hone in Hr3, Hev3. rewrite Hm in Hr1, Hev1.
      split; [|split; [|split; [|split]]].
      * rewrite Hr3, Hr2, Hr1, <- Heq2. apply insert_insert_eq.
      * congruence.
      * congruence.
      * intros Hn. exfalso. apply Hn. symmetry. exact Heq2.
      * intros _. rewrite Hev3, Hev1.
        unfold waveform_events. rewrite Hw2, Hw1. reflexivity.
Qed.

End WithZlib.

(** C7 as stated fails: the first chunk of a two-chunk block, three
    payload bytes, fed twice: after the second feed the counters read 2
    chunks and 6 bytes, not the 1 chunk and 3 bytes of the first feed. *)
Lemma duplicate_chunk_counters :
  let f := frame (chunk_frame 4 0 2 [x0a; x0b; x0c]) in
  let s1 := fst (feed_all zlib_rejects started [f]) in
  let s2 := fst (feed_all zlib_rejects started [f; f]) in
  (total_chunks_received s1, total_bytes_received s1) = (1, 3)
  /\ (total_chunks_received s2, total_bytes_received s2) = (2, 6).
Proof. vm_compute. split; reflexivity. Qed.

(** ... and a raw block sent as one chunk is delivered to the waveform
    callback by each of the two feeds. *)
Lemma duplicate_block_delivered_twice :
  let f := frame (chunk_frame 4 0 1 zero_block) in
  waveform_count (snd (feed_all zlib_rejects started [f])) = 1%nat
  /\ waveform_count (snd (feed_all zlib_rejects started [f; f])) = 2%nat.
Proof. vm_compute. split; reflexivity. Qed.

(** The amended C7 at the first chunk of a two-chunk block, fed twice. *)
Lemma duplicate_chunk_is_counted_again_witness :
  let data := buffer (chunk_frame 4 0 2 [x0a; x0b; x0c]) in
  let '(_, s1, events1) := transfer_session_process_chunk zlib_rejects started data 15 in
  let '(_, s2, events2) := transfer_session_process_chunk zlib_rejects s1 data 15 in
  received_blocks s2 = received_blocks s1
  /\ total_chunks_received s2 = u32 (total_chunks_received s1 + 1)
  /\ total_bytes_received s2 = u32 (total_bytes_received s1 + u16 (le16 data 4))
  /\ (u16 (le16 data 6) <> 1 -> events2 = [])
  /\ (u16 (le16 data 6) = 1 ->
      filter (fun e => is_waveform e = true) events2
      = filter (fun e => is_waveform e = true) events1).
Proof.
  apply (duplicate_chunk_is_counted_again zlib_rejects started
           (buffer (chunk_frame 4 0 2 [x0a; x0b; x0c])) 15).
  - lia.
  - vm_compute. reflexivity.
Defined.

(** [length] is compared with 12 and then never looked at again: two
    calls that differ in it only, both with at least 12, do the same. *)
Lemma length_is_only_compared_with_12 uncompress s data (len len' : nat) :
  (12 <= len)%nat -> (12 <= len')%nat ->
  transfer_session_process_chunk uncompress s data len
  = transfer_session_process_chunk uncompress s data len'.
Proof.
  intros H H'. unfold transfer_session_process_chunk.
  destruct (Nat.ltb_spec len 12); [lia|].
  destruct (Nat.ltb_spec len' 12); [lia|].
  reflexivity.
Qed.

(** C4 fails on the code: the payload is the [chunk_size] bytes at
    [data + 12] whatever [length] is.  A 12-byte notification (a bare
    chunk header) announcing one payload byte is accepted, and the byte
    stored as the payload of chunk 0 of block 3 is the byte [b] that lies
    in memory right behind the 12-byte buffer. *)
Theorem process_chunk_reads_past_the_buffer (b : byte) :
  let data := buffer_then (bare_header 3 0 1 2) (fun _ => b) in
  let '(ok, s', _) := transfer_session_process_chunk zlib_rejects started data 12 in
  length (bare_header 3 0 1 2) = 12%nat
  /\ ok = true
  /\ chunks_of (block_chunks s') 3 !! 0 = Some [b]
  /\ total_bytes_received s' = 1.
Proof. vm_compute. repeat split. Qed.

End Duplicates.

(** ** Block decode: the compressed path *)

Module Decode.

Import Codec DecodeSpec Examples.

Lemma i16_range (z : Z) : -32768 <= i16 z < 32768.
Proof.
  unfold i16. change (2 ^ 15) with 32768. change (2 ^ 16) with 65536.
  pose proof (Z.mod_pos_bound (z + 32768) 65536 ltac:(lia)). lia.
Qed.

Lemma i32_small (z : Z) : - 2 ^ 31 <= z < 2 ^ 31 -> i32 z = z.
Proof.
  intros H. unfold i32. rewrite Z.mod_small; lia.
Qed.

Lemma buffer_app (pre l : list byte) (i : nat) :
  buffer (pre ++ l) (length pre + i)%nat = buffer l i.
Proof.
  unfold buffer, buffer_then.
  rewrite lookup_app_r by lia.
  replace (length pre + i - length pre)%nat with i by lia.
  destruct (l !! i); reflexivity.
Qed.

(** The loop of [decompress_waveform] computes the running sum of the
    little-endian 16-bit deltas; the 32-bit accumulator cannot overflow
    within the bound of the hypothesis. *)
Lemma delta_decode_from_running_sum (n : nat) :
  forall (pre buf : list byte) (i : nat) (prev : Z),
    length pre = (i * 2)%nat -> length buf = (2 * n)%nat ->
    - 2 ^ 31 <= prev - 32768 * Z.of_nat n ->
    prev + 32767 * Z.of_nat n < 2 ^ 31 ->
    delta_decode_from (buffer (pre ++ buf)) i n prev
    = running_sum prev (deltas_le16 buf).
Proof.
  induction n as [|n IH]; intros pre buf i prev Hpre Hbuf Hlo Hhi.
  - destruct buf; [reflexivity|discriminate].
  - destruct buf as [|lo [|hi rest]]; try (simpl in Hbuf; lia).
    simpl delta_decode_from. simpl deltas_le16. simpl running_sum.
    assert (Hd : le16 (buffer (pre ++ lo :: hi :: rest)) (i * 2)
                 = b2z lo + 256 * b2z hi).
    { rewrite le16_sum. rewrite <- Hpre.
      replace (length pre) with (length pre + 0)%nat at 1 by lia.
      rewrite !buffer_app. reflexivity. }
    rewrite Hd.
    pose proof (i16_range (b2z lo + 256 * b2z hi)) as Hr.
    rewrite i32_small by lia.
    f_equal.
    replace (pre ++ lo :: hi :: rest) with ((pre ++ [lo; hi]) ++ rest)
      by (rewrite <- app_assoc; reflexivity).
    apply IH.
    + rewrite length_app. simpl. lia.
    + simpl in Hbuf. lia.
    + lia.
    + lia.
Qed.

Lemma deltas_le16_length (buf : list byte) :
  length (deltas_le16 buf) = Nat.div2 (length buf).
Proof.
  enough (H : length (deltas_le16 buf) = Nat.div2 (length buf)
              /\ forall b, length (deltas_le16 (b :: buf))
                           = Nat.div2 (S (length buf))) by apply H.
  induction buf as [|hi rest [IH1 IH2]]; [split; reflexivity|].
  split; [apply IH2|].
  intros lo. simpl. f_equal. exact IH1.
Qed.

Lemma running_sum_length (deltas : list Z) :
  forall seed, length (running_sum seed deltas) = length deltas.
Proof.
  induction deltas as [|d rest IH]; intros seed; simpl; [reflexivity|].
  f_equal. apply IH.
Qed.

Lemma fold_left_concat {A B} (f : A -> B -> A) (g : Z -> list B) (l : list Z) :
  forall a, fold_left f (concat (map g l)) a
            = fold_left (fun a x => fold_left f (g x) a) l a.
Proof.
  induction l as [|x l IH]; intros a; simpl; [reflexivity|].
  rewrite fold_left_app. apply IH.
Qed.

Lemma calculate_crc32_data_ieee (data : list byte) :
  calculate_crc32_data data = crc32_ieee data.
Proof.
  unfold calculate_crc32_data, crc32_ieee, crc_reflected, not32.
  f_equal.
Qed.

(** L2 of the specification: the CRC over the samples is the CRC over
    their packed 24-bit little-endian bytes. *)
Lemma calculate_crc32_samples_packed (smp : list Z) :
  calculate_crc32_samples smp = calculate_crc32_data (pack_24bit_samples smp).
Proof.
  unfold calculate_crc32_samples, calculate_crc32_data, pack_24bit_samples.
  f_equal. symmetry. apply fold_left_concat.
Qed.

Section WithZlib.

Variable uncompress : list byte -> nat -> Z * list byte.

Lemma decompress_waveform_running_sum (compressed_data : list byte) :
  decompress_waveform uncompress compressed_data
  = let '(result, decompressed) := uncompress compressed_data 4752%nat in
    if (result =? Z_OK) && (length decompressed =? 4752)%nat
    then Some (running_sum 0 (deltas_le16 decompressed))
    else None.
Proof.
  unfold decompress_waveform.
  change (2376 * 2)%nat with 4752%nat.
  destruct (uncompress compressed_data 4752%nat) as [result decompressed].
  destruct (result =? Z_OK); cbn [negb orb andb]; [|reflexivity].
  destruct (Nat.eqb_spec (length decompressed) 4752) as [Hlen|];
    cbn [negb]; [|reflexivity].
  f_equal.
  apply (delta_decode_from_running_sum 2376 [] decompressed 0 0).
  - reflexivity.
  - exact Hlen.
  - change (Z.of_nat 2376) with 2376. lia.
  - change (Z.of_nat 2376) with 2376. lia.
Qed.


End WithZlib.

(** The decode succeeds on a block whose header carries the CRC-32 of the
    7128 zero bytes that 2376 zero deltas unpack to, and fails once one
    bit of that field is changed. *)
Example compressed_block_decode_zero :
  option_map samples (process_compressed_block zlib_zero_deltas zero_delta_block)
  = Some (replicate 2376 0)
  /\ process_compressed_block zlib_zero_deltas
       (replicate 30 x00 ++ put32 0xD4F43354 ++ replicate 4 x00 ++ [x00]) = None
  /\ crc32_ieee [x31; x32; x33; x34; x35; x36; x37; x38; x39] = 0xCBF43926.
Proof. vm_compute. repeat split. Qed.

End Decode.

(** ** Sender: the ACK barrier and the block counters *)

Module Barrier.

Import Sender Examples.

Section WithBlockSource.

Variable generate_block_data : Z -> list byte.

Local Abbreviation process_next_chunk :=
  (app_data_transfer_process_next_chunk generate_block_data).
Local Abbreviation control_write_handler :=
  (app_data_transfer_control_write_handler generate_block_data).

(** [send_chunk] leaves the block tracking and the chunk sizing alone. *)
Lemma send_chunk_keeps_tracking s bn cn status now s1 r sent :
  send_chunk s bn cn status now = Some (s1, r, sent) ->
  trk s1 = trk s /\ szg s1 = szg s.
Proof.
  unfold send_chunk.
  destruct (notification_credits (pac s) <=? 0); [intros [= <- _ _]; split; reflexivity|].
  destruct (actual_chunk_size (szg s) =? 0); [discriminate|].
  destruct status; intros [= <- _ _]; split; reflexivity.
Qed.

Lemma send_chunk_success s bn cn now :
  0 < notification_credits (pac s) -> actual_chunk_size (szg s) <> 0 ->
  exists s1,
    send_chunk s bn cn GATT_SUCCESS now
    = Some (s1, true,
            [chunk_packet (block_data (trk s)) (current_block_size (trk s))
               (actual_chunk_size (szg s)) bn cn]).
Proof.
  intros Hc Hs. unfold send_chunk.
  destruct (Z.leb_spec (notification_credits (pac s)) 0); [lia|].
  destruct (Z.eqb_spec (actual_chunk_size (szg s)) 0); [contradiction|].
  eexists. reflexivity.
Qed.

(** A successful call in the Active state emits the notification of the
    current chunk of the current block, as [chunk_packet] builds it. *)
Lemma process_next_chunk_emits_current_chunk s now :
  current_state (trk s) = TRANSFER_STATE_ACTIVE ->
  waiting_for_ack (trk s) = false ->
  current_block (trk s) < TOTAL_BLOCKS ->
  0 < notification_credits (pac s) ->
  actual_chunk_size (szg s) <> 0 ->
  exists s1,
    process_next_chunk s GATT_SUCCESS now
    = Some (s1, true,
            [chunk_packet (block_data (trk s)) (current_block_size (trk s))
               (actual_chunk_size (szg s)) (current_block (trk s))
               (current_chunk (trk s))]).
Proof.
  intros Hst Hw Hblk Hcr Hsz.
  destruct (send_chunk_success s (current_block (trk s)) (current_chunk (trk s))
              now Hcr Hsz) as [s1 Hsend].
  unfold app_data_transfer_process_next_chunk.
  rewrite Hst, Hw. cbn [state_eqb negb].
  destruct (Z.leb_spec TOTAL_BLOCKS (current_block (trk s))); [lia|].
  rewrite Hsend.
  destruct (chunks_in_block _ _ <=? _); eexists; reflexivity.
Qed.

(** A write of [ack_msg b ts] is handled as ACK (b). *)
Lemma control_write_ack s conn b ts now :
  0 <= b < 65536 ->
  control_write_handler s conn (ack_msg b ts) now = handle_ack s b.
Proof.
  intros Hb. unfold app_data_transfer_control_write_handler.
  change (length (ack_msg b ts) <? sizeof_control_msg_t)%nat with false.
  cbv iota.
  change (b2z (buffer (ack_msg b ts) 0%nat)) with 3.
  change (3 =? CTRL_CMD_START) with false.
  change (3 =? CTRL_CMD_STOP) with false.
  change (3 =? CTRL_CMD_ACK) with true.
  cbv iota.
  rewrite (le16_put16 (buffer (ack_msg b ts)) 1 b) by reflexivity.
  rewrite !(u16_small b) by assumption. reflexivity.
Qed.

(** C2, as amended.  From the Active state, the successful emission of
    the last chunk of block 19 moves the sender to block 20 and to
    WaitingAck, and from there no call emits a chunk.  An ACK (b) with
    [b >= last_acked_block] sets [last_acked_block] to [b + 1] for every
    [b < 65535] (to 0 for [b = 65535]: the field is 16 bits wide) and
    returns the session to Active; an ACK (b) with [b < last_acked_block]
    changes nothing, in this state and in every state [t]. *)
Theorem ack_barrier_after_block_19 (s t : sender) (now conn b ts now' : Z) :
  current_state (trk s) = TRANSFER_STATE_ACTIVE ->
  waiting_for_ack (trk s) = false ->
  current_block (trk s) = 19 ->
  0 < notification_credits (pac s) ->
  actual_chunk_size (szg s) <> 0 ->
  chunks_in_block (current_block_size (trk s)) (actual_chunk_size (szg s))
    <= u16 (current_chunk (trk s) + 1) ->
  0 <= b < 65536 ->
  exists s1 packet,
    process_next_chunk s GATT_SUCCESS now = Some (s1, true, [packet])
    /\ current_state (trk s1) = TRANSFER_STATE_WAITING_ACK
    /\ waiting_for_ack (trk s1) = true
    /\ current_block (trk s1) = 20
    /\ current_chunk (trk s1) = 0
    /\ last_acked_block (trk s1) = last_acked_block (trk s)
    /\ (forall status now2,
          process_next_chunk s1 status now2 = Some (s1, false, []))
    /\ (let s2 := control_write_handler s1 conn (ack_msg b ts) now' in
        if last_acked_block (trk s1) <=? b
        then last_acked_block (trk s2) = (if b =? 65535 then 0 else b + 1)
             /\ current_state (trk s2) = TRANSFER_STATE_ACTIVE
             /\ waiting_for_ack (trk s2) = false
             /\ current_block (trk s2) = 20
        else s2 = s1)
    /\ (let t2 := control_write_handler t conn (ack_msg b ts) now' in
        if last_acked_block (trk t) <=? b
        then last_acked_block (trk t2) = (if b =? 65535 then 0 else b + 1)
             /\ current_block (trk t2) = current_block (trk t)
             /\ waiting_for_ack (trk t2) = false
             /\ current_state (trk t2)
                = (if waiting_for_ack (trk t) then TRANSFER_STATE_ACTIVE
                   else current_state (trk t))
        else t2 = t).
Proof.
  intros Hst Hw Hblk Hcr Hsz Hlast Hb.
  assert (Hwrap : u16 (b + 1) = if b =? 65535 then 0 else b + 1).
  { destruct (Z.eqb_spec b 65535) as [->|]; [reflexivity|]. apply u16_small. lia. }
  destruct (send_chunk_success s (current_block (trk s)) (current_chunk (trk s))
              now Hcr Hsz) as [s1 Hsend].
  pose proof (send_chunk_keeps_tracking _ _ _ _ _ _ _ _ Hsend) as [Ht Hz].
  eexists. eexists.
  split.
  { unfold app_data_transfer_process_next_chunk.
    rewrite Hst, Hw. cbn [state_eqb negb]. rewrite Hblk.
    change (TOTAL_BLOCKS <=? 19) with false. cbv iota.
    rewrite Hblk in Hsend. rewrite Hsend.
    apply Z.leb_le in Hlast. rewrite Hlast.
    change (u16 (19 + 1)) with 20.
    change ((20 mod ACK_INTERVAL =? 0) && (20 <? TOTAL_BLOCKS)) with true.
    change (20 <? TOTAL_BLOCKS) with true. cbv iota.
    reflexivity. }
  cbn [trk load_block current_state waiting_for_ack current_block current_chunk
       last_acked_block].
  do 5 (split; [reflexivity|]).
  split; [|split].
  - intros status now2. reflexivity.
  - cbv zeta. rewrite control_write_ack by assumption.
    unfold handle_ack.
    cbn [trk load_block current_state waiting_for_ack current_block current_chunk
         last_acked_block].
    destruct (last_acked_block (trk s) <=? b); [|reflexivity].
    cbn [trk current_state waiting_for_ack current_block last_acked_block].
    rewrite Hwrap. repeat split.
  - cbv zeta. rewrite control_write_ack by assumption.
    unfold handle_ack.
    destruct (last_acked_block (trk t) <=? b); [|reflexivity].
    cbn [trk current_state waiting_for_ack current_block last_acked_block].
    rewrite Hwrap. repeat split.
Qed.

End WithBlockSource.

(** C2 as stated fails at [b = 65535]: in WaitingAck after block 19, the
    write of ACK (65535) is accepted, returns the sender to Active and
    leaves [last_acked_block = 0], not 65536. *)
Lemma ack_65535_wraps :
  match app_data_transfer_process_next_chunk small_source at_block_19 GATT_SUCCESS 7 with
  | Some (s1, _, _) =>
      let s2 := app_data_transfer_control_write_handler small_source s1 1
                  (ack_msg 65535 0) 8 in
      current_state (trk s1) = TRANSFER_STATE_WAITING_ACK
      /\ last_acked_block (trk s1) <= 65535
      /\ current_state (trk s2) = TRANSFER_STATE_ACTIVE
      /\ last_acked_block (trk s2) = 0
      /\ last_acked_block (trk s2) <> 65535 + 1
  | None => False
  end.
Proof. vm_compute. repeat split; discriminate. Qed.

(** The amended C2 at the state [at_block_19], with ACK (19) and, in the
    state reached after ACK (19), ACK (18). *)
Lemma ack_barrier_after_block_19_witness :
  let after_ack_19 :=
    match trusted_run small_source initial_state
            (twenty_blocks ++ [ControlWrite 1 (ack_msg 19 0) 0]) with
    | Some t => t
    | None => initial_state
    end in
  exists s1 packet,
    app_data_transfer_process_next_chunk small_source at_block_19 GATT_SUCCESS 7
    = Some (s1, true, [packet])
    /\ current_state (trk s1) = TRANSFER_STATE_WAITING_ACK
    /\ waiting_for_ack (trk s1) = true
    /\ current_block (trk s1) = 20
    /\ current_chunk (trk s1) = 0
    /\ last_acked_block (trk s1) = last_acked_block (trk at_block_19)
    /\ (forall status now2,
          app_data_transfer_process_next_chunk small_source s1 status now2
          = Some (s1, false, []))
    /\ (let s2 := app_data_transfer_control_write_handler small_source s1 1
                    (ack_msg 18 0) 9 in
        if last_acked_block (trk s1) <=? 18
        then last_acked_block (trk s2) = (if 18 =? 65535 then 0 else 18 + 1)
             /\ current_state (trk s2) = TRANSFER_STATE_ACTIVE
             /\ waiting_for_ack (trk s2) = false
             /\ current_block (trk s2) = 20
        else s2 = s1)
    /\ (let t2 := app_data_transfer_control_write_handler small_source after_ack_19 1
                    (ack_msg 18 0) 9 in
        if last_acked_block (trk after_ack_19) <=? 18
        then last_acked_block (trk t2) = (if 18 =? 65535 then 0 else 18 + 1)
             /\ current_block (trk t2) = current_block (trk after_ack_19)
             /\ waiting_for_ack (trk t2) = false
             /\ current_state (trk t2)
                = (if waiting_for_ack (trk after_ack_19) then TRANSFER_STATE_ACTIVE
                   else current_state (trk after_ack_19))
        else t2 = after_ack_19).
Proof.
  intros after_ack_19.
  apply (ack_barrier_after_block_19 small_source at_block_19 after_ack_19 7 1 18 0 9).
  - reflexivity.
  - reflexivity.
  - reflexivity.
  - vm_compute. reflexivity.
  - vm_compute. discriminate.
  - vm_compute. discriminate.
  - lia.
Defined.

End Barrier.

(** ** Sender: the invariant on the block counters *)

Module Invariant.

Import Sender Examples Barrier.

Section WithBlockSource.

Variable generate_block_data : Z -> list byte.

Local Abbreviation step := (Sender.step generate_block_data).
Local Abbreviation trusted_run := (Sender.trusted_run generate_block_data).

Lemma P1_same_counters (s s' : sender) :
  current_block (trk s') = current_block (trk s) ->
  last_acked_block (trk s') = last_acked_block (trk s) ->
  P1 s -> P1 s'.
Proof. unfold P1. intros -> ->. tauto. Qed.

Lemma process_next_chunk_keeps_P1 s status now s' r sent :
  P1 s ->
  app_data_transfer_process_next_chunk generate_block_data s status now
  = Some (s', r, sent) ->
  P1 s'.
Proof.
  intros HP. unfold app_data_transfer_process_next_chunk.
  destruct (negb (state_eqb (current_state (trk s)) TRANSFER_STATE_ACTIVE));
    [intros [= <- _ _]; exact HP|].
  destruct (waiting_for_ack (trk s)); [intros [= <- _ _]; exact HP|].
  destruct (Z.leb_spec TOTAL_BLOCKS (current_block (trk s))) as [|Hlt];
    [intros [= <- _ _]; exact HP|].
  destruct (send_chunk s (current_block (trk s)) (current_chunk (trk s)) status now)
    as [[[s1 ok] sent1]|] eqn:Hsend; [|discriminate].
  apply send_chunk_keeps_tracking in Hsend. destruct Hsend as [Ht _].
  destruct ok.
  - destruct (chunks_in_block _ _ <=? _); intros [= <- _ _].
    + unfold P1 in *. unfold TOTAL_BLOCKS in *.
      assert (Hb : u16 (current_block (trk s) + 1) = current_block (trk s) + 1)
        by (apply u16_small; lia).
      rewrite Hb.
      destruct (Z.ltb_spec (current_block (trk s) + 1) 1800); simpl; lia.
    + exact HP.
  - intros [= <- _ _].
    revert HP. apply P1_same_counters; rewrite Ht; reflexivity.
Qed.

Lemma control_write_keeps_P1 s conn p_val now :
  P1 s ->
  ack_in_range s (ControlWrite conn p_val now) = true ->
  P1 (app_data_transfer_control_write_handler generate_block_data s conn p_val now).
Proof.
  intros HP. unfold ack_in_range, acked_block, app_data_transfer_control_write_handler.
  destruct (length p_val <? sizeof_control_msg_t)%nat; [intros _; exact HP|].
  destruct (Z.eqb_spec (b2z (buffer p_val 0%nat)) CTRL_CMD_START) as [E|].
  - intros _. unfold app_data_transfer_start.
    destruct (negb (notifications_enabled (szg s))); [exact HP|].
    unfold P1, TOTAL_BLOCKS; simpl. lia.
  - destruct (Z.eqb_spec (b2z (buffer p_val 0%nat)) CTRL_CMD_STOP) as [E|].
    + intros _. exact HP.
    + destruct (b2z (buffer p_val 0%nat) =? CTRL_CMD_ACK); [|intros _; exact HP].
      intros Hin. apply Z.ltb_lt in Hin.
      unfold handle_ack.
      destruct (Z.leb_spec (last_acked_block (trk s)) (u16 (le16 (buffer p_val) 1)));
        [|exact HP].
      unfold P1 in *; unfold TOTAL_BLOCKS in *; simpl.
      rewrite u16_small by lia. lia.
Qed.

Lemma step_keeps_P1 s o s' :
  P1 s -> ack_in_range s o = true -> step s o = Some s' -> P1 s'.
Proof.
  intros HP Hin.
  destruct o as [|mtu|conn now| | |conn|status now|conn p_val now|conn enabled|];
    simpl.
  - intros [= <-]. unfold P1, TOTAL_BLOCKS; simpl. lia.
  - unfold app_data_transfer_set_mtu.
    destruct (_ =? 0); [discriminate|]. intros [= <-]. exact HP.
  - intros [= <-]. unfold app_data_transfer_start.
    destruct (negb (notifications_enabled (szg s))); [exact HP|].
    unfold P1, TOTAL_BLOCKS; simpl. lia.
  - intros [= <-]. exact HP.
  - intros [= <-]. unfold app_data_transfer_pause.
    destruct (_ || _); exact HP.
  - intros [= <-]. unfold app_data_transfer_resume.
    destruct (negb (state_eqb _ _)); [exact HP|].
    destruct (negb (notifications_enabled (szg s))); [exact HP|].
    unfold P1 in *; unfold TOTAL_BLOCKS in *; simpl. lia.
  - destruct (app_data_transfer_process_next_chunk generate_block_data s status now)
      as [[[s1 r] sent]|] eqn:E; [|discriminate].
    intros [= <-]. eapply process_next_chunk_keeps_P1; eassumption.
  - intros [= <-]. apply control_write_keeps_P1; assumption.
  - intros [= <-]. unfold app_data_transfer_cccd_write_handler.
    destruct (negb enabled && _); [|exact HP].
    unfold app_data_transfer_pause. simpl.
    destruct (_ || _); exact HP.
  - intros [= <-]. unfold app_data_transfer_notification_sent.
    destruct (_ <? _); exact HP.
Qed.


End WithBlockSource.


(** ... and ACK (1800) written while the sender waits after block 19,
    followed by a disconnection and a reconnection, makes the sender
    resume at [cur_block = 1801], above T. *)
Lemma ack_beyond_total_blocks :
  match run small_source initial_state
          (twenty_blocks ++ [ControlWrite 1 (ack_msg 1800 0) 0; Pause; Resume 1]) with
  | Some s => current_block (trk s) = 1801 /\ ~ P1 s
  | None => False
  end.
Proof.
  vm_compute. split; [reflexivity|].
  intros [_ H]. apply H. reflexivity.
Qed.


End Invariant.

(** ** A raw block through the sender's chunking and the receiver *)

Module RawBlock.

Import Codec Receiver Examples Calls.

(** *** Slicing a list into chunks and gluing the chunks back *)

Lemma concat_slices {A} (c : nat) :
  (0 < c)%nat ->
  forall (n : nat) (l : list A),
    (length l <= n * c)%nat ->
    concat (map (fun k => take c (drop (k * c) l)) (seq 0 n)) = l.
Proof.
  intros Hc. induction n as [|n IH]; intros l Hl.
  - destruct l; [reflexivity|simpl in Hl; lia].
  - simpl seq. rewrite <- seq_shift, map_cons, map_map. simpl concat.
    etransitivity; [|apply (take_drop c l)]. f_equal.
    transitivity (concat (map (fun k => take c (drop (k * c) (drop c l))) (seq 0 n))).
    + f_equal. apply map_ext. intros k. rewrite drop_drop. do 2 f_equal; lia.
    + apply IH. rewrite length_drop. lia.
Qed.

Lemma map_buffer_seq (l : list byte) :
  map (buffer l) (seq 0 (length l)) = l.
Proof.
  induction l as [|b l IH]; [reflexivity|].
  simpl length. simpl seq. rewrite <- seq_shift, map_cons, map_map.
  f_equal. exact IH.
Qed.

(** The payload read back from a notification: the header is 12 bytes
    long and announces the length of the payload. *)
Lemma read_range_payload (hdr payload : list byte) :
  length hdr = 12%nat ->
  read_range (buffer (hdr ++ payload)) 12 (length payload) = payload.
Proof.
  intros Hh. unfold read_range.
  transitivity (map (buffer payload) (seq 0 (length payload)));
    [|apply map_buffer_seq].
  replace (seq 12 (length payload))
    with (map (Nat.add 12) (seq 0 (length payload)))
    by (apply (fmap_add_seq 12 0)).
  rewrite map_map.
  apply map_ext. intros i. rewrite <- Hh. apply Decode.buffer_app.
Qed.

(** *** The sender's chunking of a 7166-byte block *)

Lemma chunks_in_raw_block (cs : Z) :
  1 <= cs <= 244 ->
  let n := (7165 + cs) / cs in
  Sender.chunks_in_block 7166 cs = n
  /\ 30 <= n <= 7166
  /\ 7166 <= n * cs
  /\ (n - 1) * cs < 7166.
Proof.
  intros Hcs n.
  assert (Hn : 30 <= n <= 7166 /\ 7166 <= n * cs /\ (n - 1) * cs < 7166).
  { pose proof (Z.div_mod (7165 + cs) cs ltac:(lia)) as Hdm.
    pose proof (Z.mod_pos_bound (7165 + cs) cs ltac:(lia)) as Hm.
    fold n in Hdm. nia. }
  split; [|exact Hn].
  unfold Sender.chunks_in_block, u32, u16.
  rewrite (Z.mod_small (7166 + cs - 1)) by (change (2 ^ 32) with 4294967296; lia).
  replace (7166 + cs - 1) with (7165 + cs) by lia. fold n.
  apply Z.mod_small. change (2 ^ 16) with 65536. lia.
Qed.

Lemma this_chunk_size_raw (cs k : Z) :
  1 <= cs <= 244 -> 0 <= k < (7165 + cs) / cs ->
  u32 (k * cs) = k * cs
  /\ k * cs < 7166
  /\ Sender.this_chunk_size 7166 cs k = Z.min cs (7166 - k * cs).
Proof.
  intros Hcs Hk.
  destruct (chunks_in_raw_block cs Hcs) as (_ & Hn & _ & Hlast).
  assert (Hoff : 0 <= k * cs < 7166) by nia.
  assert (Hu : u32 (k * cs) = k * cs).
  { unfold u32. apply Z.mod_small. change (2 ^ 32) with 4294967296. lia. }
  split; [exact Hu|]. split; [lia|].
  unfold Sender.this_chunk_size. cbv zeta. rewrite Hu.
  unfold u32, u16.
  rewrite (Z.mod_small (k * cs + cs)) by (change (2 ^ 32) with 4294967296; lia).
  destruct (Z.ltb_spec 7166 (k * cs + cs)).
  - rewrite Z.mod_small by (change (2 ^ 16) with 65536; lia). lia.
  - lia.
Qed.

Section OneBlock.

Variable block : list byte.
Variables cs bn : Z.

Hypothesis block_size : Z.of_nat (length block) = 7166.
Hypothesis chunk_payload_size : 1 <= cs <= 244.
Hypothesis block_number_ok : 0 <= bn < TOTAL_BLOCKS.

Local Abbreviation n := ((7165 + cs) / cs).
Local Abbreviation packet :=
  (fun k : nat => Sender.chunk_packet block 7166 cs bn (Z.of_nat k)).
(** The payload of chunk [k]. *)
Local Abbreviation slice :=
  (fun k : nat => take (Z.to_nat cs) (drop (k * Z.to_nat cs) block)).

Lemma chunk_packets_raw :
  Sender.chunk_packets block cs bn = map packet (seq 0 (Z.to_nat n)).
Proof.
  unfold Sender.chunk_packets. cbv zeta.
  rewrite block_size. change (u32 7166) with 7166.
  destruct (chunks_in_raw_block cs chunk_payload_size) as (-> & _).
  reflexivity.
Qed.

Lemma packet_payload (k : nat) :
  (k < Z.to_nat n)%nat ->
  let this := Sender.this_chunk_size 7166 cs (Z.of_nat k) in
  take (Z.to_nat this) (drop (Z.to_nat (u32 (Z.of_nat k * cs))) block) = slice k
  /\ Z.of_nat (length (slice k)) = this
  /\ 0 <= this <= 244.
Proof.
  intros Hk this.
  destruct (this_chunk_size_raw cs (Z.of_nat k) chunk_payload_size ltac:(lia))
    as (Hu & Hoff & Hthis).
  fold this in Hthis. rewrite Hu.
  replace (Z.to_nat (Z.of_nat k * cs)) with (k * Z.to_nat cs)%nat by nia.
  assert (Hrem : length (drop (k * Z.to_nat cs) block)
                 = Z.to_nat (7166 - Z.of_nat k * cs)).
  { rewrite length_drop. nia. }
  split; [|split].
  - destruct (Z.le_ge_cases cs (7166 - Z.of_nat k * cs)).
    + rewrite Hthis, Z.min_l by lia. reflexivity.
    + rewrite Hthis, Z.min_r by lia.
      rewrite !take_ge by lia. reflexivity.
  - rewrite length_take, Hrem, Hthis. lia.
  - lia.
Qed.

(** What the receiver parses out of the notification of chunk [k]. *)
Lemma packet_fields (k : nat) :
  (k < Z.to_nat n)%nat ->
  let data := buffer (packet k) in
  let this := Sender.this_chunk_size 7166 cs (Z.of_nat k) in
  bn = u16 (le16 data 0)
  /\ Z.of_nat k = u16 (le16 data 2)
  /\ this = u16 (le16 data 4)
  /\ n = u16 (le16 data 6)
  /\ slice k = read_range data 12 (Z.to_nat this)
  /\ (12 <= length (packet k))%nat.
Proof.
  intros Hk data this.
  destruct (chunks_in_raw_block cs chunk_payload_size) as (Hn & Hnr & _).
  destruct (packet_payload k Hk) as (Hpay & Hlen & Hthis).
  fold this in Hpay, Hlen, Hthis.
  unfold TOTAL_BLOCKS in block_number_ok.
  assert (H0 : le16 data 0 = u16 bn) by (apply le16_put16; reflexivity).
  assert (H2 : le16 data 2 = u16 (Z.of_nat k)) by (apply le16_put16; reflexivity).
  assert (H4 : le16 data 4 = u16 this) by (apply le16_put16; reflexivity).
  assert (H6 : le16 data 6 = u16 (Sender.chunks_in_block 7166 cs))
    by (apply le16_put16; reflexivity).
  rewrite H0, H2, H4, H6, Hn.
  rewrite !(u16_small bn), !(u16_small (Z.of_nat k)),
    !(u16_small this), !(u16_small n) by lia.
  repeat (split; [reflexivity|]).
  split.
  - unfold data, Sender.chunk_packet. cbv zeta. fold this. rewrite Hpay.
    replace (Z.to_nat this) with (length (slice k)) by lia.
    symmetry.
    apply (read_range_payload
             (put16 bn ++ put16 (Z.of_nat k) ++ put16 this
              ++ put16 (Sender.chunks_in_block 7166 cs)
              ++ put16 (u16 7166) ++ [z2b 0; z2b 0])).
    reflexivity.
  - unfold Sender.chunk_packet. cbv zeta. simpl length. lia.
Qed.

(** *** The receiver, chunk after chunk *)

Lemma chunks_upto_above (f : nat -> list byte) (k : nat) (i : Z) :
  Z.of_nat k <= i -> chunks_upto f k !! i = None.
Proof.
  induction k as [|k IH]; intros Hi; simpl.
  - apply lookup_empty.
  - rewrite lookup_insert_ne by lia. apply IH. lia.
Qed.

Lemma chunks_upto_below (f : nat -> list byte) (k i : nat) :
  (i < k)%nat -> chunks_upto f k !! Z.of_nat i = Some (f i).
Proof.
  induction k as [|k IH]; intros Hi; [lia|]. simpl.
  destruct (decide (i = k)) as [->|Hne].
  - apply lookup_insert_eq.
  - rewrite lookup_insert_ne by lia. apply IH. lia.
Qed.

Lemma chunks_upto_size (f : nat -> list byte) (k : nat) :
  size (chunks_upto f k) = k.
Proof.
  induction k as [|k IH]; simpl; [apply map_size_empty|].
  rewrite map_size_insert_None by (apply chunks_upto_above; lia).
  rewrite IH. reflexivity.
Qed.

Lemma reassemble_chunks_upto (f : nat -> list byte) (k : nat) :
  reassemble (chunks_upto f k) (Z.of_nat k) = concat (map f (seq 0 k)).
Proof.
  unfold reassemble. rewrite Nat2Z.id. f_equal.
  apply map_ext_in. intros i Hi. apply in_seq in Hi.
  unfold chunk_of. rewrite chunks_upto_below by lia. reflexivity.
Qed.

Lemma slices_make_block : concat (map slice (seq 0 (Z.to_nat n))) = block.
Proof.
  destruct (chunks_in_raw_block cs chunk_payload_size) as (_ & Hn & Hall & _).
  apply concat_slices; [lia|]. nia.
Qed.

Variable uncompress : list byte -> nat -> Z * list byte.
Variable session : transfer_session.

Local Abbreviation process_chunk := (transfer_session_process_chunk uncompress).

(** The session after chunks [0 .. k-1] of the block, and nothing else,
    have arrived since [transfer_session_start]. *)
Local Abbreviation fed k s :=
  (received_blocks s = ∅
   /\ block_chunks s = match k%nat with
                       | O => ∅
                       | S _ => {[bn := chunks_upto slice k]}
                       end
   /\ waveform_callback s = waveform_callback session).

Lemma stored_after_chunk (k : nat) (s : transfer_session) this :
  fed k s ->
  let s1 := store_chunk s bn (Z.of_nat k) this n (slice k) in
  block_chunks s1 = {[bn := chunks_upto slice (S k)]}
  /\ chunks_of (block_chunks s1) bn = chunks_upto slice (S k)
  /\ received_blocks s1 = ∅
  /\ waveform_callback s1 = waveform_callback session.
Proof.
  intros (Hr & Hb & Hw) s1.
  pose proof (store_chunk_spec s bn (Z.of_nat k) this n (slice k))
    as (Hb1 & Hother & Hr1 & _ & _ & Hw1 & _).
  fold s1 in Hb1, Hother, Hr1, Hw1.
  assert (Hold : chunks_of (block_chunks s) bn = chunks_upto slice k).
  { unfold chunks_of. rewrite Hb. destruct k; [rewrite lookup_empty; reflexivity|].
    rewrite lookup_singleton_eq. reflexivity. }
  rewrite Hold in Hb1.
  split; [|split; [|split]].
  - apply map_eq. intros b. destruct (decide (b = bn)) as [->|Hne].
    + rewrite Hb1, lookup_singleton_eq. reflexivity.
    + rewrite Hother by assumption. rewrite lookup_singleton_ne by congruence.
      rewrite Hb. destruct k; [apply lookup_empty|].
      apply lookup_singleton_ne. congruence.
  - unfold chunks_of. rewrite Hb1. reflexivity.
  - congruence.
  - congruence.
Qed.

Lemma feed_chunk (k : nat) (s : transfer_session) :
  (k < Z.to_nat n)%nat -> fed k s ->
  let r := process_chunk s (buffer (packet k)) (length (packet k)) in
  (S k < Z.to_nat n -> exists s1, r = (true, s1, []) /\ fed (S k) s1)%nat
  /\ (S k = Z.to_nat n ->
      exists s2 events,
        r = (true, s2, events)
        /\ received_blocks s2 = {[bn := block]}
        /\ filter (fun e => is_waveform e = true) events
           = waveform_events uncompress session block).
Proof.
  intros Hk Hfed r.
  destruct (packet_fields k Hk) as (Ebn & Ecn & Ecs & Etc & Ed & Hlen).
  destruct (stored_after_chunk k s
              (Sender.this_chunk_size 7166 cs (Z.of_nat k)) Hfed)
    as (Hb1 & Hc1 & Hr1 & Hw1).
  pose proof (chunks_upto_size slice (S k)) as Hsize.
  destruct (process_chunk_outcome_at uncompress s (buffer (packet k))
              (length (packet k)) bn (Z.of_nat k)
              (Sender.this_chunk_size 7166 cs (Z.of_nat k)) n (slice k)
              Ebn Ecn Ecs Etc Ed)
    as [[[?|?] _]|[(_ & _ & Hne & E)|(_ & _ & Heq & s2 & events & Hc & E)]];
    [lia|lia|..]; fold r in E; rewrite E; clear E.
  - rewrite Hc1, Hsize in Hne.
    split; [|intros Hlast; lia].
    intros _. eexists. split; [reflexivity|].
    split; [exact Hr1|]. split; [exact Hb1|exact Hw1].
  - rewrite Hc1, Hsize in Heq.
    split; [intros Hmore; lia|].
    intros Hlast. exists s2, events. split; [reflexivity|].
    apply complete_block_spec in Hc.
    destruct Hc as (Hr2 & _ & _ & _ & _ & _ & _ & Hev & _).
    unfold waveform_events in Hev.
    rewrite Hc1, Hr1 in Hr2. rewrite Hc1, Hw1 in Hev.
    rewrite <- Heq in Hr2, Hev.
    rewrite reassemble_chunks_upto in Hr2, Hev.
    rewrite Hlast, slices_make_block in Hr2, Hev.
    split.
    + rewrite Hr2. apply insert_empty.
    + exact Hev.
Qed.

Lemma feed_chunks (m : nat) :
  forall (k : nat) (s : transfer_session),
    (k + S m = Z.to_nat n)%nat -> fed k s ->
    let '(s', events) :=
      feed_all uncompress s (map frame (map packet (seq k (S m)))) in
    received_blocks s' = {[bn := block]}
    /\ filter (fun e => is_waveform e = true) events
       = waveform_events uncompress session block.
Proof.
  induction m as [|m IH]; intros k s Hk Hfed.
  - destruct (feed_chunk k s ltac:(lia) Hfed) as [_ Hlast].
    destruct (Hlast ltac:(lia)) as (s2 & events & E & Hr & Hev).
    cbn [seq map frame feed_all]. rewrite E. cbn [map feed_all].
    rewrite app_nil_r. split; assumption.
  - destruct (feed_chunk k s ltac:(lia) Hfed) as [Hmore _].
    destruct (Hmore ltac:(lia)) as (s1 & E & Hfed1).
    specialize (IH (S k) s1 ltac:(lia) Hfed1).
    change (seq k (S (S m))) with (k :: seq (S k) (S m)).
    rewrite !map_cons. cbn [frame feed_all]. rewrite E.
    destruct (feed_all uncompress s1 (map frame (map packet (seq (S k) (S m)))))
      as [s' events].
    exact IH.
Qed.

End OneBlock.

(** C1 fails on the code.  A raw block is 38 + 7128 = 7166 bytes long,
    which is below [BLOCK_SIZE = 7168]: once its chunks (any payload size
    from 1 to 244) have been fed in order to a started session, the
    block is in the received set, it has been classified as compressed
    and handed to [process_compressed_block], and the waveform callback
    has been invoked with [is_compressed = true] if zlib and the CRC
    accept the raw sample bytes, and not at all otherwise; it is never
    invoked with [is_compressed = false]. *)
Theorem raw_block_is_decoded_as_compressed
  (uncompress : list byte -> nat -> Z * list byte)
  (session : transfer_session) (now : Z) (block : list byte) (cs bn : Z) :
  Z.of_nat (length block) = 7166 ->
  1 <= cs <= 244 ->
  0 <= bn < TOTAL_BLOCKS ->
  let '(s', events) :=
    feed_all uncompress (transfer_session_start session now)
      (map frame (Sender.chunk_packets block cs bn)) in
  received_blocks s' = {[bn := block]}
  /\ looks_compressed block = true
  /\ filter (fun e => is_waveform e = true) events
     = match process_compressed_block uncompress block with
       | Some w => if waveform_callback session then [OnWaveform w true] else []
       | None => []
       end
  /\ forall w, ~ In (OnWaveform w false) events.
Proof.
  intros Hlen Hcs Hbn.
  destruct (chunks_in_raw_block cs Hcs) as (_ & Hn & _).
  rewrite (chunk_packets_raw block cs bn Hlen Hcs).
  pose proof (feed_chunks block cs bn Hlen Hcs Hbn uncompress session
                (Z.to_nat ((7165 + cs) / cs) - 1) 0
                (transfer_session_start session now)) as H.
  replace (S (Z.to_nat ((7165 + cs) / cs) - 1))
    with (Z.to_nat ((7165 + cs) / cs)) in H by lia.
  specialize (H ltac:(lia) ltac:(repeat split)).
  destruct (feed_all uncompress _ _) as [s' events].
  destruct H as [Hr Hev].
  assert (Hcomp : looks_compressed block = true).
  { unfold looks_compressed. rewrite Hlen. reflexivity. }
  unfold waveform_events, decode_block in Hev. rewrite Hcomp in Hev.
  split; [exact Hr|]. split; [exact Hcomp|]. split; [exact Hev|].
  intros w Hin. apply list_elem_of_In in Hin.
  assert (Hf : OnWaveform w false ∈ filter (fun e => is_waveform e = true) events).
  { apply list_elem_of_filter. split; [reflexivity|exact Hin]. }
  rewrite Hev in Hf.
  destruct (process_compressed_block uncompress block) as [w'|];
    [destruct (waveform_callback session)|];
    repeat match goal with
           | H : _ ∈ _ :: _ |- _ => apply elem_of_cons in H; destruct H as [H|H]
           | H : _ ∈ [] |- _ => apply elem_of_nil in H; contradiction
           | H : OnWaveform _ _ = OnWaveform _ _ |- _ => discriminate H
           end.
Qed.

(** The theorem at the block of 7166 zero bytes, sent as block 0 in
    chunks of 244 payload bytes. *)
Lemma raw_block_is_decoded_as_compressed_witness :
  let '(s', events) :=
    feed_all zlib_rejects
      (transfer_session_start (set_callbacks transfer_session_create) 0)
      (map frame (Sender.chunk_packets (replicate (Z.to_nat 7166) x00) 244 0)) in
  received_blocks s' = {[0 := replicate (Z.to_nat 7166) x00]}
  /\ looks_compressed (replicate (Z.to_nat 7166) x00) = true
  /\ filter (fun e => is_waveform e = true) events
     = match process_compressed_block zlib_rejects (replicate (Z.to_nat 7166) x00) with
       | Some w =>
           if waveform_callback (set_callbacks transfer_session_create)
           then [OnWaveform w true] else []
       | None => []
       end
  /\ forall w, ~ In (OnWaveform w false) events.
Proof.
  apply (raw_block_is_decoded_as_compressed zlib_rejects
           (set_callbacks transfer_session_create) 0
           (replicate (Z.to_nat 7166) x00) 244 0).
  - rewrite length_replicate. lia.
  - lia.
  - unfold TOTAL_BLOCKS. lia.
Defined.

(** With a zlib that rejects the raw sample bytes, the 30 chunks of that
    block produce no waveform callback at all: the block is dropped,
    marked as received and reported by the progress callback. *)
Example raw_zero_block_gives_no_waveform :
  let events :=
    snd (feed_all zlib_rejects started
           (map frame (Sender.chunk_packets (replicate (Z.to_nat 7166) x00) 244 0))) in
  length (Sender.chunk_packets (replicate (Z.to_nat 7166) x00) 244 0) = 30%nat
  /\ waveform_count events = 0%nat
  /\ events = [OnProgress {| Stats.blocks_received := 1;
                             Stats.total_blocks := 1800;
                             Stats.total_bytes_received := 7166;
                             Stats.total_chunks_received := 30;
                             Stats.elapsed_since := Some 0 |}].
Proof. vm_compute. repeat split. Qed.

End RawBlock.

(** ** The raw path of the block decode, had the block been sent to it *)

Module RawPath.

Import Codec Receiver Examples.

Lemma low_byte (z : Z) : b2z (z2b (Z.land z 0xFF)) = z mod 256.
Proof.
  rewrite b2z_z2b. change 0xFF with (Z.ones 8).
  rewrite Z.land_ones by lia. change (2 ^ 8) with 256.
  apply Z.mod_mod. lia.
Qed.

Lemma three_bytes (s : Z) :
  s mod 256 + 256 * (Z.shiftr s 8 mod 256) + 65536 * (Z.shiftr s 16 mod 256)
  = s mod 2 ^ 24.
Proof.
  rewrite !Z.shiftr_div_pow2 by lia.
  change (2 ^ 24) with (256 * (256 * 256)).
  rewrite (Z.rem_mul_r s 256 (256 * 256)) by lia.
  rewrite (Z.rem_mul_r (s / 256) 256 256) by lia.
  rewrite Z.div_div by lia.
  change (2 ^ 8) with 256. change (2 ^ 16) with (256 * 256). lia.
Qed.

Lemma sign_bit (v : Z) :
  0 <= v < 2 ^ 24 ->
  Z.land v 0x800000 = if v <? 2 ^ 23 then 0 else 2 ^ 23.
Proof.
  intros Hv. change 0x800000 with (1 * 2 ^ 23).
  destruct (Z.ltb_spec v (2 ^ 23)).
  - apply land_shifted; lia.
  - replace v with (Z.lor (v - 2 ^ 23) (Z.shiftl 1 23)) at 1
      by (rewrite lor_shiftl_add; lia).
    rewrite Z.land_lor_distr_l.
    change (Z.shiftl 1 23) with (1 * 2 ^ 23).
    rewrite land_shifted by lia. rewrite Z.land_diag. reflexivity.
Qed.

(** L1 of the specification for one sample: unpacking the three bytes
    [pack_24bit_sample] stores gives the sample back. *)
Lemma unpack_pack_sample (s : Z) (rest : list byte) :
  - 2 ^ 23 <= s < 2 ^ 23 ->
  unpack_24bit_sample (buffer (pack_24bit_sample s ++ rest)) 0 = s.
Proof.
  intros Hs. unfold unpack_24bit_sample. cbv zeta.
  change (buffer (pack_24bit_sample s ++ rest) (0 * 3)%nat)
    with (z2b (Z.land s 0xFF)).
  change (buffer (pack_24bit_sample s ++ rest) (0 * 3 + 1)%nat)
    with (z2b (Z.land (Z.shiftr s 8) 0xFF)).
  change (buffer (pack_24bit_sample s ++ rest) (0 * 3 + 2)%nat)
    with (z2b (Z.land (Z.shiftr s 16) 0xFF)).
  rewrite !low_byte.
  pose proof (Z.mod_pos_bound s 256 ltac:(lia)).
  pose proof (Z.mod_pos_bound (Z.shiftr s 8) 256 ltac:(lia)).
  pose proof (Z.mod_pos_bound (Z.shiftr s 16) 256 ltac:(lia)).
  rewrite (lor_shiftl_add 8) by lia.
  rewrite (lor_shiftl_add 16) by (change (2 ^ 16) with 65536; lia).
  change (2 ^ 8) with 256. change (2 ^ 16) with 65536.
  rewrite three_bytes.
  pose proof (Z.mod_pos_bound s (2 ^ 24) ltac:(lia)) as Hv.
  rewrite sign_bit by exact Hv.
  destruct (Z.ltb_spec (s mod 2 ^ 24) (2 ^ 23)) as [Hlt|Hge]; cbn [Z.eqb negb].
  - destruct (Z.neg_nonneg_cases s) as [Hneg|Hpos].
    + replace (s mod 2 ^ 24) with (s + 2 ^ 24) in Hlt; [lia|].
      apply Z.mod_unique with (-1); lia.
    + apply Z.mod_small. lia.
  - change (2 ^ 23 =? 0) with false. cbn [negb].
    destruct (Z.neg_nonneg_cases s) as [Hneg|Hpos].
    + replace (s mod 2 ^ 24) with (s + 2 ^ 24)
        by (apply Z.mod_unique with (-1); lia).
      change 0xFF000000 with (Z.shiftl 255 24).
      rewrite (lor_shiftl_add 24) by lia.
      unfold i32.
      replace (s + 2 ^ 24 + 2 ^ 24 * 255 + 2 ^ 31) with (s + 2 ^ 31 + 1 * 2 ^ 32) by lia.
      rewrite Z.mod_add by lia. rewrite Z.mod_small by lia. lia.
    + rewrite Z.mod_small in Hge by lia. lia.
Qed.

Lemma unpack_next_sample (s : Z) (rest : list byte) (i : nat) :
  unpack_24bit_sample (buffer (pack_24bit_sample s ++ rest)) (S i)
  = unpack_24bit_sample (buffer rest) i.
Proof. reflexivity. Qed.

Lemma unpack_pack_samples (smp : list Z) :
  Forall (fun s => - 2 ^ 23 <= s < 2 ^ 23) smp ->
  unpack_24bit_samples (buffer (pack_24bit_samples smp)) (length smp) = smp.
Proof.
  unfold unpack_24bit_samples, pack_24bit_samples.
  induction 1 as [|s smp Hs _ IH]; [reflexivity|].
  simpl length. simpl seq. rewrite <- seq_shift, map_cons, map_map.
  simpl concat. f_equal.
  - apply unpack_pack_sample. exact Hs.
  - rewrite <- IH at 2. apply map_ext. intros i. apply unpack_next_sample.
Qed.

Lemma pack_24bit_samples_length (smp : list Z) :
  length (pack_24bit_samples smp) = (3 * length smp)%nat.
Proof.
  unfold pack_24bit_samples.
  induction smp as [|s smp IH]; [reflexivity|].
  simpl. rewrite IH. lia.
Qed.

Lemma buffer_app_l (pre l : list byte) (i : nat) :
  (i < length pre)%nat -> buffer (pre ++ l) i = buffer pre i.
Proof.
  intros Hi. unfold buffer, buffer_then.
  rewrite lookup_app_l by exact Hi. reflexivity.
Qed.

Lemma parse_waveform_header_prefix (hdr l : list byte) :
  length hdr = 38%nat ->
  parse_waveform_header (buffer (hdr ++ l)) = parse_waveform_header (buffer hdr).
Proof.
  intros Hh. unfold parse_waveform_header, le32, le16.
  rewrite !(buffer_app_l hdr l) by (rewrite Hh; simpl; lia).
  reflexivity.
Qed.

(** The raw decoder accepts a block of exactly 38 + 7128 bytes and
    returns the source header and the source samples: it is the size
    test in front of it that keeps such a block away from it. *)
Lemma raw_path_round_trip (hdr : list byte) (smp : list Z) :
  length hdr = 38%nat ->
  length smp = 2376%nat ->
  Forall (fun s => - 2 ^ 23 <= s < 2 ^ 23) smp ->
  Z.of_nat (length (hdr ++ pack_24bit_samples smp)) = 7166
  /\ process_uncompressed_block (hdr ++ pack_24bit_samples smp)
     = Some {| header := parse_waveform_header (buffer hdr); samples := smp |}.
Proof.
  intros Hh Hn Hr.
  assert (Hlen : Z.of_nat (length (hdr ++ pack_24bit_samples smp)) = 7166).
  { rewrite length_app, pack_24bit_samples_length, Hh, Hn. reflexivity. }
  split; [exact Hlen|].
  unfold process_uncompressed_block. rewrite Hlen.
  change (7166 <? Z.of_nat WAVEFORM_HEADER_SIZE + 7128) with false. cbv iota zeta.
  rewrite parse_waveform_header_prefix by exact Hh.
  do 2 f_equal.
  rewrite <- (unpack_pack_samples smp Hr) at 2. rewrite Hn.
  unfold unpack_24bit_samples, SAMPLES_PER_WAVEFORM.
  apply map_ext. intros i.
  unfold unpack_24bit_sample, advance, WAVEFORM_HEADER_SIZE.
  rewrite <- Hh, !Decode.buffer_app. reflexivity.
Qed.

End RawPath.

(** * Further properties of the code *)

(** ** Sender: credits, pacing delay and what a call emits *)

Module Pacing.

Import Sender Task Examples.

Lemma u32_succ (x v : Z) : u32 x = v -> u32 (x + 1) = u32 (v + 1).
Proof.
  unfold u32. intros <-. rewrite Zplus_mod_idemp_l. reflexivity.
Qed.

Lemma u32_pred (x v : Z) : u32 x = v -> u32 (x - 1) = u32 (v - 1).
Proof.
  unfold u32. intros <-. rewrite Zminus_mod_idemp_l. reflexivity.
Qed.

Lemma i16_small (z : Z) : -32768 <= z < 32768 -> i16 z = z.
Proof.
  intros H. unfold i16. change (2 ^ 15) with 32768. change (2 ^ 16) with 65536.
  rewrite Z.mod_small; lia.
Qed.

(** What [send_chunk] returns: [true] with the one notification of the
    chunk when there is a credit and the link accepts it, [false] with
    nothing sent otherwise; the block tracking, the chunk sizing and the
    chunk and byte statistics are never touched. *)
Lemma send_chunk_cases s bn cn status now s1 r sent :
  send_chunk s bn cn status now = Some (s1, r, sent) ->
  trk s1 = trk s /\ szg s1 = szg s
  /\ total_chunks (stats s1) = total_chunks (stats s)
  /\ total_bytes (stats s1) = total_bytes (stats s)
  /\ blocks_sent (stats s1) = blocks_sent (stats s)
  /\ (if r
      then sent = [chunk_packet (block_data (trk s)) (current_block_size (trk s))
                     (actual_chunk_size (szg s)) bn cn]
           /\ status = GATT_SUCCESS /\ 0 < notification_credits (pac s)
      else sent = []).
Proof.
  unfold send_chunk.
  destruct (Z.leb_spec (notification_credits (pac s)) 0);
    [intros [= <- <- <-]; repeat split|].
  destruct (actual_chunk_size (szg s) =? 0); [discriminate|].
  destruct status; intros [= <- <- <-]; repeat split; assumption.
Qed.

Lemma send_chunk_keeps_credits s bn cn status now s1 r sent :
  send_chunk s bn cn status now = Some (s1, r, sent) ->
  credits_ok s -> credits_ok s1.
Proof.
  unfold send_chunk, credits_ok, MAX_NOTIFICATIONS_IN_FLIGHT.
  destruct (Z.leb_spec (notification_credits (pac s)) 0);
    [intros [= <- _ _]; simpl; tauto|].
  destruct (actual_chunk_size (szg s) =? 0); [discriminate|].
  destruct status; intros [= <- _ _]; simpl; try tauto.
  intros [Hc Hq]. rewrite i16_small by lia. split; [lia|].
  replace (u32 (notifications_queued (pac s) + 1) - notifications_transmitted (pac s))
    with (u32 (notifications_queued (pac s) + 1)
          + - notifications_transmitted (pac s)) by lia.
  unfold u32 at 1 2. rewrite Zplus_mod_idemp_l.
  replace (notifications_queued (pac s) + 1 + - notifications_transmitted (pac s))
    with (notifications_queued (pac s) - notifications_transmitted (pac s) + 1) by lia.
  fold (u32 (notifications_queued (pac s) - notifications_transmitted (pac s) + 1)).
  rewrite (u32_succ _ _ Hq). unfold u32. rewrite Z.mod_small; lia.
Qed.

Lemma send_chunk_keeps_delay s bn cn status now s1 r sent :
  send_chunk s bn cn status now = Some (s1, r, sent) ->
  delay_ok s -> delay_ok s1.
Proof.
  unfold send_chunk, delay_ok, MIN_DELAY_MS, MAX_DELAY_MS, SPEEDUP_DECREMENT,
    BACKOFF_INCREMENT.
  destruct (notification_credits (pac s) <=? 0);
    [intros [= <- _ _]; simpl; tauto|].
  destruct (actual_chunk_size (szg s) =? 0); [discriminate|].
  destruct status; intros [= <- _ _]; cbn [pac current_delay_ms andb]; intros Hd.
  - destruct (andb _ _) eqn:E; [|exact Hd].
    apply andb_prop in E. destruct E as [_ E]. apply Z.ltb_lt in E.
    rewrite u16_small by lia.
    destruct (Z.ltb_spec (current_delay_ms (pac s) - 1) 15); lia.
  - destruct (_ <=? _); [|exact Hd].
    rewrite u16_small by lia.
    destruct (Z.ltb_spec 50 (current_delay_ms (pac s) + 5)); lia.
  - exact Hd.
Qed.

Section WithBlockSource.

Variable generate_block_data : Z -> list byte.

Local Abbreviation process_next_chunk :=
  (app_data_transfer_process_next_chunk generate_block_data).
Local Abbreviation step := (Sender.step generate_block_data).
Local Abbreviation run := (Sender.run generate_block_data).

(** The pacing state after [process_next_chunk] is the one [send_chunk]
    left, or the one of before when [send_chunk] was not called. *)
Lemma process_next_chunk_pacing (P : sender -> Prop) s status now s' r sent :
  (forall a b, pac a = pac b -> P a -> P b) ->
  (forall bn cn s1 r1 sent1,
      send_chunk s bn cn status now = Some (s1, r1, sent1) -> P s -> P s1) ->
  process_next_chunk s status now = Some (s', r, sent) ->
  P s -> P s'.
Proof.
  intros Hpac Hsend. unfold app_data_transfer_process_next_chunk.
  destruct (negb _); [intros [= <- _ _]; tauto|].
  destruct (waiting_for_ack (trk s)); [intros [= <- _ _]; tauto|].
  destruct (TOTAL_BLOCKS <=? _);
    [intros [= <- _ _]; apply Hpac; reflexivity|].
  destruct (send_chunk s _ _ status now) as [[[s1 ok] sent1]|] eqn:E; [|discriminate].
  specialize (Hsend _ _ _ _ _ E).
  destruct ok.
  - destruct (_ <=? _); intros [= <- _ _] HP;
      apply (Hpac s1); [reflexivity|auto|reflexivity|auto].
  - intros [= <- _ _]. exact Hsend.
Qed.

Lemma step_keeps_pacing (P : sender -> Prop) s o s' :
  (forall a b, pac a = pac b -> P a -> P b) ->
  (forall a, P (app_data_transfer_init a)) ->
  (forall a, P a -> P (app_data_transfer_notification_sent a)) ->
  (forall a bn cn status now s1 r1 sent1,
      send_chunk a bn cn status now = Some (s1, r1, sent1) -> P a -> P s1) ->
  step s o = Some s' -> P s -> P s'.
Proof.
  intros Hpac Hinit Hsent Hsend.
  destruct o as [|mtu|conn now| | |conn|status now|conn p_val now|conn enabled|];
    simpl.
  - intros [= <-] _. apply Hinit.
  - unfold app_data_transfer_set_mtu. destruct (_ =? 0); [discriminate|].
    intros [= <-]. apply Hpac. reflexivity.
  - intros [= <-]. unfold app_data_transfer_start.
    destruct (negb _); [tauto|]. apply Hpac. reflexivity.
  - intros [= <-]. apply Hpac. reflexivity.
  - intros [= <-]. unfold app_data_transfer_pause.
    destruct (_ || _); [|tauto]. apply Hpac. reflexivity.
  - intros [= <-]. unfold app_data_transfer_resume.
    destruct (negb (state_eqb _ _)); [tauto|].
    destruct (negb _); [tauto|]. apply Hpac. reflexivity.
  - destruct (app_data_transfer_process_next_chunk generate_block_data s status now)
      as [[[s1 r] sent]|] eqn:E; [|discriminate].
    intros [= <-]. eapply process_next_chunk_pacing; eauto.
  - intros [= <-]. unfold app_data_transfer_control_write_handler.
    destruct (_ <? _)%nat; [tauto|].
    destruct (_ =? CTRL_CMD_START).
    + unfold app_data_transfer_start. destruct (negb _); [tauto|].
      apply Hpac. reflexivity.
    + destruct (_ =? CTRL_CMD_STOP); [apply Hpac; reflexivity|].
      destruct (_ =? CTRL_CMD_ACK); [|tauto].
      unfold handle_ack. destruct (_ <=? _); [|tauto]. apply Hpac. reflexivity.
  - intros [= <-]. unfold app_data_transfer_cccd_write_handler.
    destruct (negb enabled && _); [|apply Hpac; reflexivity].
    unfold app_data_transfer_pause. simpl.
    destruct (_ || _); apply Hpac; reflexivity.
  - intros [= <-]. apply Hsent.
Qed.

Lemma run_keeps_pacing (P : sender -> Prop) :
  (forall a b, pac a = pac b -> P a -> P b) ->
  (forall a, P (app_data_transfer_init a)) ->
  (forall a, P a -> P (app_data_transfer_notification_sent a)) ->
  (forall a bn cn status now s1 r1 sent1,
      send_chunk a bn cn status now = Some (s1, r1, sent1) -> P a -> P s1) ->
  forall ops s s', run s ops = Some s' -> P s -> P s'.
Proof.
  intros Hpac Hinit Hsent Hsend.
  induction ops as [|o ops IH]; intros s s'; simpl.
  - intros [= <-]. tauto.
  - destruct (step s o) as [s1|] eqn:E; [|discriminate].
    intros Hrun HP. apply (IH s1 s' Hrun).
    eapply step_keeps_pacing; eauto.
Qed.



End WithBlockSource.



End Pacing.

(** ** Sender: what one call of the task's step emits and changes *)

Module Emission.

Import Sender Task Examples.

Lemma state_eqb_eq (a b : transfer_state_t) : state_eqb a b = true -> a = b.
Proof. destruct a, b; simpl; congruence. Qed.

Section WithBlockSource.

Variable generate_block_data : Z -> list byte.

Local Abbreviation process_next_chunk :=
  (app_data_transfer_process_next_chunk generate_block_data).

(** X3.  A call that emits no notification (the session is not Active, it
    waits for an ACK, the transfer is over, there is no credit, or the
    link refuses the notification) leaves the position in the transfer,
    the block buffer and the chunk, byte and block counters as they
    were. *)
Theorem nothing_sent_nothing_advanced s status now s' r :
  app_data_transfer_process_next_chunk generate_block_data s status now
  = Some (s', r, []) ->
  current_block (trk s') = current_block (trk s)
  /\ current_chunk (trk s') = current_chunk (trk s)
  /\ last_acked_block (trk s') = last_acked_block (trk s)
  /\ block_data (trk s') = block_data (trk s)
  /\ current_block_size (trk s') = current_block_size (trk s)
  /\ total_chunks (stats s') = total_chunks (stats s)
  /\ total_bytes (stats s') = total_bytes (stats s)
  /\ blocks_sent (stats s') = blocks_sent (stats s).
Proof.
  unfold app_data_transfer_process_next_chunk.
  destruct (negb _); [intros [= <- _]; repeat split|].
  destruct (waiting_for_ack (trk s)); [intros [= <- _]; repeat split|].
  destruct (TOTAL_BLOCKS <=? _); [intros [= <- _]; repeat split|].
  destruct (send_chunk s _ _ status now) as [[[s1 ok] sent1]|] eqn:E; [|discriminate].
  pose proof (Pacing.send_chunk_cases _ _ _ _ _ _ _ _ E) as (Ht & _ & Hc & Hb & Hbs & Hr).
  destruct ok.
  - destruct Hr as (-> & _). destruct (_ <=? _); discriminate.
  - intros [= <- _ _]. rewrite Ht. repeat split; assumption.
Qed.


(** X5.  A call that emits a notification moves to the next chunk of the
    block, or, after the last chunk of the block, to chunk 0 of the next
    block, whose data it then loads unless that block is number 1800; it
    counts one chunk, the nominal chunk size in bytes (also for a shorter
    last chunk), and the block when it was its last chunk. *)
Theorem emission_advances_to_the_next_chunk s status now s' r p :
  process_next_chunk s status now = Some (s', r, [p]) ->
  let last :=
    chunks_in_block (current_block_size (trk s)) (actual_chunk_size (szg s))
    <=? u16 (current_chunk (trk s) + 1) in
  let next := u16 (current_block (trk s) + 1) in
  current_block (trk s') = (if last then next else current_block (trk s))
  /\ current_chunk (trk s') = (if last then 0 else u16 (current_chunk (trk s) + 1))
  /\ block_data (trk s')
     = (if last && (next <? TOTAL_BLOCKS) then generate_block_data next
        else block_data (trk s))
  /\ last_acked_block (trk s') = last_acked_block (trk s)
  /\ total_chunks (stats s') = u32 (total_chunks (stats s) + 1)
  /\ total_bytes (stats s') = u32 (total_bytes (stats s) + actual_chunk_size (szg s))
  /\ blocks_sent (stats s')
     = (if last then u16 (blocks_sent (stats s) + 1) else blocks_sent (stats s)).
Proof.
  unfold app_data_transfer_process_next_chunk.
  destruct (negb _); [discriminate|].
  destruct (waiting_for_ack (trk s)); [discriminate|].
  destruct (TOTAL_BLOCKS <=? _); [discriminate|].
  destruct (send_chunk s _ _ status now) as [[[s1 ok] sent1]|] eqn:E; [|discriminate].
  pose proof (Pacing.send_chunk_cases _ _ _ _ _ _ _ _ E) as (_ & _ & Hc & Hb & Hbs & Hr).
  destruct ok; [|subst sent1; discriminate].
  cbv zeta. destruct (_ <=? _).
  - intros [= <- _ _]. cbn [trk stats andb]. unfold count_chunk.
    cbn [total_chunks total_bytes blocks_sent]. rewrite Hc, Hb, Hbs.
    destruct (_ <? TOTAL_BLOCKS); repeat split.
  - intros [= <- _ _]. cbn [trk stats andb]. unfold count_chunk.
    cbn [total_chunks total_bytes blocks_sent current_block current_chunk
         block_data last_acked_block]. rewrite Hc, Hb.
    repeat split; assumption.
Qed.

(** X6.  The end of the transfer.  The successful emission of the last chunk
    of block 1799 moves the sender to block 1800 without an ACK wait and
    without loading a block; the next call, whatever the link would
    answer, emits nothing, records the end time, returns [false] and
    leaves the session Complete; from then on every call returns [false]
    and changes nothing. *)
Theorem transfer_completes_after_block_1799 (s : sender) (now : Z) :
  current_state (trk s) = TRANSFER_STATE_ACTIVE ->
  waiting_for_ack (trk s) = false ->
  current_block (trk s) = 1799 ->
  0 < notification_credits (pac s) ->
  actual_chunk_size (szg s) <> 0 ->
  chunks_in_block (current_block_size (trk s)) (actual_chunk_size (szg s))
    <= u16 (current_chunk (trk s) + 1) ->
  exists s1 packet,
    process_next_chunk s GATT_SUCCESS now = Some (s1, true, [packet])
    /\ current_state (trk s1) = TRANSFER_STATE_ACTIVE
    /\ waiting_for_ack (trk s1) = false
    /\ current_block (trk s1) = 1800
    /\ block_data (trk s1) = block_data (trk s)
    /\ forall status now2,
         exists s2,
           process_next_chunk s1 status now2 = Some (s2, false, [])
           /\ current_state (trk s2) = TRANSFER_STATE_COMPLETE
           /\ end_time_ms (stats s2) = now2
           /\ total_chunks (stats s2) = u32 (total_chunks (stats s) + 1)
           /\ forall status' now3,
                process_next_chunk s2 status' now3 = Some (s2, false, []).
Proof.
  intros Hst Hw Hblk Hcr Hsz Hlast.
  destruct (Barrier.send_chunk_success s (current_block (trk s))
              (current_chunk (trk s)) now Hcr Hsz) as [s1 Hsend].
  pose proof (Pacing.send_chunk_cases _ _ _ _ _ _ _ _ Hsend)
    as (_ & _ & Hc & _ & _ & _).
  unfold app_data_transfer_process_next_chunk at 1.
  rewrite Hst, Hw. cbn [state_eqb negb].
  rewrite Hblk in *. change (TOTAL_BLOCKS <=? 1799) with false. cbv iota.
  rewrite Hsend. cbv zeta.
  destruct (Z.leb_spec
              (chunks_in_block (current_block_size (trk s)) (actual_chunk_size (szg s)))
              (u16 (current_chunk (trk s) + 1))); [|lia].
  change (u16 (1799 + 1)) with 1800.
  change (1800 <? TOTAL_BLOCKS) with false.
  change (1800 mod ACK_INTERVAL =? 0) with true. cbn [andb].
  eexists. eexists. split; [reflexivity|]. cbn [trk current_state waiting_for_ack
    current_block block_data].
  do 4 (split; [reflexivity|]).
  intros status now2. unfold app_data_transfer_process_next_chunk at 1.
  cbn [trk current_state waiting_for_ack current_block state_eqb negb].
  change (TOTAL_BLOCKS <=? 1800) with true. cbv iota.
  eexists. split; [reflexivity|]. cbn [trk stats set_state current_state
    set_end_time end_time_ms total_chunks count_chunk].
  rewrite Hc. do 3 (split; [reflexivity|]).
  intros status' now3. reflexivity.
Qed.

End WithBlockSource.

Lemma nothing_sent_nothing_advanced_witness :
  current_block (trk Scenarios.out_of_credits) = 19
  /\ current_chunk (trk Scenarios.out_of_credits) = 0
  /\ last_acked_block (trk Scenarios.out_of_credits) = 0
  /\ block_data (trk Scenarios.out_of_credits) = small_source 19
  /\ current_block_size (trk Scenarios.out_of_credits) = 3
  /\ total_chunks (stats Scenarios.out_of_credits) = 19
  /\ total_bytes (stats Scenarios.out_of_credits) = 228
  /\ blocks_sent (stats Scenarios.out_of_credits) = 19.
Proof.
  apply (nothing_sent_nothing_advanced small_source Scenarios.out_of_credits
           GATT_SUCCESS 1 Scenarios.out_of_credits true).
  vm_compute. reflexivity.
Defined.


Lemma emission_advances_to_the_next_chunk_witness :
  let s' := default at_block_19
              (Sender.step small_source at_block_19 (ProcessNextChunk GATT_SUCCESS 1)) in
  current_block (trk s') = 20
  /\ current_chunk (trk s') = 0
  /\ block_data (trk s') = small_source 20
  /\ last_acked_block (trk s') = 0
  /\ total_chunks (stats s') = 20
  /\ total_bytes (stats s') = 240
  /\ blocks_sent (stats s') = 20.
Proof.
  apply (emission_advances_to_the_next_chunk small_source at_block_19 GATT_SUCCESS 1
           (default at_block_19
              (Sender.step small_source at_block_19 (ProcessNextChunk GATT_SUCCESS 1)))
           true (chunk_packet (small_source 19) 3 12 19 0)).
  vm_compute. reflexivity.
Defined.

Lemma transfer_completes_after_block_1799_witness :
  exists s1 packet,
    app_data_transfer_process_next_chunk small_source (Scenarios.at_block 1799)
      GATT_SUCCESS 7 = Some (s1, true, [packet])
    /\ current_state (trk s1) = TRANSFER_STATE_ACTIVE
    /\ waiting_for_ack (trk s1) = false
    /\ current_block (trk s1) = 1800
    /\ block_data (trk s1) = small_source 1799
    /\ forall status now2,
         exists s2,
           app_data_transfer_process_next_chunk small_source s1 status now2
           = Some (s2, false, [])
           /\ current_state (trk s2) = TRANSFER_STATE_COMPLETE
           /\ end_time_ms (stats s2) = now2
           /\ total_chunks (stats s2) = 20
           /\ forall status' now3,
                app_data_transfer_process_next_chunk small_source s2 status' now3
                = Some (s2, false, []).
Proof.
  apply (transfer_completes_after_block_1799 small_source (Scenarios.at_block 1799) 7);
    vm_compute; congruence.
Defined.

End Emission.

(** ** Receiver session: one call and a sequence of calls *)

Module Session.

Import Codec Receiver Examples Calls.

Ltac in_events :=
  repeat match goal with
         | H : _ ∈ _ ++ _ |- _ => apply elem_of_app in H; destruct H as [H|H]
         | H : _ ∈ _ :: _ |- _ => apply elem_of_cons in H; destruct H as [H|H]
         | H : _ ∈ [] |- _ => apply elem_of_nil in H; contradiction
         | H : _ ∈ (if ?c then _ else _) |- _ => destruct c eqn:?
         | H : _ ∈ (match ?c with Some _ => _ | None => _ end) |- _ => destruct c eqn:?
         | H : OnAck _ = _ |- _ => first [discriminate H | injection H as H]
         | H : OnWaveform _ _ = _ |- _ => first [discriminate H | injection H as H]
         | H : OnProgress _ = _ |- _ => first [discriminate H | injection H as H]
         | H : OnCompletion _ = _ |- _ => first [discriminate H | injection H as H]
         end.

Section WithZlib.

Variable uncompress : list byte -> nat -> Z * list byte.

Local Abbreviation process_chunk := (transfer_session_process_chunk uncompress).
Local Abbreviation feed_all := (Receiver.feed_all uncompress).

(** The callbacks of a call that assembles a block, in the order in
    which the code invokes them, and the new value of the active flag. *)
Lemma complete_block_events s bn tc s' events :
  complete_block uncompress s bn tc = (s', events) ->
  let block := reassemble (chunks_of (block_chunks s) bn) tc in
  let blocks := size (<[bn := block]> (received_blocks s)) in
  let full := Z.of_nat blocks =? TOTAL_BLOCKS in
  events
  = waveform_events uncompress s block
    ++ (if (0 <? bn) && ((bn + 1) mod ACK_INTERVAL =? 0) && ack_callback s
        then [OnAck bn] else [])
    ++ (if progress_callback s
        then [OnProgress (Arrivals.stats_of s blocks (is_active s))] else [])
    ++ (if full && completion_callback s
        then [OnCompletion (Arrivals.stats_of s blocks false)] else [])
  /\ is_active s' = (if full then false else is_active s)
  /\ size (received_blocks s') = blocks.
Proof.
  unfold complete_block, waveform_events. cbv zeta.
  simpl received_blocks.
  destruct (Z.of_nat (size (<[bn:=_]> (received_blocks s))) =? TOTAL_BLOCKS);
    intros [= <- <-]; cbn [andb is_active set_is_active received_blocks];
    (split; [|split; reflexivity]).
  - destruct (completion_callback s); reflexivity.
  - rewrite app_nil_r. reflexivity.
Qed.

Lemma store_chunk_keeps_flags s bn cn cs tc d :
  let s1 := store_chunk s bn cn cs tc d in
  ack_callback s1 = ack_callback s
  /\ progress_callback s1 = progress_callback s
  /\ is_active s1 = is_active s
  /\ start_time s1 = start_time s.
Proof.
  unfold store_chunk. destruct (block_chunks s !! bn); repeat split.
Qed.

(** X7.  The value returned depends on the announced length and on the block
    number field alone: [false] when fewer than 12 bytes are announced or
    the block number is 1800 or more, [true] otherwise, also when the
    assembled block fails to decode.  A refused notification changes
    nothing and invokes no callback. *)
Theorem chunk_is_refused_only_for_its_header s data len :
  let '(ok, s', events) := process_chunk s data len in
  ok = Arrivals.accepted (data, len)
  /\ (ok = false -> s' = s /\ events = []).
Proof.
  unfold Arrivals.accepted. cbn [fst snd].
  destruct (process_chunk_outcome uncompress s data len)
    as [[Hr ->]|[(Hl & Hb & _ & ->)|(Hl & Hb & _ & s2 & events & _ & ->)]].
  - split; [|intros _; split; reflexivity].
    destruct Hr as [Hr|Hr].
    + apply Nat.ltb_lt in Hr. rewrite Hr. reflexivity.
    + apply Z.leb_le in Hr. rewrite Hr, orb_true_r. reflexivity.
  - apply Nat.ltb_ge in Hl. apply Z.leb_gt in Hb. rewrite Hl, Hb.
    split; [reflexivity|discriminate].
  - apply Nat.ltb_ge in Hl. apply Z.leb_gt in Hb. rewrite Hl, Hb.
    split; [reflexivity|discriminate].
Qed.

(** X8.  The ACK callback is invoked for block [b] exactly by a call that
    assembles block [b] with [b > 0] and [(b + 1) mod 20 = 0], on a
    session with an ACK callback; which blocks were received before plays
    no part. *)
Theorem ack_exactly_after_every_twentieth_block s data len b :
  let bn := u16 (le16 data 0) in
  let tc := u16 (le16 data 6) in
  let s1 := store_chunk s bn (u16 (le16 data 2)) (u16 (le16 data 4)) tc
              (read_range data 12 (Z.to_nat (u16 (le16 data 4)))) in
  let '(ok, s', events) := process_chunk s data len in
  OnAck b ∈ events
  <-> ((12 <= len)%nat /\ bn < TOTAL_BLOCKS
       /\ Z.of_nat (size (chunks_of (block_chunks s1) bn)) = tc
       /\ ack_callback s = true
       /\ b = bn /\ 0 < bn /\ (bn + 1) mod ACK_INTERVAL = 0).
Proof.
  cbv zeta.
  destruct (process_chunk_outcome uncompress s data len)
    as [[Hr ->]|[(Hl & Hb & Hne & ->)|(Hl & Hb & Heq & s2 & events & Hc & ->)]].
  - split; [intros H; in_events|]. intros (? & ? & _). lia.
  - split; [intros H; in_events|]. intros (_ & _ & ? & _). contradiction.
  - apply complete_block_events in Hc. destruct Hc as (-> & _).
    pose proof (store_chunk_keeps_flags s (u16 (le16 data 0)) (u16 (le16 data 2))
                  (u16 (le16 data 4)) (u16 (le16 data 6))
                  (read_range data 12 (Z.to_nat (u16 (le16 data 4)))))
      as (Hack & _).
    cbv zeta in Hack. rewrite Hack.
    unfold waveform_events. split.
    + intros H. in_events; subst.
      match goal with
      | H : _ && _ && _ = true |- _ =>
          apply andb_prop in H; destruct H as [H Hcb];
          apply andb_prop in H; destruct H as [Hpos Hmod]
      end.
      apply Z.ltb_lt in Hpos. apply Z.eqb_eq in Hmod.
      repeat split; assumption.
    + intros (_ & _ & _ & Hcb & -> & Hpos & Hmod).
      apply elem_of_app. right. apply elem_of_app. left.
      rewrite Hcb.
      apply Z.ltb_lt in Hpos. apply Z.eqb_eq in Hmod. rewrite Hpos, Hmod.
      apply elem_of_cons. left. reflexivity.
Qed.

(** X9.  The statistics handed to the completion callback: all 1800 blocks,
    and no running clock, since the active flag is cleared before they
    are taken: elapsed time and throughput are reported as zero.  The
    session is inactive after such a call. *)
Theorem completion_statistics_have_no_elapsed_time s data len st :
  let '(ok, s', events) := process_chunk s data len in
  OnCompletion st ∈ events ->
  Stats.elapsed_since st = None
  /\ Stats.blocks_received st = Stats.total_blocks st
  /\ Stats.total_chunks_received st = u32 (total_chunks_received s + 1)
  /\ size (received_blocks s') = 1800%nat
  /\ is_active s' = false.
Proof.
  destruct (process_chunk_outcome uncompress s data len)
    as [[Hr ->]|[(Hl & Hb & Hne & ->)|(Hl & Hb & Heq & s2 & events & Hc & ->)]].
  - intros H. in_events.
  - intros H. in_events.
  - apply complete_block_events in Hc. destruct Hc as (-> & Hact & Hsize).
    unfold waveform_events. intros H. in_events; subst st.
    match goal with
    | H : _ && _ = true |- _ => apply andb_prop in H; destruct H as [Hfull _]
    end.
    rewrite Hfull in Hact. apply Z.eqb_eq in Hfull.
    cbn [Arrivals.stats_of Stats.elapsed_since Stats.blocks_received
         Stats.total_blocks Stats.total_chunks_received].
    rewrite Hfull. split; [reflexivity|]. split; [reflexivity|].
    split; [|split; [|exact Hact]].
    + apply (store_chunk_spec s (u16 (le16 data 0)) (u16 (le16 data 2))
               (u16 (le16 data 4)) (u16 (le16 data 6))
               (read_range data 12 (Z.to_nat (u16 (le16 data 4))))).
    + rewrite Hsize. unfold TOTAL_BLOCKS in Hfull. lia.
Qed.

Lemma store_chunk_expected s bn cn cs tc d b :
  b <> bn ->
  block_expected_chunks (store_chunk s bn cn cs tc d) !! b
  = block_expected_chunks s !! b.
Proof.
  intros Hb. unfold store_chunk.
  destruct (block_chunks s !! bn); simpl; [reflexivity|].
  apply lookup_insert_ne. congruence.
Qed.

(** X10.  A notification for one block leaves the chunks collected for every
    other block, their expected-chunk entries and the other received
    blocks as they were. *)
Theorem call_leaves_other_blocks_alone s data len b :
  b <> u16 (le16 data 0) ->
  let '(ok, s', events) := process_chunk s data len in
  block_chunks s' !! b = block_chunks s !! b
  /\ block_expected_chunks s' !! b = block_expected_chunks s !! b
  /\ received_blocks s' !! b = received_blocks s !! b.
Proof.
  intros Hb.
  pose proof (store_chunk_spec s (u16 (le16 data 0)) (u16 (le16 data 2))
                (u16 (le16 data 4)) (u16 (le16 data 6))
                (read_range data 12 (Z.to_nat (u16 (le16 data 4)))))
    as (_ & Hother & Hr & _).
  pose proof (store_chunk_expected s (u16 (le16 data 0)) (u16 (le16 data 2))
                (u16 (le16 data 4)) (u16 (le16 data 6))
                (read_range data 12 (Z.to_nat (u16 (le16 data 4)))) b Hb) as Hexp.
  destruct (process_chunk_outcome uncompress s data len)
    as [[_ ->]|[(_ & _ & _ & ->)|(_ & _ & _ & s2 & events & Hc & ->)]].
  - repeat split.
  - split; [apply Hother; exact Hb|]. split; [exact Hexp|]. rewrite Hr. reflexivity.
  - apply complete_block_spec in Hc.
    destruct Hc as (-> & -> & -> & _).
    rewrite !lookup_delete_ne, lookup_insert_ne by congruence.
    split; [apply Hother; exact Hb|]. split; [exact Hexp|]. rewrite Hr. reflexivity.
Qed.

Lemma call_keeps_received s data len b :
  is_Some (received_blocks s !! b) ->
  is_Some (received_blocks (process_chunk s data len).1.2 !! b).
Proof.
  intros Hb.
  pose proof (store_chunk_spec s (u16 (le16 data 0)) (u16 (le16 data 2))
                (u16 (le16 data 4)) (u16 (le16 data 6))
                (read_range data 12 (Z.to_nat (u16 (le16 data 4)))))
    as (_ & _ & Hr & _).
  destruct (process_chunk_outcome uncompress s data len)
    as [[_ ->]|[(_ & _ & _ & ->)|(_ & _ & _ & s2 & events & Hc & ->)]]; simpl.
  - exact Hb.
  - rewrite Hr. exact Hb.
  - apply complete_block_spec in Hc. destruct Hc as (-> & _).
    rewrite Hr. destruct (decide (b = u16 (le16 data 0))) as [->|Hne].
    + rewrite lookup_insert_eq. eexists. reflexivity.
    + rewrite lookup_insert_ne by congruence. exact Hb.
Qed.

(** X11.  Notifications never remove a block from the received set: a block
    received once stays received whatever arrives afterwards, until the
    session is started again. *)
Theorem received_blocks_only_grow chunks : forall s b,
  is_Some (received_blocks s !! b) ->
  is_Some (received_blocks (feed_all s chunks).1 !! b).
Proof.
  induction chunks as [|[data len] rest IH]; intros s b Hb; [exact Hb|].
  simpl. pose proof (call_keeps_received s data len b Hb) as H1.
  destruct (process_chunk s data len) as [[ok s1] e1]. simpl in H1.
  specialize (IH s1 b H1).
  destruct (Receiver.feed_all uncompress s1 rest) as [s2 e2]. exact IH.
Qed.

Lemma u32_add_cong (a b c : Z) : u32 a = u32 b -> u32 (a + c) = u32 (b + c).
Proof.
  unfold u32. intros H.
  rewrite <- (Zplus_mod_idemp_l a), H, Zplus_mod_idemp_l. reflexivity.
Qed.

Lemma u32_u32 (a : Z) : u32 (u32 a) = u32 a.
Proof. unfold u32. apply Z.mod_mod. lia. Qed.

Lemma u32_range (a : Z) : 0 <= u32 a < 2 ^ 32.
Proof. unfold u32. apply Z.mod_pos_bound. lia. Qed.

Lemma call_counters s data len :
  let '(ok, s', events) := process_chunk s data len in
  let a := Arrivals.accepted (data, len) in
  u32 (total_chunks_received s')
  = u32 (total_chunks_received s + (if a then 1 else 0))
  /\ u32 (total_bytes_received s')
     = u32 (total_bytes_received s
            + (if a then Arrivals.announced_size (data, len) else 0))
  /\ (0 <= total_chunks_received s < 2 ^ 32 ->
      0 <= total_chunks_received s' < 2 ^ 32)
  /\ (0 <= total_bytes_received s < 2 ^ 32 ->
      0 <= total_bytes_received s' < 2 ^ 32).
Proof.
  pose proof (chunk_is_refused_only_for_its_header s data len) as Hacc.
  unfold Arrivals.announced_size. cbn [fst snd].
  pose proof (store_chunk_spec s (u16 (le16 data 0)) (u16 (le16 data 2))
                (u16 (le16 data 4)) (u16 (le16 data 6))
                (read_range data 12 (Z.to_nat (u16 (le16 data 4)))))
    as (_ & _ & _ & Hbytes & Hchunks & _).
  destruct (process_chunk_outcome uncompress s data len)
    as [[_ E]|[(_ & _ & _ & E)|(_ & _ & _ & s2 & events & Hc & E)]];
    rewrite E in *; clear E; cbv beta iota zeta in Hacc;
    destruct Hacc as [<- _]; cbv zeta.
  - rewrite !Z.add_0_r. tauto.
  - rewrite Hbytes, Hchunks, !u32_u32.
    split; [reflexivity|]. split; [reflexivity|].
    split; intros _; apply u32_range.
  - apply complete_block_spec in Hc.
    destruct Hc as (_ & _ & _ & -> & -> & _).
    rewrite Hbytes, Hchunks, !u32_u32.
    split; [reflexivity|]. split; [reflexivity|].
    split; intros _; apply u32_range.
Qed.

Lemma feed_counters chunks : forall s,
  let s' := (feed_all s chunks).1 in
  let taken := filter (fun c => Arrivals.accepted c = true) chunks in
  u32 (total_chunks_received s')
  = u32 (total_chunks_received s + Z.of_nat (length taken))
  /\ u32 (total_bytes_received s')
     = u32 (total_bytes_received s
            + foldr Z.add 0 (map Arrivals.announced_size taken))
  /\ (0 <= total_chunks_received s < 2 ^ 32 ->
      0 <= total_chunks_received s' < 2 ^ 32)
  /\ (0 <= total_bytes_received s < 2 ^ 32 ->
      0 <= total_bytes_received s' < 2 ^ 32).
Proof.
  induction chunks as [|[data len] rest IH]; intros s; cbv zeta.
  - simpl. rewrite !Z.add_0_r. tauto.
  - pose proof (call_counters s data len) as H1.
    cbn [Receiver.feed_all].
    destruct (process_chunk s data len) as [[ok s1] e1].
    cbv zeta in H1. destruct H1 as (Hc1 & Hb1 & Hrc1 & Hrb1).
    specialize (IH s1). cbv zeta in IH.
    destruct (Receiver.feed_all uncompress s1 rest) as [s2 e2].
    cbn [fst] in *. destruct IH as (Hc2 & Hb2 & Hrc2 & Hrb2).
    rewrite Hc2, Hb2.
    rewrite (u32_add_cong _ _ _ Hc1), (u32_add_cong _ _ _ Hb1).
    rewrite filter_cons.
    destruct (decide (Arrivals.accepted (data, len) = true)) as [Ha|Ha].
    + rewrite Ha. cbn [length map foldr].
      split; [f_equal; lia|]. split; [f_equal; lia|]. tauto.
    + apply not_true_is_false in Ha. rewrite Ha.
      split; [f_equal; lia|]. split; [f_equal; lia|]. tauto.
Qed.

(** X12.  After any sequence of notifications to a started session, the chunk
    counter is the number of notifications that were accepted, and the
    byte counter is the sum of the [chunk_size] fields they announced
    (not of the bytes that arrived), both modulo 2^32; refused
    notifications and duplicates of stored chunks are not told apart. *)
Theorem counters_count_accepted_notifications session now chunks :
  let s' := (feed_all (transfer_session_start session now) chunks).1 in
  let taken := filter (fun c => Arrivals.accepted c = true) chunks in
  total_chunks_received s' = u32 (Z.of_nat (length taken))
  /\ total_bytes_received s'
     = u32 (foldr Z.add 0 (map Arrivals.announced_size taken)).
Proof.
  pose proof (feed_counters chunks (transfer_session_start session now))
    as (Hc & Hb & Hrc & Hrb).
  cbv zeta. cbn [transfer_session_start total_chunks_received
                 total_bytes_received] in *.
  rewrite Z.add_0_l in Hc, Hb. rewrite <- Hc, <- Hb.
  unfold u32. rewrite !Z.mod_small; [split; reflexivity| |]; [apply Hrb|apply Hrc]; lia.
Qed.

(** The statistics a call reports to the progress and completion
    callbacks count the received set of the session as the call leaves
    it. *)
Lemma call_statistics s data len st :
  let '(ok, s', events) := process_chunk s data len in
  OnProgress st ∈ events \/ OnCompletion st ∈ events ->
  Stats.blocks_received st = u32 (Z.of_nat (size (received_blocks s')))
  /\ Stats.total_blocks st = TOTAL_BLOCKS.
Proof.
  destruct (process_chunk_outcome uncompress s data len)
    as [[Hr ->]|[(Hl & Hb & Hne & ->)|(Hl & Hb & Heq & s2 & events & Hc & ->)]].
  - intros [H|H]; in_events.
  - intros [H|H]; in_events.
  - apply complete_block_events in Hc. destruct Hc as (-> & _ & ->).
    unfold waveform_events. intros [H|H]; in_events; subst st; split; reflexivity.
Qed.

Lemma feed_statistics chunks : forall s,
  keys_in_range s ->
  let '(s', events) := feed_all s chunks in
  keys_in_range s'
  /\ forall st, OnProgress st ∈ events \/ OnCompletion st ∈ events ->
       0 <= Stats.blocks_received st <= Stats.total_blocks st.
Proof.
  induction chunks as [|[data len] rest IH]; intros s Hk.
  - simpl. split; [exact Hk|]. intros st [H|H]; in_events.
  - pose proof (Completion.call_keeps_range uncompress s data len Hk) as H1.
    pose proof (call_statistics s data len) as Hst.
    cbn [Receiver.feed_all].
    destruct (process_chunk s data len) as [[ok s1] e1].
    destruct H1 as (Hk1 & _).
    specialize (IH s1 Hk1).
    destruct (Receiver.feed_all uncompress s1 rest) as [s2 e2].
    destruct IH as (Hk2 & Hev2). split; [exact Hk2|].
    intros st Hin.
    assert (Hor : (OnProgress st ∈ e1 \/ OnCompletion st ∈ e1)
                  \/ (OnProgress st ∈ e2 \/ OnCompletion st ∈ e2)).
    { destruct Hin as [H|H]; apply elem_of_app in H; tauto. }
    destruct Hor as [Hin1|Hin2]; [|apply Hev2; exact Hin2].
    destruct (Hst st Hin1) as (-> & ->).
    pose proof (Completion.keys_in_range_size s1 Hk1) as Hsize.
    unfold u32, TOTAL_BLOCKS. rewrite Z.mod_small; lia.
Qed.

(** X13.  Whatever is fed to a started session, the received set holds block
    numbers below 1800 only, hence at most 1800 blocks, and every
    statistics record handed to the progress or completion callback
    reports between 0 and [total_blocks] received blocks. *)
Theorem received_blocks_never_exceed_total session now chunks :
  let '(s', events) := feed_all (transfer_session_start session now) chunks in
  (size (received_blocks s') <= 1800)%nat
  /\ (forall k, is_Some (received_blocks s' !! k) -> 0 <= k < TOTAL_BLOCKS)
  /\ forall st, OnProgress st ∈ events \/ OnCompletion st ∈ events ->
       0 <= Stats.blocks_received st <= Stats.total_blocks st.
Proof.
  pose proof (feed_statistics chunks (transfer_session_start session now)) as H.
  destruct (Receiver.feed_all uncompress _ chunks) as [s' events].
  destruct H as (Hk & Hev).
  - intros k Hs. simpl in Hs. rewrite lookup_empty in Hs.
    destruct Hs as [? Hs]. discriminate Hs.
  - split; [apply Completion.keys_in_range_size; exact Hk|].
    split; [exact Hk|exact Hev].
Qed.

End WithZlib.

Lemma call_leaves_other_blocks_alone_witness :
  let '(ok, s', events) :=
    transfer_session_process_chunk zlib_rejects started
      (buffer (chunk_frame 5 0 2 [x01])) 13 in
  block_chunks s' !! 7 = block_chunks started !! 7
  /\ block_expected_chunks s' !! 7 = block_expected_chunks started !! 7
  /\ received_blocks s' !! 7 = received_blocks started !! 7.
Proof.
  apply (call_leaves_other_blocks_alone zlib_rejects started
           (buffer (chunk_frame 5 0 2 [x01])) 13 7).
  vm_compute. discriminate.
Defined.

Lemma received_blocks_only_grow_witness :
  is_Some (received_blocks
             (feed_all zlib_rejects
                (feed_all zlib_rejects started (empty_blocks 1)).1
                (empty_blocks 3)).1 !! 0).
Proof.
  apply (received_blocks_only_grow zlib_rejects (empty_blocks 3)
           (feed_all zlib_rejects started (empty_blocks 1)).1 0).
  vm_compute. eexists. reflexivity.
Defined.

End Session.

(** ** A block sent by the peripheral, reassembled by the central *)

Module Reassembly.

Import Codec Receiver Examples Calls.

(** *** The sender's chunking of a block of 1 to 65535 bytes *)

Lemma chunks_in_any_block (B cs : Z) :
  1 <= B <= 65535 -> 1 <= cs <= 65535 ->
  let n := (B + cs - 1) / cs in
  Sender.chunks_in_block B cs = n
  /\ 1 <= n <= B
  /\ B <= n * cs
  /\ (n - 1) * cs < B.
Proof.
  intros HB Hcs n.
  assert (Hn : 1 <= n <= B /\ B <= n * cs /\ (n - 1) * cs < B).
  { pose proof (Z.div_mod (B + cs - 1) cs ltac:(lia)) as Hdm.
    pose proof (Z.mod_pos_bound (B + cs - 1) cs ltac:(lia)) as Hm.
    fold n in Hdm. nia. }
  split; [|exact Hn].
  unfold Sender.chunks_in_block, u32, u16.
  rewrite (Z.mod_small (B + cs - 1)) by (change (2 ^ 32) with 4294967296; lia).
  fold n. apply Z.mod_small. change (2 ^ 16) with 65536. lia.
Qed.

Lemma this_chunk_size_any (B cs k : Z) :
  1 <= B <= 65535 -> 1 <= cs <= 65535 -> 0 <= k < (B + cs - 1) / cs ->
  u32 (k * cs) = k * cs
  /\ k * cs < B
  /\ Sender.this_chunk_size B cs k = Z.min cs (B - k * cs).
Proof.
  intros HB Hcs Hk.
  destruct (chunks_in_any_block B cs HB Hcs) as (_ & Hn & _ & Hlast).
  assert (Hoff : 0 <= k * cs < B) by nia.
  assert (Hu : u32 (k * cs) = k * cs).
  { unfold u32. apply Z.mod_small. change (2 ^ 32) with 4294967296. lia. }
  split; [exact Hu|]. split; [lia|].
  unfold Sender.this_chunk_size. cbv zeta. rewrite Hu.
  unfold u32, u16.
  rewrite (Z.mod_small (k * cs + cs)) by (change (2 ^ 32) with 4294967296; lia).
  destruct (Z.ltb_spec B (k * cs + cs)).
  - rewrite Z.mod_small by (change (2 ^ 16) with 65536; lia). lia.
  - lia.
Qed.

Lemma sum_lengths_permutation {A} (f : nat -> list A) (l1 l2 : list nat) :
  l1 ≡ₚ l2 ->
  foldr (fun k acc => Z.of_nat (length (f k)) + acc) 0 l1
  = foldr (fun k acc => Z.of_nat (length (f k)) + acc) 0 l2.
Proof.
  induction 1; simpl; lia.
Qed.

Lemma sum_lengths_concat {A} (f : nat -> list A) (l : list nat) :
  foldr (fun k acc => Z.of_nat (length (f k)) + acc) 0 l
  = Z.of_nat (length (concat (map f l))).
Proof.
  induction l as [|k l IH]; [reflexivity|].
  simpl. rewrite length_app, IH. lia.
Qed.

Section OneBlock.

Variable block : list byte.
Variables cs bn : Z.

Local Abbreviation B := (Z.of_nat (length block)).

Hypothesis block_size : 1 <= B <= 65535.
Hypothesis chunk_payload_size : 1 <= cs <= 65535.
Hypothesis block_number_ok : 0 <= bn < TOTAL_BLOCKS.

Local Abbreviation n := ((B + cs - 1) / cs).
Local Abbreviation packet :=
  (fun k : nat => Sender.chunk_packet block B cs bn (Z.of_nat k)).
(** The payload of chunk [k]. *)
Local Abbreviation slice :=
  (fun k : nat => take (Z.to_nat cs) (drop (k * Z.to_nat cs) block)).

Lemma chunk_packets_any :
  Sender.chunk_packets block cs bn = map packet (seq 0 (Z.to_nat n)).
Proof.
  unfold Sender.chunk_packets. cbv zeta.
  assert (Hu : u32 B = B).
  { unfold u32. apply Z.mod_small. change (2 ^ 32) with 4294967296. lia. }
  rewrite Hu.
  destruct (chunks_in_any_block B cs block_size chunk_payload_size) as (-> & _).
  reflexivity.
Qed.

Lemma any_packet_payload (k : nat) :
  (k < Z.to_nat n)%nat ->
  let this := Sender.this_chunk_size B cs (Z.of_nat k) in
  take (Z.to_nat this) (drop (Z.to_nat (u32 (Z.of_nat k * cs))) block) = slice k
  /\ Z.of_nat (length (slice k)) = this
  /\ 0 <= this <= 65535.
Proof.
  intros Hk this.
  destruct (this_chunk_size_any B cs (Z.of_nat k) block_size chunk_payload_size
              ltac:(lia)) as (Hu & Hoff & Hthis).
  fold this in Hthis. rewrite Hu.
  replace (Z.to_nat (Z.of_nat k * cs)) with (k * Z.to_nat cs)%nat by nia.
  assert (Hrem : length (drop (k * Z.to_nat cs) block)
                 = Z.to_nat (B - Z.of_nat k * cs)).
  { rewrite length_drop. nia. }
  split; [|split].
  - destruct (Z.le_ge_cases cs (B - Z.of_nat k * cs)).
    + rewrite Hthis, Z.min_l by lia. reflexivity.
    + rewrite Hthis, Z.min_r by lia.
      rewrite !take_ge by lia. reflexivity.
  - rewrite length_take, Hrem, Hthis. lia.
  - lia.
Qed.

(** What the receiver parses out of the notification of chunk [k]. *)
Lemma any_packet_fields (k : nat) :
  (k < Z.to_nat n)%nat ->
  let data := buffer (packet k) in
  let this := Sender.this_chunk_size B cs (Z.of_nat k) in
  bn = u16 (le16 data 0)
  /\ Z.of_nat k = u16 (le16 data 2)
  /\ this = u16 (le16 data 4)
  /\ n = u16 (le16 data 6)
  /\ slice k = read_range data 12 (Z.to_nat this)
  /\ (12 <= length (packet k))%nat.
Proof.
  intros Hk data this.
  destruct (chunks_in_any_block B cs block_size chunk_payload_size) as (Hn & Hnr & _).
  destruct (any_packet_payload k Hk) as (Hpay & Hlen & Hthis).
  fold this in Hpay, Hlen, Hthis.
  unfold TOTAL_BLOCKS in block_number_ok.
  assert (H0 : le16 data 0 = u16 bn) by (apply le16_put16; reflexivity).
  assert (H2 : le16 data 2 = u16 (Z.of_nat k)) by (apply le16_put16; reflexivity).
  assert (H4 : le16 data 4 = u16 this) by (apply le16_put16; reflexivity).
  assert (H6 : le16 data 6 = u16 (Sender.chunks_in_block B cs))
    by (apply le16_put16; reflexivity).
  rewrite H0, H2, H4, H6, Hn.
  rewrite !(u16_small bn), !(u16_small (Z.of_nat k)),
    !(u16_small this), !(u16_small n) by lia.
  repeat (split; [reflexivity|]).
  split.
  - unfold data, Sender.chunk_packet. cbv zeta. fold this. rewrite Hpay.
    replace (Z.to_nat this) with (length (slice k)) by lia.
    symmetry.
    apply (RawBlock.read_range_payload
             (put16 bn ++ put16 (Z.of_nat k) ++ put16 this
              ++ put16 (Sender.chunks_in_block B cs)
              ++ put16 (u16 B) ++ [z2b 0; z2b 0])).
    reflexivity.
  - unfold Sender.chunk_packet. cbv zeta. simpl length. lia.
Qed.

Lemma slices_make_any_block : concat (map slice (seq 0 (Z.to_nat n))) = block.
Proof.
  destruct (chunks_in_any_block B cs block_size chunk_payload_size)
    as (_ & Hn & Hall & _).
  apply RawBlock.concat_slices; [lia|]. nia.
Qed.

Variable uncompress : list byte -> nat -> Z * list byte.
Variable session : transfer_session.

Hypothesis no_partial_block : block_chunks session !! bn = None.

Local Abbreviation process_chunk := (transfer_session_process_chunk uncompress).

(** The session once the chunks listed in [done], and no other
    notification, have arrived. *)
Local Abbreviation fed done s :=
  (received_blocks s = received_blocks session
   /\ (forall b, b <> bn -> block_chunks s !! b = block_chunks session !! b)
   /\ waveform_callback s = waveform_callback session
   /\ size (chunks_of (block_chunks s) bn) = length done
   /\ (forall k : nat, k ∈ done%list ->
         chunks_of (block_chunks s) bn !! Z.of_nat k = Some (slice k))
   /\ (forall i, is_Some (chunks_of (block_chunks s) bn !! i) ->
         exists k : nat, k ∈ done%list /\ i = Z.of_nat k)
   /\ u32 (total_chunks_received s)
      = u32 (total_chunks_received session + Z.of_nat (length done))
   /\ u32 (total_bytes_received s)
      = u32 (total_bytes_received session
             + foldr (fun k acc => Z.of_nat (length (slice k)) + acc) 0 done)).

Lemma fed_nothing : fed (@nil nat) session.
Proof.
  split; [reflexivity|]. split; [reflexivity|]. split; [reflexivity|].
  unfold chunks_of. rewrite no_partial_block. simpl.
  split; [apply map_size_empty|].
  split; [intros k Hk; apply elem_of_nil in Hk; contradiction|].
  split; [intros i [x Hx]; rewrite lookup_empty in Hx; discriminate|].
  rewrite !Z.add_0_r. split; reflexivity.
Qed.

Lemma stored_after_any_chunk (done : list nat) (k : nat) (s : transfer_session) :
  fed done s -> k ∉ done ->
  fed (k :: done)
      (store_chunk s bn (Z.of_nat k) (Z.of_nat (length (slice k))) n (slice k)).
Proof.
  intros (Hr & Hb & Hw & Hsize & Hin & Hdom & Hc & Hbytes) Hk.
  pose proof (store_chunk_spec s bn (Z.of_nat k) (Z.of_nat (length (slice k)))
                n (slice k))
    as (Hb1 & Hother & Hr1 & Hbytes1 & Hc1 & Hw1 & _).
  cbv zeta in *.
  assert (Hc' : chunks_of (block_chunks
                  (store_chunk s bn (Z.of_nat k) (Z.of_nat (length (slice k)))
                     n (slice k))) bn
                = <[Z.of_nat k := slice k]> (chunks_of (block_chunks s) bn)).
  { unfold chunks_of at 1. rewrite Hb1. reflexivity. }
  assert (Hfresh : chunks_of (block_chunks s) bn !! Z.of_nat k = None).
  { destruct (chunks_of (block_chunks s) bn !! Z.of_nat k) eqn:E; [|reflexivity].
    destruct (Hdom (Z.of_nat k) ltac:(eexists; exact E)) as (k' & Hk' & Heq).
    apply Nat2Z.inj in Heq. subst k'. contradiction. }
  rewrite Hc'.
  split; [congruence|].
  split; [intros b Hne; rewrite Hother by exact Hne; apply Hb; exact Hne|].
  split; [congruence|].
  split; [rewrite map_size_insert_None by exact Hfresh; simpl; lia|].
  split.
  { intros k' Hk'. apply elem_of_cons in Hk'. destruct Hk' as [->|Hk'].
    - apply lookup_insert_eq.
    - rewrite lookup_insert_ne by (intros Heq; apply Nat2Z.inj in Heq; subst; contradiction).
      apply Hin. exact Hk'. }
  split.
  { intros i Hi. destruct (decide (i = Z.of_nat k)) as [->|Hne].
    - exists k. split; [apply elem_of_cons; left; reflexivity|reflexivity].
    - rewrite lookup_insert_ne in Hi by congruence.
      destruct (Hdom i Hi) as (k' & Hk' & ->).
      exists k'. split; [apply elem_of_cons; right; exact Hk'|reflexivity]. }
  rewrite Hc1, Hbytes1, !Session.u32_u32.
  rewrite (Session.u32_add_cong _ _ 1 Hc).
  rewrite (Session.u32_add_cong _ _ (Z.of_nat (length (slice k))) Hbytes).
  cbn [length foldr]. split; f_equal; lia.
Qed.

Lemma feed_any_chunk (done : list nat) (k : nat) (s : transfer_session) :
  (k < Z.to_nat n)%nat -> fed done s -> k ∉ done ->
  let r := process_chunk s (buffer (packet k)) (length (packet k)) in
  (S (length done) < Z.to_nat n ->
   exists s1, r = (true, s1, []) /\ fed (k :: done) s1)%nat
  /\ (S (length done) = Z.to_nat n ->
      (forall i, (i < Z.to_nat n)%nat -> i ∈ k :: done) ->
      exists s2 events,
        r = (true, s2, events)
        /\ received_blocks s2 = <[bn := block]> (received_blocks session)
        /\ block_chunks s2 = block_chunks session
        /\ filter (fun e => is_waveform e = true) events
           = waveform_events uncompress session block
        /\ total_chunks_received s2 = u32 (total_chunks_received session + n)
        /\ u32 (total_bytes_received s2)
           = u32 (total_bytes_received session
                  + foldr (fun k acc => Z.of_nat (length (slice k)) + acc) 0
                      (k :: done))).
Proof.
  intros Hk Hfed Hnew r.
  destruct (any_packet_fields k Hk) as (Ebn & Ecn & Ecs & Etc & Ed & Hlen).
  destruct (any_packet_payload k Hk) as (_ & Hthis & _).
  rewrite <- Hthis in Ecs, Ed.
  pose proof (stored_after_any_chunk done k s Hfed Hnew)
    as (Hr1 & Hb1 & Hw1 & Hsize & Hin & Hdom & Hc1 & Hbytes1).
  destruct (process_chunk_outcome_at uncompress s (buffer (packet k))
              (length (packet k)) bn (Z.of_nat k)
              (Z.of_nat (length (slice k))) n (slice k)
              Ebn Ecn Ecs Etc Ed)
    as [[[?|?] _]|[(_ & _ & Hne & E)|(_ & _ & Heq & s2 & events & Hc & E)]];
    [lia|lia|..]; fold r in E; rewrite E; clear E.
  - rewrite Hsize in Hne. cbn [length] in Hne.
    split; [|intros Hlast; lia].
    intros _. eexists. split; [reflexivity|].
    repeat (split; [assumption|]). assumption.
  - rewrite Hsize in Heq. cbn [length] in Heq.
    split; [intros Hmore; lia|].
    intros Hlast Hall. exists s2, events. split; [reflexivity|].
    apply complete_block_spec in Hc.
    destruct Hc as (Hr2 & Hb2 & _ & Hbytes2 & Hc2 & _ & _ & Hev & _).
    assert (Hblock : reassemble
                       (chunks_of (block_chunks
                          (store_chunk s bn (Z.of_nat k)
                             (Z.of_nat (length (slice k))) n (slice k))) bn) n
                     = block).
    { transitivity (concat (map slice (seq 0 (Z.to_nat n))));
        [|apply slices_make_any_block].
      unfold reassemble. f_equal.
      apply map_ext_in. intros i Hi. apply in_seq in Hi.
      unfold chunk_of. rewrite (Hin i) by (apply Hall; lia). reflexivity. }
    rewrite Hblock in Hr2, Hev.
    split; [rewrite Hr2, Hr1; reflexivity|].
    split.
    { rewrite Hb2. apply map_eq. intros b.
      destruct (decide (b = bn)) as [->|Hne].
      - rewrite lookup_delete_eq, no_partial_block. reflexivity.
      - rewrite lookup_delete_ne by congruence. apply Hb1. exact Hne. }
    split.
    { rewrite Hev. unfold waveform_events. rewrite Hw1. reflexivity. }
    split.
    { rewrite Hc2.
      pose proof (store_chunk_spec s bn (Z.of_nat k) (Z.of_nat (length (slice k)))
                    n (slice k)) as (_ & _ & _ & _ & Hcs & _).
      cbv zeta in Hcs. rewrite Hcs in Hc1 |- *.
      rewrite Session.u32_u32 in Hc1. rewrite Hc1. f_equal. cbn [length]. lia. }
    rewrite Hbytes2. exact Hbytes1.
Qed.

Lemma feed_in_any_order (order : list nat) :
  forall (done : list nat) (s : transfer_session),
    order <> [] ->
    done ++ order ≡ₚ seq 0 (Z.to_nat n) ->
    fed done s ->
    let '(s', events) :=
      feed_all uncompress s (map (fun k => frame (packet k)) order) in
    received_blocks s' = <[bn := block]> (received_blocks session)
    /\ block_chunks s' = block_chunks session
    /\ filter (fun e => is_waveform e = true) events
       = waveform_events uncompress session block
    /\ total_chunks_received s' = u32 (total_chunks_received session + n)
    /\ u32 (total_bytes_received s') = u32 (total_bytes_received session + B).
Proof.
  induction order as [|k rest IH]; intros done s Hne Hperm Hfed; [contradiction|].
  assert (Hnodup : NoDup (done ++ k :: rest)).
  { rewrite Hperm. apply NoDup_seq. }
  assert (Hk : (k < Z.to_nat n)%nat).
  { assert (Hin : k ∈ seq 0 (Z.to_nat n)).
    { rewrite <- Hperm. apply elem_of_app. right. apply elem_of_cons. left. reflexivity. }
    apply elem_of_seq in Hin. lia. }
  assert (Hnew : k ∉ done).
  { apply NoDup_app in Hnodup. destruct Hnodup as (_ & Hdis & _).
    intros Hin. apply (Hdis k Hin). apply elem_of_cons. left. reflexivity. }
  assert (Hlen : (length done + S (length rest) = Z.to_nat n)%nat).
  { apply Permutation_length in Hperm.
    rewrite length_app, length_seq in Hperm. simpl in Hperm. exact Hperm. }
  assert (Hperm' : (k :: done) ++ rest ≡ₚ seq 0 (Z.to_nat n)).
  { rewrite <- Hperm. simpl. apply Permutation_middle. }
  destruct (feed_any_chunk done k s Hk Hfed Hnew) as [Hmore Hlast].
  cbn [map frame feed_all].
  destruct rest as [|k' rest].
  - destruct (Hlast ltac:(simpl in Hlen; lia)) as (s2 & events & E & Hr & Hb & Hev & Hc & Hbytes).
    { intros i Hi. rewrite app_nil_r in Hperm'. rewrite Hperm'.
      apply elem_of_seq. lia. }
    unfold frame in E. rewrite E. cbn [map feed_all]. rewrite app_nil_r.
    repeat (split; [assumption|]).
    rewrite Hbytes. f_equal. f_equal.
    rewrite app_nil_r in Hperm'.
    rewrite (sum_lengths_permutation slice _ _ Hperm').
    rewrite sum_lengths_concat, slices_make_any_block. reflexivity.
  - destruct (Hmore ltac:(simpl in Hlen; lia)) as (s1 & E & Hfed1).
    specialize (IH (k :: done) s1 ltac:(discriminate) Hperm' Hfed1).
    unfold frame in E. rewrite E.
    destruct (feed_all uncompress s1 (map (fun k => frame (packet k)) (k' :: rest)))
      as [s' events].
    exact IH.
Qed.

End OneBlock.



End Reassembly.

(** ** What the peripheral writes and what the central reads *)

Module Interop.

Import Codec Receiver Examples.

(** Reading back a 32-bit field stored with [put32]. *)
Lemma le32_put32 (p : ptr) (off : nat) (z : Z) :
  p off = z2b z -> p (off + 1)%nat = z2b (Z.shiftr z 8) ->
  p (off + 2)%nat = z2b (Z.shiftr z 16) -> p (off + 3)%nat = z2b (Z.shiftr z 24) ->
  le32 p off = u32 z.
Proof.
  intros H0 H1 H2 H3. unfold le32. rewrite H0, H1, H2, H3, !b2z_z2b.
  pose proof (Z.mod_pos_bound z 256 ltac:(lia)).
  pose proof (Z.mod_pos_bound (Z.shiftr z 8) 256 ltac:(lia)).
  pose proof (Z.mod_pos_bound (Z.shiftr z 16) 256 ltac:(lia)).
  pose proof (Z.mod_pos_bound (Z.shiftr z 24) 256 ltac:(lia)).
  rewrite (lor_shiftl_add 8) by lia.
  rewrite (lor_shiftl_add 16) by (change (2 ^ 16) with 65536; lia).
  rewrite (lor_shiftl_add 24) by (change (2 ^ 24) with 16777216; lia).
  change (2 ^ 8) with 256. change (2 ^ 16) with 65536.
  rewrite RawPath.three_bytes.
  rewrite (Z.shiftr_div_pow2 z 24) by lia.
  unfold u32. change (2 ^ 32) with (2 ^ 24 * 256).
  rewrite (Z.rem_mul_r z (2 ^ 24) 256) by lia. reflexivity.
Qed.

Lemma i16_u16 (z : Z) : i16 (u16 z) = i16 z.
Proof. unfold i16, u16. rewrite Zplus_mod_idemp_l. reflexivity. Qed.

(** The value [unpack_24bit_samples] computes for sample [i]: the three
    bytes as a 24-bit two's complement number. *)
Lemma unpack_value (p : ptr) (i : nat) :
  let v := b2z (p (i * 3)%nat) + 256 * b2z (p (i * 3 + 1)%nat)
           + 65536 * b2z (p (i * 3 + 2)%nat) in
  unpack_24bit_sample p i = if v <? 2 ^ 23 then v else v - 2 ^ 24.
Proof.
  intros v. unfold unpack_24bit_sample. cbv zeta.
  pose proof (b2z_range (p (i * 3)%nat)).
  pose proof (b2z_range (p (i * 3 + 1)%nat)).
  pose proof (b2z_range (p (i * 3 + 2)%nat)).
  rewrite (lor_shiftl_add 8) by lia.
  rewrite (lor_shiftl_add 16) by (change (2 ^ 16) with 65536; lia).
  change (2 ^ 8) with 256. change (2 ^ 16) with 65536. fold v.
  assert (Hv : 0 <= v < 2 ^ 24) by (unfold v; lia).
  rewrite RawPath.sign_bit by exact Hv.
  destruct (Z.ltb_spec v (2 ^ 23)); [reflexivity|].
  change (2 ^ 23 =? 0) with false. cbn [negb].
  change 0xFF000000 with (Z.shiftl 255 24).
  rewrite (lor_shiftl_add 24) by lia.
  unfold i32.
  replace (v + 2 ^ 24 * 255 + 2 ^ 31) with (v - 2 ^ 24 + 2 ^ 31 + 1 * 2 ^ 32) by lia.
  rewrite Z.mod_add by lia. rewrite Z.mod_small by lia. lia.
Qed.

Lemma unpack_range (p : ptr) (i : nat) :
  - 2 ^ 23 <= unpack_24bit_sample p i < 2 ^ 23.
Proof.
  rewrite unpack_value. cbv zeta.
  pose proof (b2z_range (p (i * 3)%nat)).
  pose proof (b2z_range (p (i * 3 + 1)%nat)).
  pose proof (b2z_range (p (i * 3 + 2)%nat)).
  match goal with |- context [?v <? 2 ^ 23] => destruct (Z.ltb_spec v (2 ^ 23)) end;
    lia.
Qed.

(** Unpacking what [pack_24bit_sample] stored gives the low 24 bits of
    the sample, sign-extended. *)
Lemma unpack_pack_wraps (s : Z) (rest : list byte) :
  unpack_24bit_sample (buffer (pack_24bit_sample s ++ rest)) 0
  = (s + 2 ^ 23) mod 2 ^ 24 - 2 ^ 23.
Proof.
  rewrite unpack_value. cbv zeta.
  change (buffer (pack_24bit_sample s ++ rest) (0 * 3)%nat)
    with (z2b (Z.land s 0xFF)).
  change (buffer (pack_24bit_sample s ++ rest) (0 * 3 + 1)%nat)
    with (z2b (Z.land (Z.shiftr s 8) 0xFF)).
  change (buffer (pack_24bit_sample s ++ rest) (0 * 3 + 2)%nat)
    with (z2b (Z.land (Z.shiftr s 16) 0xFF)).
  rewrite !RawPath.low_byte, RawPath.three_bytes.
  pose proof (Z.mod_pos_bound s (2 ^ 24) ltac:(lia)) as Hv.
  destruct (Z.ltb_spec (s mod 2 ^ 24) (2 ^ 23)).
  - replace ((s + 2 ^ 23) mod 2 ^ 24) with (s mod 2 ^ 24 + 2 ^ 23); [lia|].
    rewrite <- (Zplus_mod_idemp_l s).
    rewrite (Z.mod_small (s mod 2 ^ 24 + 2 ^ 23)); lia.
  - replace ((s + 2 ^ 23) mod 2 ^ 24) with (s mod 2 ^ 24 - 2 ^ 23); [lia|].
    rewrite <- (Zplus_mod_idemp_l s).
    replace (s mod 2 ^ 24 + 2 ^ 23) with (s mod 2 ^ 24 - 2 ^ 23 + 1 * 2 ^ 24) by lia.
    rewrite Z.mod_add by lia.
    rewrite (Z.mod_small (s mod 2 ^ 24 - 2 ^ 23)); lia.
Qed.

(** The peripheral's [unpack_24bit_sample] and the loop body of the
    central's [unpack_24bit_samples] are the same function. *)
Lemma unpack_same (p : ptr) (i : nat) :
  Firmware.unpack_24bit_sample p i = unpack_24bit_sample p i.
Proof.
  unfold Firmware.unpack_24bit_sample, unpack_24bit_sample.
  rewrite Nat.add_0_r. reflexivity.
Qed.

Lemma unpack_pack_samples_wrap (smp : list Z) (rest : list byte) :
  unpack_24bit_samples (buffer (pack_24bit_samples smp ++ rest)) (length smp)
  = map (fun s => (s + 2 ^ 23) mod 2 ^ 24 - 2 ^ 23) smp.
Proof.
  unfold unpack_24bit_samples, pack_24bit_samples.
  induction smp as [|s smp IH]; [reflexivity|].
  simpl length. simpl seq. rewrite <- seq_shift, !map_cons, map_map.
  cbn [concat]. rewrite <- app_assoc. f_equal.
  - apply unpack_pack_wraps.
  - rewrite <- IH. apply map_ext. intros i. apply RawPath.unpack_next_sample.
Qed.

Lemma wrap_in_range (smp : list Z) :
  Forall (fun s => - 2 ^ 23 <= s < 2 ^ 23) smp ->
  map (fun s => (s + 2 ^ 23) mod 2 ^ 24 - 2 ^ 23) smp = smp.
Proof.
  induction 1 as [|s smp Hs _ IH]; [reflexivity|].
  cbn [map]. f_equal; [|exact IH].
  rewrite Z.mod_small; lia.
Qed.

(** X15.  Samples survive packing on the peripheral and unpacking on the
    central up to their low 24 bits: the central reads each sample
    sign-extended from 24 bits, so samples between -2^23 and 2^23 - 1
    come back unchanged, whatever follows the packed buffer; the
    peripheral's own unpacking gives the same values. *)
Theorem packed_samples_unpack_to_their_low_24_bits (smp : list Z) (rest : list byte) :
  unpack_24bit_samples (buffer (pack_24bit_samples smp ++ rest)) (length smp)
  = map (fun s => (s + 2 ^ 23) mod 2 ^ 24 - 2 ^ 23) smp
  /\ map (Firmware.unpack_24bit_sample (buffer (pack_24bit_samples smp ++ rest)))
         (seq 0 (length smp))
     = unpack_24bit_samples (buffer (pack_24bit_samples smp ++ rest)) (length smp)
  /\ (Forall (fun s => - 2 ^ 23 <= s < 2 ^ 23) smp ->
      unpack_24bit_samples (buffer (pack_24bit_samples smp ++ rest)) (length smp)
      = smp).
Proof.
  split; [apply unpack_pack_samples_wrap|]. split.
  - unfold unpack_24bit_samples. apply map_ext. intros i. apply unpack_same.
  - intros Hr. rewrite unpack_pack_samples_wrap. apply wrap_in_range. exact Hr.
Qed.

Lemma parse_header_bytes (h : Firmware.waveform_block_header_t) (rest : list byte) :
  parse_waveform_header (buffer (Firmware.header_bytes h ++ rest))
  = {| block_number := u32 (Firmware.block_number h);
       timestamp_ms := u32 (Firmware.timestamp_ms h);
       sample_rate_hz := u32 (Firmware.sample_rate_hz h);
       sample_count := u16 (Firmware.sample_count h);
       trigger_sample := u16 (Firmware.trigger_sample h);
       pulse_freq_hz := u32 (Firmware.pulse_freq_hz h);
       temperature_cx10 := i16 (Firmware.temperature_c_x10 h);
       gain_db := u8 (Firmware.gain_db h);
       crc32 := u32 (Firmware.crc32 h) |}.
Proof.
  unfold parse_waveform_header.
  set (data := buffer (Firmware.header_bytes h ++ rest)).
  rewrite (le32_put32 data 0 (Firmware.block_number h)) by reflexivity.
  rewrite (le32_put32 data 4 (Firmware.timestamp_ms h)) by reflexivity.
  rewrite (le32_put32 data 8 (Firmware.sample_rate_hz h)) by reflexivity.
  rewrite (le16_put16 data 12 (Firmware.sample_count h)) by reflexivity.
  rewrite (le16_put16 data 16 (Firmware.trigger_sample h)) by reflexivity.
  rewrite (le32_put32 data 18 (Firmware.pulse_freq_hz h)) by reflexivity.
  rewrite (le16_put16 data 26 (Firmware.temperature_c_x10 h)) by reflexivity.
  rewrite (le32_put32 data 30 (Firmware.crc32 h)) by reflexivity.
  change (data 28%nat) with (z2b (Firmware.gain_db h)).
  rewrite b2z_z2b, i16_u16.
  unfold u32, u16. rewrite !Z.mod_mod by lia. reflexivity.
Qed.

(** X16.  The packed header the peripheral copies into a block is 38 bytes
    long (its own WAVEFORM_HEADER_SIZE says 40), and the central reads
    back from it the nine fields it parses: each is the field the
    peripheral stored, at the width of its type. *)
Theorem header_is_parsed_as_written
  (h : Firmware.waveform_block_header_t) (rest : list byte) :
  length (Firmware.header_bytes h) = WAVEFORM_HEADER_SIZE
  /\ parse_waveform_header (buffer (Firmware.header_bytes h ++ rest))
     = {| block_number := u32 (Firmware.block_number h);
          timestamp_ms := u32 (Firmware.timestamp_ms h);
          sample_rate_hz := u32 (Firmware.sample_rate_hz h);
          sample_count := u16 (Firmware.sample_count h);
          trigger_sample := u16 (Firmware.trigger_sample h);
          pulse_freq_hz := u32 (Firmware.pulse_freq_hz h);
          temperature_cx10 := i16 (Firmware.temperature_c_x10 h);
          gain_db := u8 (Firmware.gain_db h);
          crc32 := u32 (Firmware.crc32 h) |}.
Proof.
  split; [reflexivity|apply parse_header_bytes].
Qed.

(** *** The checksum *)

Lemma lxor_range (n a b : Z) :
  0 <= n -> 0 <= a < 2 ^ n -> 0 <= b < 2 ^ n -> 0 <= Z.lxor a b < 2 ^ n.
Proof.
  intros Hn Ha Hb.
  assert (H0 : 0 <= Z.lxor a b) by (apply Z.lxor_nonneg; lia).
  split; [exact H0|].
  destruct (Z.eq_dec (Z.lxor a b) 0) as [->|Hne]; [lia|].
  assert (Hpos : 0 < n).
  { destruct (Z.eq_dec n 0) as [->|]; [|lia].
    assert (a = 0) by (change (2 ^ 0) with 1 in Ha; lia).
    assert (b = 0) by (change (2 ^ 0) with 1 in Hb; lia).
    subst. contradiction. }
  apply Z.log2_lt_pow2; [lia|].
  eapply Z.le_lt_trans; [apply Z.log2_lxor; lia|].
  apply Z.max_lub_lt.
  - destruct (Z.eq_dec a 0) as [->|]; [exact Hpos|apply Z.log2_lt_pow2; lia].
  - destruct (Z.eq_dec b 0) as [->|]; [exact Hpos|apply Z.log2_lt_pow2; lia].
Qed.

Lemma crc_bit_range (crc : Z) : 0 <= crc < 2 ^ 32 -> 0 <= crc_bit crc < 2 ^ 32.
Proof.
  intros H. unfold crc_bit.
  assert (Hs : 0 <= Z.shiftr crc 1 < 2 ^ 32).
  { rewrite Z.shiftr_div_pow2 by lia. change (2 ^ 1) with 2.
    change (2 ^ 32) with 4294967296 in *.
    pose proof (Z.div_mod crc 2 ltac:(lia)).
    pose proof (Z.mod_pos_bound crc 2 ltac:(lia)). lia. }
  destruct (Z.testbit crc 0); [|exact Hs].
  apply lxor_range; lia.
Qed.

Lemma crc_byte_range (crc : Z) (b : byte) :
  0 <= crc < 2 ^ 32 -> 0 <= crc_byte crc b < 2 ^ 32.
Proof.
  intros H. unfold crc_byte.
  assert (Hx : 0 <= Z.lxor crc (b2z b) < 2 ^ 32).
  { pose proof (b2z_range b). apply lxor_range; lia. }
  do 8 (apply crc_bit_range in Hx). exact Hx.
Qed.

Lemma calculate_crc32_data_range (data : list byte) :
  0 <= calculate_crc32_data data < 2 ^ 32.
Proof.
  unfold calculate_crc32_data, not32.
  assert (H : forall crc, 0 <= crc < 2 ^ 32 ->
                          0 <= fold_left crc_byte data crc < 2 ^ 32).
  { induction data as [|b data IH]; intros crc Hc; [exact Hc|].
    simpl. apply IH. apply crc_byte_range. exact Hc. }
  apply lxor_range; [lia|apply H; lia|lia].
Qed.

(** The three bytes taken from a sample depend on its low 24 bits only. *)
Lemma sample_bytes_wrap (s : Z) :
  sample_bytes ((s + 2 ^ 23) mod 2 ^ 24 - 2 ^ 23) = sample_bytes s.
Proof.
  set (k := (s + 2 ^ 23) / 2 ^ 24).
  assert (E : (s + 2 ^ 23) mod 2 ^ 24 - 2 ^ 23 = s + - k * 2 ^ 24).
  { pose proof (Z.div_mod (s + 2 ^ 23) (2 ^ 24) ltac:(lia)) as H. fold k in H. lia. }
  rewrite E. unfold sample_bytes.
  assert (Hb : forall x y, x mod 256 = y mod 256 ->
                 z2b (Z.land x 0xFF) = z2b (Z.land y 0xFF)).
  { intros x y Hxy. change 0xFF with (Z.ones 8).
    rewrite !Z.land_ones by lia. change (2 ^ 8) with 256. rewrite Hxy. reflexivity. }
  f_equal; [|f_equal; [|f_equal]]; apply Hb.
  - replace (- k * 2 ^ 24) with (- k * 65536 * 256) by lia.
    apply Z.mod_add. lia.
  - rewrite !Z.shiftr_div_pow2 by lia.
    replace (s + - k * 2 ^ 24) with (s + - k * 65536 * 2 ^ 8) by lia.
    rewrite Z.div_add by lia.
    replace (- k * 65536) with (- k * 256 * 256) by lia.
    apply Z.mod_add. lia.
  - rewrite !Z.shiftr_div_pow2 by lia.
    replace (s + - k * 2 ^ 24) with (s + - k * 256 * 2 ^ 16) by lia.
    rewrite Z.div_add by lia.
    apply Z.mod_add. lia.
Qed.

Lemma fold_left_map_same {A B} (f : A -> B -> A) (g : B -> B) :
  (forall a b, f a (g b) = f a b) ->
  forall l a, fold_left f (map g l) a = fold_left f l a.
Proof.
  intros H. induction l as [|b l IH]; intros a; [reflexivity|].
  simpl. rewrite H. apply IH.
Qed.

(** X17.  The checksum the central computes over decoded samples is the one
    the peripheral computes over the packed sample bytes, a 32-bit
    value; it covers the low 24 bits of each sample only, so sample
    vectors that differ above bit 23 have the same checksum. *)
Theorem sample_checksum_is_the_checksum_of_the_packed_bytes (smp : list Z) :
  calculate_crc32_samples smp = Firmware.app_waveform_crc32 (pack_24bit_samples smp)
  /\ calculate_crc32_samples smp = calculate_crc32_data (pack_24bit_samples smp)
  /\ 0 <= calculate_crc32_samples smp < 2 ^ 32
  /\ calculate_crc32_samples (map (fun s => (s + 2 ^ 23) mod 2 ^ 24 - 2 ^ 23) smp)
     = calculate_crc32_samples smp.
Proof.
  split; [apply Decode.calculate_crc32_samples_packed|].
  split; [apply Decode.calculate_crc32_samples_packed|].
  split.
  - rewrite Decode.calculate_crc32_samples_packed.
    apply calculate_crc32_data_range.
  - unfold calculate_crc32_samples. f_equal.
    apply fold_left_map_same. intros crc s.
    rewrite sample_bytes_wrap. reflexivity.
Qed.

(** *** The raw decoder *)

Lemma buffer_take (block tail : list byte) (m i : nat) :
  (i < m <= length block)%nat ->
  buffer (take m block ++ tail) i = buffer block i.
Proof.
  intros Hi. unfold buffer, buffer_then.
  rewrite lookup_app_l by (rewrite length_take; lia).
  rewrite lookup_take_lt by lia. reflexivity.
Qed.

(** X18.  [process_uncompressed_block] accepts every block of at least 7166
    bytes and no other: it compares no checksum, always returns 2376
    samples, each in the signed 24-bit range, and reads nothing beyond
    byte 7165. *)
Theorem raw_decoder_checks_only_the_size (block : list byte) :
  match process_uncompressed_block block with
  | None => Z.of_nat (length block) < 7166
  | Some w =>
      7166 <= Z.of_nat (length block)
      /\ header w = parse_waveform_header (buffer block)
      /\ length (samples w) = 2376%nat
      /\ Forall (fun s => - 2 ^ 23 <= s < 2 ^ 23) (samples w)
      /\ forall tail,
           process_uncompressed_block (take (Z.to_nat 7166) block ++ tail) = Some w
  end.
Proof.
  unfold process_uncompressed_block.
  change (Z.of_nat WAVEFORM_HEADER_SIZE + 7128) with 7166.
  destruct (Z.ltb_spec (Z.of_nat (length block)) 7166) as [Hlt|Hge]; [exact Hlt|].
  cbv zeta. cbn [header samples].
  split; [exact Hge|]. split; [reflexivity|].
  split; [unfold unpack_24bit_samples; rewrite length_map, length_seq; reflexivity|].
  split.
  { apply Forall_forall. intros x Hx. unfold unpack_24bit_samples in Hx.
    apply list_elem_of_fmap in Hx. destruct Hx as (i & -> & _). apply unpack_range. }
  intros tail.
  destruct (Z.ltb_spec (Z.of_nat (length (take (Z.to_nat 7166) block ++ tail))) 7166)
    as [Hlt|_].
  { rewrite length_app, length_take in Hlt. lia. }
  f_equal. f_equal.
  - unfold parse_waveform_header, le32, le16.
    rewrite !(buffer_take block tail (Z.to_nat 7166)) by lia. reflexivity.
  - unfold unpack_24bit_samples, SAMPLES_PER_WAVEFORM.
    apply map_ext_in. intros i Hi. apply in_seq in Hi.
    unfold unpack_24bit_sample, advance, WAVEFORM_HEADER_SIZE.
    rewrite !(buffer_take block tail (Z.to_nat 7166)) by lia. reflexivity.
Qed.

(** *** A generated block *)

Lemma app_waveform_crc32_data (data : list byte) :
  Firmware.app_waveform_crc32 data = calculate_crc32_data data.
Proof. reflexivity. Qed.

Lemma clamp_range (s : Z) : - 2 ^ 23 <= Firmware.clamp s < 2 ^ 23.
Proof.
  unfold Firmware.clamp.
  destruct (Z.ltb_spec 8388607 s); [lia|].
  destruct (Z.ltb_spec s (-8388608)); lia.
Qed.

Lemma clamped_samples_range (simulated : nat -> Z) :
  Forall (fun s => - 2 ^ 23 <= s < 2 ^ 23) (Firmware.clamped_samples simulated).
Proof.
  apply Forall_forall. intros x Hx. unfold Firmware.clamped_samples in Hx.
  apply list_elem_of_fmap in Hx. destruct Hx as (i & -> & _). apply clamp_range.
Qed.

Lemma clamped_samples_length (simulated : nat -> Z) :
  length (Firmware.clamped_samples simulated) = 2376%nat.
Proof.
  unfold Firmware.clamped_samples. rewrite length_map, length_seq. reflexivity.
Qed.

(** The block is the packed header followed by the sample buffer. *)
Lemma generate_block_data_parts (simulated : nat -> Z) (block_num : Z) :
  Firmware.generate_block_data simulated block_num
  = Firmware.header_bytes (fst (Firmware.app_waveform_generate block_num simulated))
    ++ snd (Firmware.app_waveform_generate block_num simulated).
Proof.
  unfold Firmware.generate_block_data.
  destruct (Firmware.app_waveform_generate block_num simulated). reflexivity.
Qed.

(** The header and the sample buffer [app_waveform_generate] returns. *)
Lemma generated_fields (simulated : nat -> Z) (block_num : Z) :
  let g := Firmware.app_waveform_generate block_num simulated in
  Firmware.block_number (fst g) = block_num
  /\ Firmware.timestamp_ms (fst g) = u32 (block_num * 100)
  /\ Firmware.sample_rate_hz (fst g) = 50000000
  /\ Firmware.sample_count (fst g) = 2376
  /\ Firmware.trigger_sample (fst g) = 250
  /\ Firmware.pulse_freq_hz (fst g) = 5000000
  /\ Firmware.temperature_c_x10 (fst g) = 235
  /\ Firmware.gain_db (fst g) = 60
  /\ Firmware.crc32 (fst g) = Firmware.app_waveform_crc32 (snd g)
  /\ Firmware.status_flags (fst g)
     = (if existsb (fun i => Firmware.clips (simulated i))
             (seq 0 Firmware.WAVEFORM_SAMPLES_PER_BLOCK)
        then Z.lor (Z.lor 1 2) 8 else Z.lor 1 2)
  /\ snd g = pack_24bit_samples (Firmware.clamped_samples simulated).
Proof.
  unfold Firmware.app_waveform_generate. cbv zeta.
  cbn [fst snd Firmware.set_crc_and_flags Firmware.fill_header
       Firmware.block_number Firmware.timestamp_ms Firmware.sample_rate_hz
       Firmware.sample_count Firmware.trigger_sample Firmware.pulse_freq_hz
       Firmware.temperature_c_x10 Firmware.gain_db Firmware.crc32
       Firmware.status_flags].
  repeat (split; [reflexivity|]). reflexivity.
Qed.

Lemma clips_out_of_range (s : Z) :
  Firmware.clips s = true <-> ~ (- 2 ^ 23 <= s < 2 ^ 23).
Proof.
  unfold Firmware.clips.
  destruct (Z.ltb_spec 8388607 s); [simpl; split; [lia|reflexivity]|].
  destruct (Z.ltb_spec s (-8388608)); simpl; split; try lia; try reflexivity;
    discriminate.
Qed.

(** X19.  The block [generate_block_data] builds (no benchmark, no
    compression) for a 16-bit block number is 7166 bytes long.  The
    central's raw decoder, given that block followed by any bytes,
    returns the metadata the peripheral set, the simulated samples
    clamped to the signed 24-bit range, and a header checksum equal to
    its own checksum of the samples it decoded.  The peripheral sets the
    clipped flag exactly when a simulated sample was out of range. *)
Theorem generated_block_is_what_the_raw_decoder_expects
  (simulated : nat -> Z) (block_num : Z) (pad : list byte) :
  0 <= block_num < 65536 ->
  let block := Firmware.generate_block_data simulated block_num in
  let smp := Firmware.clamped_samples simulated in
  Z.of_nat (length block) = 7166
  /\ process_uncompressed_block (block ++ pad)
     = Some {| header := {| block_number := block_num;
                            timestamp_ms := block_num * 100;
                            sample_rate_hz := 50000000;
                            sample_count := 2376;
                            trigger_sample := 250;
                            pulse_freq_hz := 5000000;
                            temperature_cx10 := 235;
                            gain_db := 60;
                            crc32 := calculate_crc32_samples smp |};
               samples := smp |}
  /\ Forall (fun s => - 2 ^ 23 <= s < 2 ^ 23) smp
  /\ (Z.land (Firmware.status_flags
                (fst (Firmware.app_waveform_generate block_num simulated)))
             Firmware.STATUS_FLAG_CLIPPED <> 0
      <-> exists i, (i < 2376)%nat /\ ~ (- 2 ^ 23 <= simulated i < 2 ^ 23)).
Proof.
  intros Hb block smp.
  pose proof (generated_fields simulated block_num)
    as (F1 & F2 & F3 & F4 & F5 & F6 & F7 & F8 & F9 & F10 & Fsnd).
  pose proof (generate_block_data_parts simulated block_num) as Eblock.
  fold block in Eblock.
  pose proof (clamped_samples_length simulated) as Hn.
  pose proof (clamped_samples_range simulated) as Hr.
  fold smp in Hn, Hr, Fsnd.
  assert (Hflags :
            Z.land (Firmware.status_flags
                      (fst (Firmware.app_waveform_generate block_num simulated)))
                   Firmware.STATUS_FLAG_CLIPPED <> 0
            <-> exists i, (i < 2376)%nat /\ ~ (- 2 ^ 23 <= simulated i < 2 ^ 23)).
  { rewrite F10.
    set (clipped := existsb (fun i => Firmware.clips (simulated i))
                      (seq 0 Firmware.WAVEFORM_SAMPLES_PER_BLOCK)).
    assert (Hc : clipped = true
                 <-> exists i, (i < 2376)%nat /\ ~ (- 2 ^ 23 <= simulated i < 2 ^ 23)).
    { unfold clipped. rewrite existsb_exists. split.
      - intros (i & Hi & Hclip). apply in_seq in Hi. exists i.
        split; [unfold Firmware.WAVEFORM_SAMPLES_PER_BLOCK in Hi; lia|].
        apply clips_out_of_range. exact Hclip.
      - intros (i & Hi & Hout). exists i. split.
        + apply in_seq. unfold Firmware.WAVEFORM_SAMPLES_PER_BLOCK. lia.
        + apply clips_out_of_range. exact Hout. }
    rewrite <- Hc. clearbody clipped. destruct clipped; cbv; split; congruence. }
  split; [|split; [|split; [exact Hr|exact Hflags]]]; clear Hflags F10;
    rewrite Eblock, Fsnd; clear Eblock;
    rewrite Fsnd in F9; clear Fsnd;
    generalize dependent (fst (Firmware.app_waveform_generate block_num simulated));
    intros h F1 F2 F3 F4 F5 F6 F7 F8 F9;
    clearbody smp; clear block;
    assert (Hh : length (Firmware.header_bytes h) = 38%nat) by reflexivity;
    assert (Hp : length (pack_24bit_samples smp) = (3 * 2376)%nat)
      by (rewrite RawPath.pack_24bit_samples_length, Hn; reflexivity).
  { rewrite length_app, Hh, Hp. reflexivity. }
  rewrite <- app_assoc. unfold process_uncompressed_block.
  destruct (Z.ltb_spec
              (Z.of_nat (length (Firmware.header_bytes h
                                 ++ pack_24bit_samples smp ++ pad)))
              (Z.of_nat WAVEFORM_HEADER_SIZE + 7128)) as [Hlt|_].
  { rewrite !length_app, Hh, Hp in Hlt.
    change (Z.of_nat WAVEFORM_HEADER_SIZE + 7128) with 7166 in Hlt.
    rewrite !Nat2Z.inj_add in Hlt.
    change (Z.of_nat 38) with 38 in Hlt.
    change (Z.of_nat (3 * 2376)) with 7128 in Hlt. lia. }
  cbv zeta. apply f_equal.
  apply (f_equal2 Build_waveform_data_t).
  - rewrite parse_header_bytes, F1, F2, F3, F4, F5, F6, F7, F8, F9.
    rewrite app_waveform_crc32_data, <- Decode.calculate_crc32_samples_packed.
    pose proof (calculate_crc32_data_range (pack_24bit_samples smp)) as Hcrc.
    rewrite <- Decode.calculate_crc32_samples_packed in Hcrc.
    unfold u32. rewrite Z.mod_mod by lia.
    rewrite !Z.mod_small by (change (2 ^ 32) with 4294967296; lia).
    reflexivity.
  - transitivity (unpack_24bit_samples (buffer (pack_24bit_samples smp ++ pad))
                    (length smp)).
    + rewrite Hn.
      unfold unpack_24bit_samples, SAMPLES_PER_WAVEFORM.
      apply map_ext. intros i.
      unfold unpack_24bit_sample, advance, WAVEFORM_HEADER_SIZE.
      rewrite <- Hh, !Decode.buffer_app. reflexivity.
    + rewrite unpack_pack_samples_wrap. apply wrap_in_range. exact Hr.
Qed.

Lemma generated_block_is_what_the_raw_decoder_expects_witness :
  let block := Firmware.generate_block_data (fun i => 9000000 - Z.of_nat i) 3 in
  let smp := Firmware.clamped_samples (fun i => 9000000 - Z.of_nat i) in
  Z.of_nat (length block) = 7166
  /\ process_uncompressed_block (block ++ [x00; x00])
     = Some {| header := {| block_number := 3;
                            timestamp_ms := 3 * 100;
                            sample_rate_hz := 50000000;
                            sample_count := 2376;
                            trigger_sample := 250;
                            pulse_freq_hz := 5000000;
                            temperature_cx10 := 235;
                            gain_db := 60;
                            crc32 := calculate_crc32_samples smp |};
               samples := smp |}
  /\ Forall (fun s => - 2 ^ 23 <= s < 2 ^ 23) smp
  /\ (Z.land (Firmware.status_flags
                (fst (Firmware.app_waveform_generate 3 (fun i => 9000000 - Z.of_nat i))))
             Firmware.STATUS_FLAG_CLIPPED <> 0
      <-> exists i, (i < 2376)%nat
                    /\ ~ (- 2 ^ 23 <= 9000000 - Z.of_nat i < 2 ^ 23)).
Proof.
  apply (generated_block_is_what_the_raw_decoder_expects
           (fun i => 9000000 - Z.of_nat i) 3 [x00; x00]).
  lia.
Defined.

End Interop.

(** ** Sender: control writes, pause and resume, the MTU *)

Module Control.

Import Sender Task Examples.

Section WithBlockSource.

Variable generate_block_data : Z -> list byte.

Local Abbreviation control_write_handler :=
  (app_data_transfer_control_write_handler generate_block_data).
Local Abbreviation resume := (app_data_transfer_resume generate_block_data).
Local Abbreviation start := (app_data_transfer_start generate_block_data).

(** X20.  The three messages the central writes are understood by the
    peripheral as START, STOP and ACK of the block number written (a
    16-bit number); a write of fewer than 7 bytes, for instance a
    truncated message, is ignored. *)
Theorem central_messages_are_understood s conn now secs b :
  control_write_handler s conn (Central.startTransfer secs) now
  = fst (start s conn now)
  /\ control_write_handler s conn (Central.stopTransfer secs) now
     = app_data_transfer_stop s
  /\ (0 <= b < 65536 ->
      control_write_handler s conn (Central.sendAck b secs) now = handle_ack s b)
  /\ (forall p_val, (length p_val < 7)%nat ->
        control_write_handler s conn p_val now = s).
Proof.
  split; [reflexivity|]. split; [reflexivity|]. split.
  - intros Hb. apply (Barrier.control_write_ack generate_block_data s conn b secs now Hb).
  - intros p_val Hlen. unfold app_data_transfer_control_write_handler.
    unfold sizeof_control_msg_t. apply Nat.ltb_lt in Hlen. rewrite Hlen. reflexivity.
Qed.

(** X21.  STOP and a disconnection leave [waiting_for_ack] set.  When the
    session was waiting for an ACK, an ACK that arrives after the STOP,
    or after the pause, puts the session back in the Active state at the
    position where it was, without START or resume. *)
Theorem late_ack_reactivates_a_stopped_transfer s conn now secs b :
  current_state (trk s) = TRANSFER_STATE_WAITING_ACK ->
  waiting_for_ack (trk s) = true ->
  last_acked_block (trk s) <= b < 65536 ->
  0 <= b ->
  let stopped := app_data_transfer_stop s in
  let paused := app_data_transfer_pause s in
  let stopped' := control_write_handler stopped conn (Central.sendAck b secs) now in
  let paused' := control_write_handler paused conn (Central.sendAck b secs) now in
  current_state (trk stopped) = TRANSFER_STATE_IDLE
  /\ current_state (trk paused) = TRANSFER_STATE_PAUSED
  /\ current_state (trk stopped') = TRANSFER_STATE_ACTIVE
  /\ current_state (trk paused') = TRANSFER_STATE_ACTIVE
  /\ current_block (trk stopped') = current_block (trk s)
  /\ current_chunk (trk stopped') = current_chunk (trk s)
  /\ current_block (trk paused') = current_block (trk s)
  /\ current_chunk (trk paused') = current_chunk (trk s).
Proof.
  intros Hst Hw Hb Hb0. cbv zeta.
  rewrite !(Barrier.control_write_ack generate_block_data _ conn b secs now)
    by lia.
  unfold app_data_transfer_pause. rewrite Hst. cbn [state_eqb orb].
  unfold handle_ack, app_data_transfer_stop.
  cbn [trk set_state last_acked_block waiting_for_ack current_state
       current_block current_chunk].
  destruct (Z.leb_spec (last_acked_block (trk s)) b); [|lia].
  cbn [trk current_state current_block current_chunk]. rewrite Hw.
  repeat split.
Qed.

(** X22.  A resume after a pause restarts at chunk 0 of the last acknowledged
    block, whose data is generated again, in the Active state and
    outside any ACK wait; the pause has counted one disconnection; the
    credits and the pacing delay are those of before the pause. *)
Theorem resume_after_pause_restarts_at_last_acknowledged_block s conn :
  current_state (trk s) = TRANSFER_STATE_ACTIVE
  \/ current_state (trk s) = TRANSFER_STATE_WAITING_ACK ->
  notifications_enabled (szg s) = true ->
  let '(s', ok) := resume (app_data_transfer_pause s) conn in
  ok = true
  /\ current_state (trk s') = TRANSFER_STATE_ACTIVE
  /\ waiting_for_ack (trk s') = false
  /\ current_block (trk s') = last_acked_block (trk s)
  /\ current_chunk (trk s') = 0
  /\ last_acked_block (trk s') = last_acked_block (trk s)
  /\ block_data (trk s') = generate_block_data (last_acked_block (trk s))
  /\ disconnections (stats s') = u32 (disconnections (stats s) + 1)
  /\ total_chunks (stats s') = total_chunks (stats s)
  /\ pac s' = pac s.
Proof.
  intros Hst Hen.
  unfold app_data_transfer_pause.
  assert (E : state_eqb (current_state (trk s)) TRANSFER_STATE_ACTIVE
              || state_eqb (current_state (trk s)) TRANSFER_STATE_WAITING_ACK = true).
  { destruct Hst as [-> | ->]; reflexivity. }
  rewrite E. unfold app_data_transfer_resume.
  cbn [trk szg set_state current_state state_eqb negb]. rewrite Hen.
  cbn [negb]. repeat split.
Qed.

(** X23.  [app_data_transfer_set_mtu] for a 16-bit MTU: the division by the
    chunk size is undefined for an MTU of 15; for a larger MTU the chunk
    payload is the MTU less 15 bytes; for a smaller one the subtraction
    wraps to more than 65520 bytes.  The chunks per block are the least
    number of chunks that cover 7168 bytes.  The transfer position, the
    pacing and the statistics are not touched. *)
Theorem set_mtu_chunk_sizing s mtu :
  0 <= mtu < 65536 ->
  match app_data_transfer_set_mtu s mtu with
  | None => mtu = 15
  | Some s' =>
      let cs := actual_chunk_size (szg s') in
      let n := actual_chunks_per_block (szg s') in
      mtu <> 15
      /\ cs = (if 15 <=? mtu then mtu - 15 else mtu + 65521)
      /\ (n - 1) * cs < BLOCK_SIZE_MAX <= n * cs
      /\ negotiated_mtu (szg s') = mtu
      /\ trk s' = trk s /\ pac s' = pac s /\ stats s' = stats s
  end.
Proof.
  intros Hm. unfold app_data_transfer_set_mtu, sizeof_chunk_header_t.
  assert (Hcs : u16 (mtu - 3 - 12) = if 15 <=? mtu then mtu - 15 else mtu + 65521).
  { unfold u16. change (2 ^ 16) with 65536.
    replace (mtu - 3 - 12) with (mtu - 15) by lia.
    destruct (Z.leb_spec 15 mtu).
    - apply Z.mod_small. lia.
    - symmetry. apply Z.mod_unique with (-1); lia. }
  rewrite Hcs.
  set (cs := if 15 <=? mtu then mtu - 15 else mtu + 65521).
  assert (Hrange : 0 <= cs < 65536).
  { unfold cs. destruct (Z.leb_spec 15 mtu); lia. }
  destruct (Z.eqb_spec cs 0) as [E0|Hne].
  - unfold cs in E0. destruct (Z.leb_spec 15 mtu); lia.
  - cbn [szg actual_chunk_size actual_chunks_per_block negotiated_mtu trk pac stats].
    split.
    { intros ->. apply Hne. reflexivity. }
    clearbody cs.
    split; [reflexivity|]. split; [|repeat split].
    unfold BLOCK_SIZE_MAX, u32, u16.
    rewrite (Z.mod_small (7168 + cs - 1)) by (change (2 ^ 32) with 4294967296; lia).
    pose proof (Z.div_mod (7168 + cs - 1) cs ltac:(lia)) as Hdm.
    pose proof (Z.mod_pos_bound (7168 + cs - 1) cs ltac:(lia)) as Hmb.
    rewrite Z.mod_small by (change (2 ^ 16) with 65536; nia).
    nia.
Qed.

End WithBlockSource.

Lemma late_ack_reactivates_a_stopped_transfer_witness :
  let s := Waiting.after_block_19 in
  let stopped := app_data_transfer_stop s in
  let paused := app_data_transfer_pause s in
  let stopped' :=
    app_data_transfer_control_write_handler small_source stopped 1
      (Central.sendAck 19 0) 2 in
  let paused' :=
    app_data_transfer_control_write_handler small_source paused 1
      (Central.sendAck 19 0) 2 in
  current_state (trk stopped) = TRANSFER_STATE_IDLE
  /\ current_state (trk paused) = TRANSFER_STATE_PAUSED
  /\ current_state (trk stopped') = TRANSFER_STATE_ACTIVE
  /\ current_state (trk paused') = TRANSFER_STATE_ACTIVE
  /\ current_block (trk stopped') = current_block (trk s)
  /\ current_chunk (trk stopped') = current_chunk (trk s)
  /\ current_block (trk paused') = current_block (trk s)
  /\ current_chunk (trk paused') = current_chunk (trk s).
Proof.
  apply (late_ack_reactivates_a_stopped_transfer small_source
           Waiting.after_block_19 1 2 0 19).
  - reflexivity.
  - reflexivity.
  - vm_compute. split; [discriminate|reflexivity].
  - lia.
Defined.

Lemma resume_after_pause_restarts_at_last_acknowledged_block_witness :
  let '(s', ok) :=
    app_data_transfer_resume small_source
      (app_data_transfer_pause Waiting.after_block_19) 1 in
  ok = true
  /\ current_state (trk s') = TRANSFER_STATE_ACTIVE
  /\ waiting_for_ack (trk s') = false
  /\ current_block (trk s') = last_acked_block (trk Waiting.after_block_19)
  /\ current_chunk (trk s') = 0
  /\ last_acked_block (trk s') = last_acked_block (trk Waiting.after_block_19)
  /\ block_data (trk s')
     = small_source (last_acked_block (trk Waiting.after_block_19))
  /\ disconnections (stats s')
     = u32 (disconnections (stats Waiting.after_block_19) + 1)
  /\ total_chunks (stats s') = total_chunks (stats Waiting.after_block_19)
  /\ pac s' = pac Waiting.after_block_19.
Proof.
  apply (resume_after_pause_restarts_at_last_acknowledged_block small_source
           Waiting.after_block_19 1).
  - right. reflexivity.
  - reflexivity.
Defined.

Lemma set_mtu_chunk_sizing_witness :
  match app_data_transfer_set_mtu initial_state 247 with
  | None => 247 = 15
  | Some s' =>
      let cs := actual_chunk_size (szg s') in
      let n := actual_chunks_per_block (szg s') in
      247 <> 15
      /\ cs = (if 15 <=? 247 then 247 - 15 else 247 + 65521)
      /\ (n - 1) * cs < BLOCK_SIZE_MAX <= n * cs
      /\ negotiated_mtu (szg s') = 247
      /\ trk s' = trk initial_state /\ pac s' = pac initial_state
      /\ stats s' = stats initial_state
  end.
Proof.
  apply (set_mtu_chunk_sizing initial_state 247). lia.
Defined.

End Control.

(** ** Sender: the task's rounds, and the handshake with the central *)

Module Flow.

Import Sender Task Examples.

Lemma send_chunk_credits s bn cn status now s1 r sent :
  send_chunk s bn cn status now = Some (s1, r, sent) ->
  notification_credits (pac s1)
  = (if r then i16 (notification_credits (pac s) - 1)
     else notification_credits (pac s))
  /\ stats s1 = (if r then stats s else stats s1).
Proof.
  unfold send_chunk.
  destruct (notification_credits (pac s) <=? 0);
    [intros [= <- <- _]; split; reflexivity|].
  destruct (actual_chunk_size (szg s) =? 0); [discriminate|].
  destruct status; intros [= <- <- _]; split; reflexivity.
Qed.

Section WithBlockSource.

Variable generate_block_data : Z -> list byte.

Local Abbreviation process_next_chunk :=
  (app_data_transfer_process_next_chunk generate_block_data).
Local Abbreviation step_emitting := (Task.step_emitting generate_block_data).
Local Abbreviation drive := (Task.drive generate_block_data).

Lemma process_next_chunk_credits s status now s' r sent :
  process_next_chunk s status now = Some (s', r, sent) ->
  Z.of_nat (length sent) <= 1
  /\ notification_credits (pac s')
     = (if (length sent =? 0)%nat then notification_credits (pac s)
        else i16 (notification_credits (pac s) - 1))
  /\ ((0 < length sent)%nat -> 0 < notification_credits (pac s)).
Proof.
  unfold app_data_transfer_process_next_chunk.
  destruct (negb _); [intros [= <- _ <-]; simpl; split; [lia|split; [reflexivity|lia]]|].
  destruct (waiting_for_ack (trk s));
    [intros [= <- _ <-]; simpl; split; [lia|split; [reflexivity|lia]]|].
  destruct (TOTAL_BLOCKS <=? _);
    [intros [= <- _ <-]; simpl; split; [lia|split; [reflexivity|lia]]|].
  destruct (send_chunk s _ _ status now) as [[[s1 ok] sent1]|] eqn:E; [|discriminate].
  pose proof (Pacing.send_chunk_cases _ _ _ _ _ _ _ _ E) as (_ & _ & _ & _ & _ & Hr).
  pose proof (send_chunk_credits _ _ _ _ _ _ _ _ E) as (Hc & _).
  destruct ok.
  - destruct Hr as (-> & _ & Hpos).
    destruct (_ <=? _); intros [= <- _ <-]; cbn [pac length Nat.eqb];
      (split; [lia|split; [exact Hc|intros _; exact Hpos]]).
  - subst sent1. intros [= <- _ <-]. cbn [length Nat.eqb].
    split; [lia|split; [exact Hc|lia]].
Qed.

(** One operation other than a transmission confirmation or an
    initialisation: what it emits is paid for in credits. *)
Lemma step_pays_in_credits s o s1 sent :
  o <> NotificationSent -> o <> Init ->
  0 <= notification_credits (pac s) <= MAX_NOTIFICATIONS_IN_FLIGHT ->
  step_emitting s o = Some (s1, sent) ->
  Z.of_nat (length sent) + notification_credits (pac s1)
  = notification_credits (pac s)
  /\ 0 <= notification_credits (pac s1) <= MAX_NOTIFICATIONS_IN_FLIGHT.
Proof.
  intros Hns Hinit Hc.
  assert (Hsame : forall a, pac a = pac s ->
            Z.of_nat (length (@nil (list byte))) + notification_credits (pac a)
            = notification_credits (pac s)
            /\ 0 <= notification_credits (pac a) <= MAX_NOTIFICATIONS_IN_FLIGHT).
  { intros a ->. simpl. split; [reflexivity|exact Hc]. }
  destruct o as [|mtu|conn now| | |conn|status now|conn p_val now|conn enabled|];
    try contradiction; unfold Task.step_emitting; cbn [step].
  - unfold app_data_transfer_set_mtu. destruct (_ =? 0); [discriminate|].
    intros [= <- <-]. apply Hsame. reflexivity.
  - intros [= <- <-]. apply Hsame. unfold app_data_transfer_start.
    destruct (negb _); reflexivity.
  - intros [= <- <-]. apply Hsame. reflexivity.
  - intros [= <- <-]. apply Hsame. unfold app_data_transfer_pause.
    destruct (_ || _); reflexivity.
  - intros [= <- <-]. apply Hsame. unfold app_data_transfer_resume.
    destruct (negb (state_eqb _ _)); [reflexivity|].
    destruct (negb _); reflexivity.
  - destruct (app_data_transfer_process_next_chunk generate_block_data s status now)
      as [[[s2 r] sent2]|] eqn:E; [|discriminate].
    intros [= <- <-].
    apply process_next_chunk_credits in E. destruct E as (Hlen & Hcr & Hpos).
    unfold MAX_NOTIFICATIONS_IN_FLIGHT in *.
    destruct sent2 as [|p [|q rest]]; cbn [length Nat.eqb] in *; try lia.
    rewrite Hcr. rewrite Pacing.i16_small by lia. lia.
  - intros [= <- <-]. apply Hsame. unfold app_data_transfer_control_write_handler.
    destruct (_ <? _)%nat; [reflexivity|].
    destruct (_ =? CTRL_CMD_START).
    + unfold app_data_transfer_start. destruct (negb _); reflexivity.
    + destruct (_ =? CTRL_CMD_STOP); [reflexivity|].
      destruct (_ =? CTRL_CMD_ACK); [|reflexivity].
      unfold handle_ack. destruct (_ <=? _); reflexivity.
  - intros [= <- <-]. apply Hsame. unfold app_data_transfer_cccd_write_handler.
    destruct (negb enabled && _); [|reflexivity].
    unfold app_data_transfer_pause. simpl. destruct (_ || _); reflexivity.
Qed.


End WithBlockSource.


End Flow.

(** ** Sender: a whole block, round after round *)

Module Rounds.

Import Sender Task Examples.

Lemma send_chunk_accepted s bn cn now :
  0 < notification_credits (pac s) -> actual_chunk_size (szg s) <> 0 ->
  exists s1,
    send_chunk s bn cn GATT_SUCCESS now
    = Some (s1, true,
            [chunk_packet (block_data (trk s)) (current_block_size (trk s))
               (actual_chunk_size (szg s)) bn cn])
    /\ trk s1 = trk s /\ szg s1 = szg s /\ stats s1 = stats s
    /\ notification_credits (pac s1) = i16 (notification_credits (pac s) - 1).
Proof.
  intros Hc Hs. unfold send_chunk.
  destruct (Z.leb_spec (notification_credits (pac s)) 0); [lia|].
  destruct (Z.eqb_spec (actual_chunk_size (szg s)) 0); [contradiction|].
  eexists. split; [reflexivity|]. repeat split.
Qed.

Section OneBlock.

Variable generate_block_data : Z -> list byte.
Variable data : list byte.
Variables cs b : Z.

Local Abbreviation B := (Z.of_nat (length data)).

Hypothesis block_size : 1 <= B <= 65535.
Hypothesis chunk_payload_size : 1 <= cs <= 65535.
Hypothesis block_number_ok : 0 <= b < TOTAL_BLOCKS.

Local Abbreviation n := ((B + cs - 1) / cs).
Local Abbreviation packet :=
  (fun k : nat => chunk_packet data B cs b (Z.of_nat k)).
Local Abbreviation drive := (Task.drive generate_block_data).

(** The sender about to send chunk [k] of the block. *)
Local Abbreviation at_chunk k s :=
  (current_state (trk s) = TRANSFER_STATE_ACTIVE
   /\ waiting_for_ack (trk s) = false
   /\ current_block (trk s) = b
   /\ current_chunk (trk s) = Z.of_nat k
   /\ block_data (trk s) = data
   /\ current_block_size (trk s) = B
   /\ actual_chunk_size (szg s) = cs
   /\ 1 <= notification_credits (pac s) <= 2).

(** One round: the task's step, then the confirmation. *)
Lemma round (k : nat) (s : sender) (now : Z) :
  at_chunk k s -> (k < Z.to_nat n)%nat ->
  exists s2,
    drive s [ProcessNextChunk GATT_SUCCESS now; NotificationSent]
    = Some (s2, [packet k])
    /\ notification_credits (pac s2) = notification_credits (pac s)
    /\ ((S k < Z.to_nat n)%nat ->
        at_chunk (S k) s2 /\ blocks_sent (stats s2) = blocks_sent (stats s))
    /\ (S k = Z.to_nat n ->
        current_block (trk s2) = b + 1
        /\ current_chunk (trk s2) = 0
        /\ blocks_sent (stats s2) = u16 (blocks_sent (stats s) + 1)).
Proof.
  intros (Hst & Hw & Hblk & Hchk & Hdata & Hsize & Hcs & Hcr) Hk.
  destruct (Reassembly.chunks_in_any_block B cs block_size chunk_payload_size)
    as (Hn & Hnr & _).
  destruct (send_chunk_accepted s (current_block (trk s)) (current_chunk (trk s)) now
              ltac:(lia) ltac:(lia)) as (s1 & Hsend & Ht & Hz & Hstats & Hc1).
  rewrite Pacing.i16_small in Hc1 by lia.
  cbn [Task.drive Task.step_emitting].
  unfold app_data_transfer_process_next_chunk.
  rewrite Hst, Hw. cbn [state_eqb negb].
  destruct (Z.leb_spec TOTAL_BLOCKS (current_block (trk s))); [lia|].
  rewrite Hsend. cbv zeta.
  rewrite Hsize, Hcs, Hn, Hchk, Hblk, Hdata.
  rewrite (u16_small (Z.of_nat k + 1)) by lia.
  unfold TOTAL_BLOCKS in block_number_ok.
  rewrite (u16_small (b + 1)) by lia.
  destruct (Z.leb_spec n (Z.of_nat k + 1)) as [Hlast|Hmore].
  - (* the last chunk of the block *)
    match goal with
    | |- context [step generate_block_data ?s1' NotificationSent] =>
        set (sa := s1')
    end.
    assert (Hca : notification_credits (pac sa) = notification_credits (pac s) - 1)
      by exact Hc1.
    cbn [step]. unfold app_data_transfer_notification_sent.
    unfold MAX_NOTIFICATIONS_IN_FLIGHT.
    destruct (Z.ltb_spec (notification_credits (pac sa)) 2); [|lia].
    eexists. split; [reflexivity|].
    cbn [pac notification_credits trk stats]. rewrite Hca.
    split; [rewrite Pacing.i16_small by lia; lia|].
    split; [intros Hlt; lia|].
    intros _. unfold sa. cbn [trk stats count_chunk blocks_sent].
    rewrite Hstats.
    destruct (b + 1 <? TOTAL_BLOCKS); cbn [load_block current_block current_chunk];
      repeat split.
  - match goal with
    | |- context [step generate_block_data ?s1' NotificationSent] =>
        set (sa := s1')
    end.
    assert (Hca : notification_credits (pac sa) = notification_credits (pac s) - 1)
      by exact Hc1.
    cbn [step]. unfold app_data_transfer_notification_sent.
    unfold MAX_NOTIFICATIONS_IN_FLIGHT.
    destruct (Z.ltb_spec (notification_credits (pac sa)) 2); [|lia].
    eexists. split; [reflexivity|].
    cbn [pac notification_credits trk stats szg]. rewrite Hca.
    split; [rewrite Pacing.i16_small by lia; lia|].
    split; [|intros Heq; lia].
    intros _. unfold sa.
    cbn [trk szg stats count_chunk blocks_sent current_state waiting_for_ack
         current_block current_chunk block_data current_block_size].
    rewrite Hz, Hstats, Pacing.i16_small by lia.
    repeat split; try assumption; lia.
Qed.

Lemma rounds_from (times : list Z) :
  forall (k : nat) (s : sender),
    at_chunk k s -> times <> [] ->
    (k + length times = Z.to_nat n)%nat ->
    exists s',
      drive s (Task.rounds times)
      = Some (s', map packet (seq k (length times)))
      /\ current_block (trk s') = b + 1
      /\ current_chunk (trk s') = 0
      /\ blocks_sent (stats s') = u16 (blocks_sent (stats s) + 1)
      /\ notification_credits (pac s') = notification_credits (pac s).
Proof.
  induction times as [|now rest IH]; intros k s Hat Hne Hlen; [contradiction|].
  destruct (round k s now Hat ltac:(simpl in Hlen; lia))
    as (s2 & Hround & Hcr & Hmore & Hlast).
  change (Task.rounds (now :: rest))
    with ([ProcessNextChunk GATT_SUCCESS now; NotificationSent] ++ Task.rounds rest).
  cbn [app Task.drive] in Hround |- *.
  destruct (Task.step_emitting generate_block_data s (ProcessNextChunk GATT_SUCCESS now))
    as [[sa sent_a]|]; [|discriminate].
  destruct (Task.step_emitting generate_block_data sa NotificationSent)
    as [[sb sent_b]|]; [|discriminate].
  injection Hround as -> Hsent.
  destruct rest as [|now' rest].
  - simpl in Hlen. destruct (Hlast ltac:(lia)) as (Hb1 & Hc1 & Hbs).
    exists s2. cbn [Task.rounds flat_map Task.drive length seq map].
    rewrite app_nil_r in Hsent. rewrite app_nil_r, Hsent.
    repeat split; assumption.
  - simpl in Hlen. destruct (Hmore ltac:(lia)) as (Hat2 & Hbs2).
    destruct (IH (S k) s2 Hat2 ltac:(discriminate) ltac:(simpl; lia))
      as (s' & Hdrive & Hb1 & Hc1 & Hbs & Hcr').
    exists s'. rewrite Hdrive.
    split.
    + f_equal. f_equal.
      rewrite app_nil_r in Hsent.
      change (sent_a ++ sent_b ++ map packet (seq (S k) (length (now' :: rest))))
        with (sent_a ++ (sent_b ++ map packet (seq (S k) (length (now' :: rest))))).
      rewrite app_assoc, Hsent. reflexivity.
    + rewrite Hb1, Hc1, Hbs, Hcr', Hbs2, Hcr. repeat split.
Qed.

End OneBlock.



End Rounds.

(** ** The ACK handshake between the central and the peripheral *)

Module Handshake.

Import Examples.

(** The block number the ACK callback is given. *)
Lemma ack_event_block uncompress rs data len b :
  Receiver.OnAck b
    ∈ (Receiver.transfer_session_process_chunk uncompress rs data len).2 ->
  0 < b < TOTAL_BLOCKS /\ (b + 1) mod ACK_INTERVAL = 0.
Proof.
  destruct (Calls.process_chunk_outcome uncompress rs data len)
    as [[_ ->]|[(_ & _ & _ & ->)|(_ & Hb & _ & s2 & events & Hc & ->)]];
    cbn [snd]; intros H.
  - Session.in_events.
  - Session.in_events.
  - apply Session.complete_block_events in Hc. destruct Hc as (-> & _).
    unfold Receiver.waveform_events in H. Session.in_events; subst.
    match goal with
    | H : _ && _ && _ = true |- _ =>
        apply andb_prop in H; destruct H as [H _];
        apply andb_prop in H; destruct H as [Hpos Hmod]
    end.
    apply Z.ltb_lt in Hpos. apply Z.eqb_eq in Hmod.
    split; [split; assumption|assumption].
Qed.

(** X26.  The handshake at an ACK barrier.  When the central invokes its ACK
    callback for block [b] and writes the ACK the callback asks for,
    the peripheral, which waits before block [b + 1], returns to the
    Active state with [last_acked_block] equal to its current block, a
    multiple of 20 not above 1800. *)
Theorem acknowledgement_reopens_the_sender
  (uncompress : list byte -> nat -> Z * list byte)
  (generate_block_data : Z -> list byte)
  (rs : Receiver.transfer_session) (data : ptr) (len : nat)
  (s : Sender.sender) (conn secs now b : Z) :
  Receiver.OnAck b
    ∈ (Receiver.transfer_session_process_chunk uncompress rs data len).2 ->
  Sender.current_state (Sender.trk s) = Sender.TRANSFER_STATE_WAITING_ACK ->
  Sender.waiting_for_ack (Sender.trk s) = true ->
  Sender.current_block (Sender.trk s) = b + 1 ->
  Sender.last_acked_block (Sender.trk s) <= b ->
  let s' :=
    Sender.app_data_transfer_control_write_handler generate_block_data s conn
      (Central.sendAck b secs) now in
  Sender.current_state (Sender.trk s') = Sender.TRANSFER_STATE_ACTIVE
  /\ Sender.waiting_for_ack (Sender.trk s') = false
  /\ Sender.current_block (Sender.trk s') = b + 1
  /\ Sender.last_acked_block (Sender.trk s') = Sender.current_block (Sender.trk s')
  /\ Sender.current_block (Sender.trk s') mod ACK_INTERVAL = 0
  /\ Sender.current_block (Sender.trk s') <= TOTAL_BLOCKS.
Proof.
  intros Hack Hst Hw Hblk Hacked. cbv zeta.
  apply ack_event_block in Hack. destruct Hack as (Hb & Hmod).
  unfold TOTAL_BLOCKS in Hb.
  change (Central.sendAck b secs) with (Sender.ack_msg b secs).
  rewrite (Barrier.control_write_ack generate_block_data s conn b secs now) by lia.
  unfold Sender.handle_ack.
  destruct (Z.leb_spec (Sender.last_acked_block (Sender.trk s)) b); [|lia].
  cbn [Sender.trk Sender.current_state Sender.waiting_for_ack
       Sender.current_block Sender.last_acked_block].
  rewrite Hw, Hblk, (u16_small (b + 1)) by lia.
  repeat split; try assumption. unfold TOTAL_BLOCKS. lia.
Qed.

Lemma acknowledgement_reopens_the_sender_witness :
  let s' :=
    Sender.app_data_transfer_control_write_handler small_source
      Waiting.after_block_19 1 (Central.sendAck 19 0) 2 in
  Sender.current_state (Sender.trk s') = Sender.TRANSFER_STATE_ACTIVE
  /\ Sender.waiting_for_ack (Sender.trk s') = false
  /\ Sender.current_block (Sender.trk s') = 19 + 1
  /\ Sender.last_acked_block (Sender.trk s') = Sender.current_block (Sender.trk s')
  /\ Sender.current_block (Sender.trk s') mod ACK_INTERVAL = 0
  /\ Sender.current_block (Sender.trk s') <= TOTAL_BLOCKS.
Proof.
  apply (acknowledgement_reopens_the_sender zlib_rejects small_source started
           (buffer (chunk_frame 19 0 1 [])) 12 Waiting.after_block_19 1 0 2 19).
  - vm_compute. apply elem_of_cons. left. reflexivity.
  - reflexivity.
  - reflexivity.
  - reflexivity.
  - vm_compute. discriminate.
Defined.

End Handshake.

(** ** What neither side consults *)

Module Unused.

Import Examples.

Section Central.

Import Codec Receiver.

Variable uncompress : list byte -> nat -> Z * list byte.

(** X27.  The expected-chunk map is written and erased but never read: a
    block is complete when the number of chunks stored for it equals the
    [total_chunks] field of the notification at hand.  With any other
    expected-chunk map the call returns the same value, invokes the same
    callbacks and leaves the same received blocks, partial chunks,
    counters and active flag. *)
Theorem expected_chunk_count_is_never_consulted
  (s : transfer_session) (expected : gmap Z Z) (data : ptr) (len : nat) :
  let '(ok, s', events) := transfer_session_process_chunk uncompress s data len in
  let '(ok2, s2, events2) :=
    transfer_session_process_chunk uncompress (Arrivals.with_expected expected s)
      data len in
  ok2 = ok /\ events2 = events
  /\ received_blocks s2 = received_blocks s'
  /\ block_chunks s2 = block_chunks s'
  /\ total_chunks_received s2 = total_chunks_received s'
  /\ total_bytes_received s2 = total_bytes_received s'
  /\ is_active s2 = is_active s'.
Proof.
  unfold transfer_session_process_chunk.
  destruct (len <? 12)%nat; [repeat split|].
  cbv zeta. destruct (TOTAL_BLOCKS <=? _); [repeat split|].
  set (bn := u16 (le16 data 0)). set (cn := u16 (le16 data 2)).
  set (cs := u16 (le16 data 4)). set (tc := u16 (le16 data 6)).
  set (d := read_range data 12 (Z.to_nat cs)).
  assert (Hstore : exists e1 e2,
             store_chunk s bn cn cs tc d
             = Arrivals.with_expected e1 (store_chunk s bn cn cs tc d)
             /\ store_chunk (Arrivals.with_expected expected s) bn cn cs tc d
                = Arrivals.with_expected e2 (store_chunk s bn cn cs tc d)).
  { unfold store_chunk, Arrivals.with_expected. cbn [block_chunks block_expected_chunks].
    destruct (block_chunks s !! bn); eexists; eexists; split; reflexivity. }
  destruct Hstore as (e1 & e2 & _ & ->).
  generalize (store_chunk s bn cn cs tc d). intros s1.
  cbn [Arrivals.with_expected block_chunks].
  destruct (_ =? tc); [|repeat split].
  unfold complete_block. cbv zeta.
  cbn [Arrivals.with_expected block_chunks received_blocks waveform_callback
       ack_callback progress_callback completion_callback].
  destruct (_ =? TOTAL_BLOCKS); repeat split.
Qed.

End Central.

Section Peripheral.

Import Sender.

Variable generate_block_data : Z -> list byte.

(** X28.  Notifications that are disabled while the sender waits for an ACK
    do not pause the transfer (the CCCD handler pauses in the Active
    state only), and [send_chunk] does not look at the flag: once the
    ACK arrives the sender is Active with notifications disabled, and
    its next step emits the current chunk. *)
Theorem disabled_notifications_do_not_stop_a_waiting_transfer
  (s : sender) (conn secs now now' b : Z) :
  current_state (trk s) = TRANSFER_STATE_WAITING_ACK ->
  waiting_for_ack (trk s) = true ->
  last_acked_block (trk s) <= b < 65536 ->
  0 <= b ->
  current_block (trk s) < TOTAL_BLOCKS ->
  0 < notification_credits (pac s) ->
  actual_chunk_size (szg s) <> 0 ->
  let s1 := app_data_transfer_cccd_write_handler s conn false in
  let s2 :=
    app_data_transfer_control_write_handler generate_block_data s1 conn
      (Central.sendAck b secs) now in
  current_state (trk s1) = TRANSFER_STATE_WAITING_ACK
  /\ notifications_enabled (szg s2) = false
  /\ current_state (trk s2) = TRANSFER_STATE_ACTIVE
  /\ exists s3,
       app_data_transfer_process_next_chunk generate_block_data s2 GATT_SUCCESS now'
       = Some (s3, true,
               [chunk_packet (block_data (trk s)) (current_block_size (trk s))
                  (actual_chunk_size (szg s)) (current_block (trk s))
                  (current_chunk (trk s))]).
Proof.
  intros Hst Hw Hb Hb0 Hblk Hcr Hcs. cbv zeta.
  change (Central.sendAck b secs) with (ack_msg b secs).
  rewrite (Barrier.control_write_ack generate_block_data _ conn b secs now) by lia.
  unfold app_data_transfer_cccd_write_handler. rewrite Hst.
  cbn [negb state_eqb andb].
  split; [exact Hst|].
  unfold handle_ack. cbn [trk last_acked_block].
  destruct (Z.leb_spec (last_acked_block (trk s)) b); [|lia].
  cbn [trk szg notifications_enabled current_state waiting_for_ack]. rewrite Hw.
  split; [reflexivity|]. split; [reflexivity|].
  match goal with
  | |- context [app_data_transfer_process_next_chunk _ ?s2 _ _] =>
      destruct (Barrier.process_next_chunk_emits_current_chunk generate_block_data
                  s2 now') as (s3 & E);
        [reflexivity|reflexivity|exact Hblk|exact Hcr|exact Hcs|]
  end.
  exists s3. exact E.
Qed.

End Peripheral.

Lemma disabled_notifications_do_not_stop_a_waiting_transfer_witness :
  let s := Waiting.after_block_19 in
  let s1 := Sender.app_data_transfer_cccd_write_handler s 1 false in
  let s2 :=
    Sender.app_data_transfer_control_write_handler small_source s1 1
      (Central.sendAck 19 0) 2 in
  Sender.current_state (Sender.trk s1) = Sender.TRANSFER_STATE_WAITING_ACK
  /\ Sender.notifications_enabled (Sender.szg s2) = false
  /\ Sender.current_state (Sender.trk s2) = Sender.TRANSFER_STATE_ACTIVE
  /\ exists s3,
       Sender.app_data_transfer_process_next_chunk small_source s2
         Sender.GATT_SUCCESS 3
       = Some (s3, true,
               [Sender.chunk_packet (Sender.block_data (Sender.trk s))
                  (Sender.current_block_size (Sender.trk s))
                  (Sender.actual_chunk_size (Sender.szg s))
                  (Sender.current_block (Sender.trk s))
                  (Sender.current_chunk (Sender.trk s))]).
Proof.
  apply (disabled_notifications_do_not_stop_a_waiting_transfer small_source
           Waiting.after_block_19 1 0 2 3 19).
  - reflexivity.
  - reflexivity.
  - vm_compute. split; [discriminate|reflexivity].
  - lia.
  - vm_compute. reflexivity.
  - vm_compute. reflexivity.
  - vm_compute. discriminate.
Defined.

End Unused.
